(** * Verification of the search client (public/js/client.js)

    A shallow embedding of the browser-side controller: the module-level
    session state, the part of the DOM the script touches, the socket event
    handlers, the paginated renderer, the video-link resolver (with the
    backtracking semantics of the regular expressions it uses), the result
    card with its watch toggle, and the submit listener.

    Conventions.
    - A JavaScript string is a [string]: a sequence of code units below 256.
    - A value that may be [undefined] or [null] is an [option] where the
      script only tests it ([if (x)], [x || d]); where a template literal
      prints it, it is a [Js.Nullable], which tells the two apart.
    - Markup assigned to [innerHTML] is followed as far as the script
      depends on it: through the elements with an [id] that the HTML parser
      builds from it, which [document.getElementById] may find ahead of the
      element the script means.  The parser is part of the page
      ([parseHTML]).  The element with id [results] is the one the page
      itself provides, and the page as loaded has no element with the id
      of the loader or of the Show-More button.
    - [addSearchResult], which nothing calls, is left out.
    - A DOM element looked up by id is an [option]: the script guards some
      lookups ([if (statusElement)]) and dereferences others unguarded; an
      unguarded dereference of a missing element raises a TypeError, which
      aborts the running handler and keeps the mutations made so far. *)

From Stdlib Require Import String Ascii List Arith Lia Bool DecimalString.
Import ListNotations.
Local Open Scope string_scope.
Local Open Scope nat_scope.
Local Open Scope list_scope.

(** ** JavaScript strings *)

Module Js.

(** [''] is the only falsy string. *)
Definition truthy (s : string) : bool :=
  match s with
  | EmptyString => false
  | String _ _ => true
  end.

(** [undefined] is falsy, a string is truthy unless empty. *)
Definition truthy_opt (o : option string) : bool :=
  match o with
  | None => false
  | Some s => truthy s
  end.

(** [a || b] on possibly undefined strings, with a string default. *)
Definition or_else (o : option string) (d : string) : string :=
  match o with
  | Some s => if truthy s then s else d
  | None => d
  end.

Definition dquote : string := String "034"%char EmptyString.
Definition newline : string := String "010"%char EmptyString.

Fixpoint spaces (n : nat) : string :=
  match n with
  | O => EmptyString
  | S n' => String " "%char (spaces n')
  end.

(** A property that a template literal prints: missing, [null], or a
    value. *)
Inductive Nullable (A : Type) : Type :=
| undefined
| null
| value (a : A).

Arguments undefined {A}.
Arguments null {A}.
Arguments value {A} a.

(** Template literal [${v}]. *)
Definition show {A : Type} (print : A -> string) (v : Nullable A) : string :=
  match v with
  | undefined => "undefined"
  | null => "null"
  | value a => print a
  end.

(** Decimal rendering of a non-negative integer. *)
Definition show_nat (n : nat) : string :=
  NilZero.string_of_uint (Nat.to_uint n).

(** White space and line terminators below code unit 256, as removed by
    [String.prototype.trim]: TAB, LF, VT, FF, CR, SP, NBSP. *)
Definition is_space (c : ascii) : bool :=
  let n := nat_of_ascii c in
  ((9 <=? n) && (n <=? 13)) || (n =? 32) || (n =? 160).

Fixpoint trim_start (s : string) : string :=
  match s with
  | EmptyString => EmptyString
  | String c s' => if is_space c then trim_start s' else s
  end.

(** Removes trailing white space: a character is kept when it is not white
    space or when something is kept after it. *)
Fixpoint trim_end (s : string) : string :=
  match s with
  | EmptyString => EmptyString
  | String c s' =>
      match trim_end s' with
      | EmptyString => if is_space c then EmptyString else String c EmptyString
      | t => String c t
      end
  end.

Definition trim (s : string) : string := trim_end (trim_start s).

(** [s.includes(t)] *)
Fixpoint includes (s t : string) : bool :=
  prefix t s ||
  match s with
  | EmptyString => false
  | String _ s' => includes s' t
  end.

End Js.

(** ** Regular expressions

    The fragment of the ECMAScript pattern language used by the resolver,
    with its backtracking semantics under the [i] flag: pattern characters,
    character classes, sequence, alternation, the greedy [?], the greedy [+]
    over a character class, and one capturing group. *)

Module RegExp.

Inductive regex : Type :=
| Eps
| Chr (c : ascii)
| Cls (negated : bool) (ranges : list (ascii * ascii))
| Seq (r1 r2 : regex)
| Alt (r1 r2 : regex)
| Opt (r : regex)
| PlusCls (negated : bool) (ranges : list (ascii * ascii))
| Group (r : regex).

(** A run of pattern characters. *)
Fixpoint lit (s : string) : regex :=
  match s with
  | EmptyString => Eps
  | String c s' => Seq (Chr c) (lit s')
  end.

(** Canonicalize under [ignoreCase] (no [unicode] flag): the upper-case
    form.  The patterns only hold code units below 128, and no code unit
    from 128 on canonicalizes to one below 128, so the case mapping of
    those is left out. *)
Definition canonicalize (c : ascii) : ascii :=
  let n := nat_of_ascii c in
  if (97 <=? n) && (n <=? 122) then ascii_of_nat (n - 32) else c.

Definition same_char (a b : ascii) : bool :=
  Ascii.eqb (canonicalize a) (canonicalize b).

(** The members of the class range [lo-hi]. *)
Definition members (r : ascii * ascii) : list ascii :=
  let lo := nat_of_ascii (fst r) in
  let hi := nat_of_ascii (snd r) in
  map ascii_of_nat (seq lo (S hi - lo)).

(** A class matches [c] when some member canonicalizes to the canonical
    form of [c]; an inverted class when none does. *)
Definition in_class (negated : bool) (ranges : list (ascii * ascii))
    (c : ascii) : bool :=
  xorb negated
    (existsb (fun r => existsb (same_char c) (members r)) ranges).

(** A match in progress: the captured text of group 1, if it took part. *)
Definition Capture := option string.

(** A continuation gets the rest of the input and the capture so far. *)
Definition Cont := string -> Capture -> option Capture.

(** Greedy [class*]: the longest run first, shorter ones on backtracking. *)
Fixpoint star_cls (negated : bool) (ranges : list (ascii * ascii))
    (s : string) (cap : Capture) (k : Cont) : option Capture :=
  match s with
  | EmptyString => k s cap
  | String c s' =>
      if in_class negated ranges c then
        match star_cls negated ranges s' cap k with
        | Some r => Some r
        | None => k s cap
        end
      else k s cap
  end.

Fixpoint matcher (r : regex) (s : string) (cap : Capture) (k : Cont)
    : option Capture :=
  match r with
  | Eps => k s cap
  | Chr c =>
      match s with
      | EmptyString => None
      | String x s' => if same_char c x then k s' cap else None
      end
  | Cls negated ranges =>
      match s with
      | EmptyString => None
      | String x s' => if in_class negated ranges x then k s' cap else None
      end
  | Seq r1 r2 => matcher r1 s cap (fun s' cap' => matcher r2 s' cap' k)
  | Alt r1 r2 =>
      match matcher r1 s cap k with
      | Some res => Some res
      | None => matcher r2 s cap k
      end
  | Opt r1 =>
      match matcher r1 s cap k with
      | Some res => Some res
      | None => k s cap
      end
  | PlusCls negated ranges =>
      match s with
      | EmptyString => None
      | String x s' =>
          if in_class negated ranges x
          then star_cls negated ranges s' cap k
          else None
      end
  | Group r1 =>
      matcher r1 s cap
        (fun s' _ =>
           k s' (Some (substring 0 (String.length s - String.length s') s)))
  end.

(** [RegExpBuiltinExec] without the [g] and [y] flags: the first start
    index, from 0 to the length of the input, at which the pattern
    matches.  [None] is [null]; [Some cap] is a match array whose entry 1
    is [cap]. *)
Fixpoint exec (r : regex) (s : string) : option Capture :=
  match matcher r s None (fun _ cap => Some cap) with
  | Some cap => Some cap
  | None =>
      match s with
      | EmptyString => None
      | String _ s' => exec r s'
      end
  end.

End RegExp.

(** [url.match(pattern)] *)
Definition js_match (url : string) (pattern : RegExp.regex)
    : option RegExp.Capture :=
  RegExp.exec pattern url.

(** ** The video-link resolver *)

Section Patterns.
Import RegExp.

(** [(?:https?:\/\/)?(?:www\.)?] followed by the rest of the pattern. *)
Definition url_prefix (rest : regex) : regex :=
  Seq (Opt (Seq (lit "http") (Seq (Opt (Chr "s")) (lit "://"))))
    (Seq (Opt (lit "www.")) rest).

(** The members of the classes [[^&#]] and [[^?&#]] (inverted), [\d] and
    [[a-zA-Z0-9]]. *)
Definition amp_hash : list (ascii * ascii) :=
  [("&", "&"); ("#", "#")]%char.
Definition query_amp_hash : list (ascii * ascii) :=
  [("?", "?"); ("&", "&"); ("#", "#")]%char.
Definition digit : list (ascii * ascii) := [("0", "9")]%char.
Definition alnum : list (ascii * ascii) :=
  [("a", "z"); ("A", "Z"); ("0", "9")]%char.

Definition youtubePatterns : list regex :=
  [ url_prefix (Seq (lit "youtube.com/watch?v=")
                  (Group (PlusCls true amp_hash)));
    url_prefix (Seq (lit "youtube.com/embed/")
                  (Group (PlusCls true query_amp_hash)));
    url_prefix (Seq (lit "youtube.com/v/")
                  (Group (PlusCls true query_amp_hash)));
    url_prefix (Seq (lit "youtu.be/")
                  (Group (PlusCls true query_amp_hash))) ].

Definition vimeoPatterns : list regex :=
  [ url_prefix (Seq (lit "vimeo.com/") (Group (PlusCls false digit)));
    url_prefix (Seq (lit "player.vimeo.com/video/")
                  (Group (PlusCls false digit))) ].

Definition dailymotionPatterns : list regex :=
  [ url_prefix (Seq (lit "dailymotion.com")
                  (Seq (Alt (lit "/video") (lit "/hub"))
                     (Seq (Chr "/") (Group (PlusCls false alnum)))));
    url_prefix (Seq (lit "dai.ly/") (Group (PlusCls false alnum))) ].

End Patterns.

(** The three player templates, with the white space of the source. *)
Definition iframe (src allow : string) : string :=
  ("<iframe " ++ Js.newline ++
   Js.spaces 16 ++ "src=" ++ Js.dquote ++ src ++ Js.dquote ++ " "
     ++ Js.newline ++
   Js.spaces 16 ++ "allow=" ++ Js.dquote ++ allow ++ Js.dquote ++ " "
     ++ Js.newline ++
   Js.spaces 16 ++ "allowfullscreen>" ++ Js.newline ++
   Js.spaces 12 ++ "</iframe>")%string.

Definition youtubeEmbed (id : string) : string :=
  iframe
    ("https://www.youtube.com/embed/" ++ id ++ "?autoplay=0&rel=0")%string
    ("accelerometer; autoplay; clipboard-write; encrypted-media; " ++
     "gyroscope; picture-in-picture")%string.

Definition vimeoEmbed (id : string) : string :=
  iframe ("https://player.vimeo.com/video/" ++ id ++ "?autoplay=0")%string
    "autoplay; fullscreen; picture-in-picture".

Definition dailymotionEmbed (id : string) : string :=
  iframe
    ("https://www.dailymotion.com/embed/video/" ++ id ++ "?autoplay=0")%string
    "autoplay; fullscreen; picture-in-picture".

(** [match && match[1]]: the capture, when there is a match and its entry 1
    is a non-empty string. *)
Definition hit (url : string) (pattern : RegExp.regex) : option string :=
  match js_match url pattern with
  | Some (Some id) => if Js.truthy id then Some id else None
  | _ => None
  end.

(** One [for (const pattern of patterns)] loop: the template applied to the
    capture of the first pattern that hits, or falling through. *)
Fixpoint first_embed (url : string) (patterns : list RegExp.regex)
    (template : string -> string) : option string :=
  match patterns with
  | [] => None
  | pattern :: rest =>
      match hit url pattern with
      | Some id => Some (template id)
      | None => first_embed url rest template
      end
  end.

(** [createVideoEmbed(url)]: [Some html] is a returned string, [None] is
    [null]. *)
Definition createVideoEmbed (url : string) : option string :=
  if negb (Js.truthy url) then Some EmptyString
  else
    match first_embed url youtubePatterns youtubeEmbed with
    | Some html => Some html
    | None =>
        match first_embed url vimeoPatterns vimeoEmbed with
        | Some html => Some html
        | None =>
            match first_embed url dailymotionPatterns dailymotionEmbed with
            | Some html => Some html
            | None => None
            end
        end
    end.

(** ** Data model *)

(** A search result as received from the server.  Only [type] and [url] are
    relied upon; the other properties may be undefined. *)
Record SearchResult : Type := {
  type : string;
  url : string;
  title : option string;
  description : option string;
  source : option string;
  platform : option string;
  favicon : option string
}.

(** *** Markup

    What the script needs to know of the tree the HTML parser builds from a
    markup string assigned to [innerHTML]: its elements with an [id], in
    tree order, each with its depth.  The descendants of an element are the
    elements that follow it with a greater depth, up to the first that has
    not. *)
Record IdElement : Type := {
  element_id : string;
  element_depth : nat
}.

(** The HTML parser of the browser, as far as elements with an [id] go. *)
Definition Parser : Type := string -> list IdElement.

(** The elements with an [id] below an element once [markup] is assigned to
    its [innerHTML]: none for the empty string. *)
Definition parsed (parse : Parser) (markup : string) : list IdElement :=
  if Js.truthy markup then parse markup else [].

Definition has_id (id : string) (l : list IdElement) : bool :=
  existsb (fun e => (element_id e =? id)%string) l.

(** Drops the leading elements that lie deeper than [d]. *)
Fixpoint drop_below (d : nat) (l : list IdElement) : list IdElement :=
  match l with
  | [] => []
  | e :: rest => if d <? element_depth e then drop_below d rest else l
  end.

(** [remove()] on the first element with the given id: it goes with its
    descendants. *)
Fixpoint detach (id : string) (l : list IdElement) : list IdElement :=
  match l with
  | [] => []
  | e :: rest =>
      if (element_id e =? id)%string then drop_below (element_depth e) rest
      else e :: detach id rest
  end.

(** The elements left after the removals [ids], oldest first. *)
Definition after_removals (ids : list string) (l : list IdElement)
    : list IdElement :=
  fold_left (fun l id => detach id l) ids l.

(** The [.video-container] of a card: its [style.display] and the markup
    last assigned to its [innerHTML]. *)
Record VideoContainer : Type := {
  display : string;
  innerHTML : string
}.

(** The node tree built by [createResultElement], by its variable parts.
    [card_result] is the [result] captured by the click closure;
    [watchButton] is the [innerHTML] of the watch button, present on video
    cards only; [detached] lists the ids of the elements that
    [getElementById(id).remove()] has taken out of the video container
    since its [innerHTML] was last assigned, oldest first. *)
Record Card : Type := {
  card_result : SearchResult;
  favicon_src : string;
  title_href : string;
  title_text : option string;
  description_text : option string;
  source_text : string;
  watchButton : option string;
  videoContainer : VideoContainer;
  detached : list string
}.

(** The elements with an [id] inside the video container of a card. *)
Definition video_elements (parse : Parser) (c : Card) : list IdElement :=
  after_removals (detached c) (parsed parse (innerHTML (videoContainer c))).

(** The children of the [#results] element: the loader ([#loader]), result
    cards, and the Show-More button ([#show-more-btn]) with its text. *)
Inductive Node : Type :=
| Loader
| ResultCard (c : Card)
| ShowMoreButton (textContent : string).

(** [#status]: [textContent] and [className]. *)
Record Status : Type := {
  status_text : string;
  status_class : string
}.

(** The elements the script looks up, [None] when the page lacks one:
    the children of [#results], the status line, the markup last assigned
    to the [innerHTML] of [#stats], the [disabled] flag of the submit
    button, the [value] of the query input and the [checked] flags of the
    two category boxes.  [searchForm] tells whether the form, and so the
    submit listener, exists.

    [parseHTML] is the HTML parser of the browser showing the page;
    [statsFirst] tells whether [#stats] comes before [#results] in tree
    order; [statsDetached] lists the ids of the elements that
    [getElementById(id).remove()] has taken out of [#stats] since its
    [innerHTML] was last assigned, oldest first. *)
Record Dom : Type := {
  searchForm : bool;
  searchInput : option string;
  searchButton : option bool;
  searchVideos : option bool;
  searchWebsites : option bool;
  resultsContainer : option (list Node);
  statusElement : option Status;
  statsElement : option string;
  parseHTML : Parser;
  statsFirst : bool;
  statsDetached : list string
}.

(** The elements with an [id] inside [#stats]. *)
Definition stats_elements (d : Dom) : list IdElement :=
  match statsElement d with
  | Some markup =>
      after_removals (statsDetached d) (parsed (parseHTML d) markup)
  | None => []
  end.

(** The payload of an emitted [search_query]. *)
Record SearchQuery : Type := {
  query : string;
  searchTypes_videos : bool;
  searchTypes_websites : bool
}.

(** The module-level variables, the page, and the outside world as far as
    the script acts on it: [socket.connected], the events handed to
    [socket.emit], and the URLs passed to [window.open]. *)
Record State : Type := {
  totalResults : nat;
  videoResults : nat;
  websiteResults : nat;
  allResults : list SearchResult;
  currentlyDisplayedResults : nat;
  dom : Dom;
  connected : bool;
  emitted : list SearchQuery;
  opened : list string
}.

Definition resultsPerPage : nat := 5.

Arguments resultsPerPage : simpl never.

(** *** Field updates *)

Definition with_session (t v w : nat) (rs : list SearchResult) (c : nat)
    (s : State) : State :=
  {| totalResults := t; videoResults := v; websiteResults := w;
     allResults := rs; currentlyDisplayedResults := c;
     dom := dom s; connected := connected s; emitted := emitted s;
     opened := opened s |}.

Definition set_totalResults (n : nat) (s : State) : State :=
  with_session n (videoResults s) (websiteResults s) (allResults s)
    (currentlyDisplayedResults s) s.

Definition set_videoResults (n : nat) (s : State) : State :=
  with_session (totalResults s) n (websiteResults s) (allResults s)
    (currentlyDisplayedResults s) s.

Definition set_websiteResults (n : nat) (s : State) : State :=
  with_session (totalResults s) (videoResults s) n (allResults s)
    (currentlyDisplayedResults s) s.

Definition set_allResults (rs : list SearchResult) (s : State) : State :=
  with_session (totalResults s) (videoResults s) (websiteResults s) rs
    (currentlyDisplayedResults s) s.

Definition set_currentlyDisplayedResults (n : nat) (s : State) : State :=
  with_session (totalResults s) (videoResults s) (websiteResults s)
    (allResults s) n s.

Definition set_dom (d : Dom) (s : State) : State :=
  {| totalResults := totalResults s; videoResults := videoResults s;
     websiteResults := websiteResults s; allResults := allResults s;
     currentlyDisplayedResults := currentlyDisplayedResults s;
     dom := d; connected := connected s; emitted := emitted s;
     opened := opened s |}.

Definition set_connected (b : bool) (s : State) : State :=
  {| totalResults := totalResults s; videoResults := videoResults s;
     websiteResults := websiteResults s; allResults := allResults s;
     currentlyDisplayedResults := currentlyDisplayedResults s;
     dom := dom s; connected := b; emitted := emitted s;
     opened := opened s |}.

Definition set_emitted (l : list SearchQuery) (s : State) : State :=
  {| totalResults := totalResults s; videoResults := videoResults s;
     websiteResults := websiteResults s; allResults := allResults s;
     currentlyDisplayedResults := currentlyDisplayedResults s;
     dom := dom s; connected := connected s; emitted := l;
     opened := opened s |}.

Definition set_opened (l : list string) (s : State) : State :=
  {| totalResults := totalResults s; videoResults := videoResults s;
     websiteResults := websiteResults s; allResults := allResults s;
     currentlyDisplayedResults := currentlyDisplayedResults s;
     dom := dom s; connected := connected s; emitted := emitted s;
     opened := l |}.

Definition set_resultsContainer (c : option (list Node)) (d : Dom) : Dom :=
  {| searchForm := searchForm d; searchInput := searchInput d;
     searchButton := searchButton d; searchVideos := searchVideos d;
     searchWebsites := searchWebsites d; resultsContainer := c;
     statusElement := statusElement d; statsElement := statsElement d;
     parseHTML := parseHTML d; statsFirst := statsFirst d;
     statsDetached := statsDetached d |}.

Definition set_statusElement (x : option Status) (d : Dom) : Dom :=
  {| searchForm := searchForm d; searchInput := searchInput d;
     searchButton := searchButton d; searchVideos := searchVideos d;
     searchWebsites := searchWebsites d;
     resultsContainer := resultsContainer d;
     statusElement := x; statsElement := statsElement d;
     parseHTML := parseHTML d; statsFirst := statsFirst d;
     statsDetached := statsDetached d |}.

(** Assigning the [innerHTML] of [#stats]. *)
Definition set_statsElement (x : option string) (d : Dom) : Dom :=
  {| searchForm := searchForm d; searchInput := searchInput d;
     searchButton := searchButton d; searchVideos := searchVideos d;
     searchWebsites := searchWebsites d;
     resultsContainer := resultsContainer d;
     statusElement := statusElement d; statsElement := x;
     parseHTML := parseHTML d; statsFirst := statsFirst d;
     statsDetached := [] |}.

(** An element with id [id] has been taken out of [#stats]. *)
Definition mark_stats (id : string) (d : Dom) : Dom :=
  {| searchForm := searchForm d; searchInput := searchInput d;
     searchButton := searchButton d; searchVideos := searchVideos d;
     searchWebsites := searchWebsites d;
     resultsContainer := resultsContainer d;
     statusElement := statusElement d; statsElement := statsElement d;
     parseHTML := parseHTML d; statsFirst := statsFirst d;
     statsDetached := statsDetached d ++ [id] |}.

Definition set_searchButton (x : option bool) (d : Dom) : Dom :=
  {| searchForm := searchForm d; searchInput := searchInput d;
     searchButton := x; searchVideos := searchVideos d;
     searchWebsites := searchWebsites d;
     resultsContainer := resultsContainer d;
     statusElement := statusElement d; statsElement := statsElement d;
     parseHTML := parseHTML d; statsFirst := statsFirst d;
     statsDetached := statsDetached d |}.

Definition set_searchInput (x : option string) (d : Dom) : Dom :=
  {| searchForm := searchForm d; searchInput := x;
     searchButton := searchButton d; searchVideos := searchVideos d;
     searchWebsites := searchWebsites d;
     resultsContainer := resultsContainer d;
     statusElement := statusElement d; statsElement := statsElement d;
     parseHTML := parseHTML d; statsFirst := statsFirst d;
     statsDetached := statsDetached d |}.

Definition set_searchVideos (x : option bool) (d : Dom) : Dom :=
  {| searchForm := searchForm d; searchInput := searchInput d;
     searchButton := searchButton d; searchVideos := x;
     searchWebsites := searchWebsites d;
     resultsContainer := resultsContainer d;
     statusElement := statusElement d; statsElement := statsElement d;
     parseHTML := parseHTML d; statsFirst := statsFirst d;
     statsDetached := statsDetached d |}.

Definition set_searchWebsites (x : option bool) (d : Dom) : Dom :=
  {| searchForm := searchForm d; searchInput := searchInput d;
     searchButton := searchButton d; searchVideos := searchVideos d;
     searchWebsites := x;
     resultsContainer := resultsContainer d;
     statusElement := statusElement d; statsElement := statsElement d;
     parseHTML := parseHTML d; statsFirst := statsFirst d;
     statsDetached := statsDetached d |}.

(** ** Running a handler

    A handler runs to completion or is aborted by an uncaught exception; in
    both cases the mutations it made stay. *)

Inductive Completion (A : Type) : Type :=
| Normal (a : A) (s : State)
| Abrupt (s : State).

Arguments Normal {A} a s.
Arguments Abrupt {A} s.

Definition M (A : Type) : Type := State -> Completion A.

Definition ret {A : Type} (a : A) : M A := fun s => Normal a s.

Definition bind {A B : Type} (m : M A) (f : A -> M B) : M B :=
  fun s =>
    match m s with
    | Normal a s' => f a s'
    | Abrupt s' => Abrupt s'
    end.

Definition get : M State := fun s => Normal s s.

Definition modify (f : State -> State) : M unit := fun s => Normal tt (f s).

(** An uncaught TypeError. *)
Definition throw {A : Type} : M A := fun s => Abrupt s.

Notation "x <- m ;; k" := (bind m (fun x => k))
  (at level 61, m at next level, right associativity).
Notation "m ;; k" := (bind m (fun _ => k))
  (at level 61, right associativity).

(** The state a handler leaves behind, however it ended. *)
Definition final {A : Type} (c : Completion A) : State :=
  match c with
  | Normal _ s => s
  | Abrupt s => s
  end.

Definition run (m : M unit) (s : State) : State := final (m s).

(** ** Event payloads *)

(** [search_started]: [{ message }]. *)
Record StartedData : Type := {
  message : string
}.

(** [new_result]: [{ result, query }], either of which may be missing. *)
Record NewResultData : Type := {
  result : option SearchResult;
  result_query : option string
}.

(** The argument of [updateSearchStats], which is also the payload of
    [search_completed]: [{ total, videos, websites, query }], counts being
    non-negative integers when present.  [total] is also printed by the
    status line. *)
Record StatsData : Type := {
  total : Js.Nullable nat;
  videos : option nat;
  websites : option nat;
  stats_query : option string
}.

(** [search_error]: [{ error }]. *)
Record ErrorData : Type := {
  error : Js.Nullable string
}.

(** ** Helper functions *)

Definition update_dom (f : Dom -> Dom) : M unit :=
  modify (fun s => set_dom (f (dom s)) s).

Definition updateStatus (message type : string) : M unit :=
  update_dom (fun d =>
    match statusElement d with
    | Some _ =>
        set_statusElement
          (Some {| status_text := message;
                   status_class := ("status status-" ++ type)%string |}) d
    | None => d
    end).

Definition clearResults : M unit :=
  update_dom (fun d =>
    match resultsContainer d with
    | Some _ => set_resultsContainer (Some []) d
    | None => d
    end) ;;
  update_dom (fun d =>
    match statsElement d with
    | Some _ => set_statsElement (Some EmptyString) d
    | None => d
    end) ;;
  modify (set_totalResults 0) ;;
  modify (set_videoResults 0) ;;
  modify (set_websiteResults 0) ;;
  modify (set_allResults []) ;;
  modify (set_currentlyDisplayedResults 0).

Definition showLoadingIndicator : M unit :=
  update_dom (fun d =>
    match resultsContainer d with
    | None => d
    | Some nodes => set_resultsContainer (Some (Loader :: nodes)) d
    end).


Definition is_show_more (n : Node) : bool :=
  match n with
  | ShowMoreButton _ => true
  | _ => false
  end.


(** An element with id [id] has been taken out of the video container. *)
Definition mark_detached (id : string) (c : Card) : Card :=
  {| card_result := card_result c; favicon_src := favicon_src c;
     title_href := title_href c; title_text := title_text c;
     description_text := description_text c; source_text := source_text c;
     watchButton := watchButton c; videoContainer := videoContainer c;
     detached := detached c ++ [id] |}.

(** A child of [#results] is, or has below it, an element with id [id]:
    the loader and the Show-More button have ids of their own, a card has
    those of the markup in its video container. *)
Definition holds_id (parse : Parser) (id : string) (n : Node) : bool :=
  match n with
  | Loader => (id =? "loader")%string
  | ShowMoreButton _ => (id =? "show-more-btn")%string
  | ResultCard c => has_id id (video_elements parse c)
  end.

(** What is left of such a child once the element is removed. *)
Definition without_id (id : string) (n : Node) : list Node :=
  match n with
  | ResultCard c => [ResultCard (mark_detached id c)]
  | _ => []
  end.

(** The children of [#results] once the first element with id [id] among
    them and their descendants, in tree order, is removed. *)
Fixpoint remove_from_nodes (parse : Parser) (id : string)
    (nodes : list Node) : list Node :=
  match nodes with
  | [] => []
  | n :: rest =>
      if holds_id parse id n then without_id id n ++ rest
      else n :: remove_from_nodes parse id rest
  end.

(** Where [document.getElementById(id)] finds its element. *)
Inductive Place : Type := InStats | InResults | Nowhere.

Definition in_stats (id : string) (d : Dom) : bool :=
  has_id id (stats_elements d).

Definition in_results (id : string) (d : Dom) : bool :=
  match resultsContainer d with
  | Some nodes => existsb (holds_id (parseHTML d) id) nodes
  | None => false
  end.

Definition locate (id : string) (d : Dom) : Place :=
  if statsFirst d then
    if in_stats id d then InStats
    else if in_results id d then InResults else Nowhere
  else
    if in_results id d then InResults
    else if in_stats id d then InStats else Nowhere.

(** [document.getElementById(id)] followed by [remove()] when found: the
    first element with that id in the document, in tree order, goes. *)
Definition remove_element (id : string) (d : Dom) : Dom :=
  match locate id d with
  | InStats => mark_stats id d
  | InResults =>
      set_resultsContainer
        (option_map (remove_from_nodes (parseHTML d) id) (resultsContainer d))
        d
  | Nowhere => d
  end.

Arguments remove_element : simpl never.

Definition remove_by_id (id : string) : M unit :=
  update_dom (remove_element id).

Definition hideLoadingIndicator : M unit := remove_by_id "loader".

(** [x || 0] on a count that may be undefined. *)
Definition or_zero (o : option nat) : nat :=
  match o with
  | Some n => n
  | None => 0
  end.

(** [data.total || 0] *)
Definition total_or_zero (v : Js.Nullable nat) : nat :=
  match v with
  | Js.value n => n
  | _ => 0
  end.

Definition stat_item (text : string) : string :=
  ("<span class=" ++ Js.dquote ++ "stat-item" ++ Js.dquote ++ ">" ++ text ++
   "</span>")%string.

Definition search_stats_html (data : StatsData) : string :=
  (Js.newline ++
   Js.spaces 8 ++ "<div class=" ++ Js.dquote ++ "search-stats" ++ Js.dquote ++
     ">" ++ Js.newline ++
   Js.spaces 12 ++
     stat_item
       ("Total Results: " ++ Js.show_nat (total_or_zero (total data))) ++
     Js.newline ++
   Js.spaces 12 ++
     stat_item ("Videos: " ++ Js.show_nat (or_zero (videos data))) ++
     Js.newline ++
   Js.spaces 12 ++
     stat_item ("Websites: " ++ Js.show_nat (or_zero (websites data))) ++
     Js.newline ++
   Js.spaces 12 ++
     match stats_query data with
     | Some query =>
         if Js.truthy query then stat_item ("Query: " ++ query)
         else EmptyString
     | None => EmptyString
     end ++
     Js.newline ++
   Js.spaces 8 ++ "</div>" ++ Js.newline ++
   Js.spaces 4)%string.

Definition updateSearchStats (data : StatsData) : M unit :=
  update_dom (fun d =>
    match statsElement d with
    | None => d
    | Some _ => set_statsElement (Some (search_stats_html data)) d
    end).

(** ** The result card *)

Definition watch_label : string :=
  ("<i class=" ++ Js.dquote ++ "fas fa-play" ++ Js.dquote ++
   "></i> Watch Now")%string.

Definition createResultElement (r : SearchResult) : Card :=
  {| card_result := r;
     favicon_src := Js.or_else (favicon r) "favicon.ico";
     title_href := url r;
     title_text := title r;
     description_text := description r;
     source_text :=
       ("Source: " ++
        Js.or_else (source r) (Js.or_else (platform r) "Unknown"))%string;
     watchButton :=
       if (type r =? "video")%string then Some watch_label else None;
     videoContainer := {| display := "none"; innerHTML := EmptyString |};
     detached := [] |}.

(** Assigning [style.display] and [innerHTML] of the video container: its
    children are then those of the new markup. *)
Definition set_videoContainer (v : VideoContainer) (c : Card) : Card :=
  {| card_result := card_result c; favicon_src := favicon_src c;
     title_href := title_href c; title_text := title_text c;
     description_text := description_text c; source_text := source_text c;
     watchButton := watchButton c; videoContainer := v; detached := [] |}.

Definition set_watchButton (b : option string) (c : Card) : Card :=
  {| card_result := card_result c; favicon_src := favicon_src c;
     title_href := title_href c; title_text := title_text c;
     description_text := description_text c; source_text := source_text c;
     watchButton := b; videoContainer := videoContainer c;
     detached := detached c |}.

Definition set_favicon_src (src : string) (c : Card) : Card :=
  {| card_result := card_result c; favicon_src := src;
     title_href := title_href c; title_text := title_text c;
     description_text := description_text c; source_text := source_text c;
     watchButton := watchButton c; videoContainer := videoContainer c;
     detached := detached c |}.

(** The [onerror] of the favicon of a card. *)
Definition favicon_onerror (c : Card) : Card :=
  set_favicon_src "favicon.ico" c.

Definition close_button : string :=
  ("<button class=" ++ Js.dquote ++ "close-button" ++ Js.dquote ++
   " onclick=" ++ Js.dquote ++ "closeVideo(this)" ++ Js.dquote ++
   ">Close Video</button>")%string.

Definition cannot_embed : string :=
  ("<div class=" ++ Js.dquote ++ "error" ++ Js.dquote ++
   ">Sorry, this video cannot be embedded.</div>")%string.

(** [handleWatchClick(resultElement, url)] on a card.  [answer] is what the
    user replies to the [confirm] dialog, should it be shown; the second
    component is the URL passed to [window.open], if any. *)
Definition handleWatchClick (answer : bool) (c : Card) (url : string)
    : Card * option string :=
  let fallback :=
    (set_videoContainer
       {| display := display (videoContainer c);
          innerHTML := cannot_embed |} c,
     if answer then Some url else None) in
  match createVideoEmbed url with
  | Some embedHtml =>
      if Js.truthy embedHtml then
        (set_videoContainer
           {| display := "block";
              innerHTML := (embedHtml ++ close_button)%string |} c,
         None)
      else fallback
  | None => fallback
  end.

(** The [onclick] of the watch button of a card. *)
Definition watchButton_onclick (answer : bool) (c : Card)
    : Card * option string :=
  if (display (videoContainer c) =? "none")%string then
    handleWatchClick answer c (url (card_result c))
  else
    (set_watchButton (Some watch_label)
       (set_videoContainer
          {| display := "none"; innerHTML := EmptyString |} c),
     None).

(** ** The paginated renderer *)

(** [resultsContainer.appendChild(node)] on the element found by
    [document.getElementById('results')]. *)
Definition appendChild (n : Node) : M unit :=
  fun s =>
    match resultsContainer (dom s) with
    | None => Abrupt s
    | Some nodes =>
        Normal tt
          (set_dom (set_resultsContainer (Some (nodes ++ [n])) (dom s)) s)
    end.

(** The body of the [for] loop of [showMoreResults], over the indices it
    visits. *)
Fixpoint appendResults (indices : list nat) : M unit :=
  match indices with
  | [] => ret tt
  | i :: rest =>
      s <- get ;;
      match nth_error (allResults s) i with
      | None => throw
      | Some r =>
          appendChild (ResultCard (createResultElement r)) ;;
          appendResults rest
      end
  end.

Definition show_more_text (remaining : nat) : string :=
  ("Show More (" ++ Js.show_nat remaining ++ " more results)")%string.

Definition showMoreResults : M unit :=
  s <- get ;;
  let endIndex :=
    Nat.min (currentlyDisplayedResults s + resultsPerPage)
            (length (allResults s)) in
  appendResults
    (seq (currentlyDisplayedResults s)
         (endIndex - currentlyDisplayedResults s)) ;;
  modify (set_currentlyDisplayedResults endIndex) ;;
  remove_by_id "show-more-btn" ;;
  s <- get ;;
  if currentlyDisplayedResults s <? length (allResults s) then
    appendChild
      (ShowMoreButton
         (show_more_text
            (length (allResults s) - currentlyDisplayedResults s)))
  else ret tt.

Definition displayResults (results : list SearchResult) : M unit :=
  (fun s =>
     match resultsContainer (dom s) with
     | None => Abrupt s
     | Some _ =>
         Normal tt (set_dom (set_resultsContainer (Some []) (dom s)) s)
     end) ;;
  modify (set_allResults results) ;;
  modify (set_currentlyDisplayedResults 0) ;;
  showMoreResults.

(** ** Socket event handlers *)

Definition set_disabled (b : bool) : M unit :=
  update_dom (fun d =>
    match searchButton d with
    | Some _ => set_searchButton (Some b) d
    | None => d
    end).

Definition on_connect : M unit :=
  updateStatus "Connected to server" "success" ;;
  set_disabled false.

Definition on_disconnect : M unit :=
  updateStatus "Disconnected from server" "error" ;;
  set_disabled true.

Definition on_search_started (data : StartedData) : M unit :=
  updateStatus (message data) "info" ;;
  clearResults ;;
  showLoadingIndicator ;;
  set_disabled true ;;
  modify (set_totalResults 0) ;;
  modify (set_videoResults 0) ;;
  modify (set_websiteResults 0).

Definition on_new_result (data : NewResultData) : M unit :=
  match result data with
  | None => ret tt
  | Some r =>
      modify (fun s => set_totalResults (totalResults s + 1) s) ;;
      (if (type r =? "video")%string then
         modify (fun s => set_videoResults (videoResults s + 1) s)
       else if (type r =? "website")%string then
         modify (fun s => set_websiteResults (websiteResults s + 1) s)
       else ret tt) ;;
      modify (fun s => set_allResults (allResults s ++ [r]) s) ;;
      s <- get ;;
      (if currentlyDisplayedResults s <? length (allResults s)
       then displayResults (allResults s)
       else ret tt) ;;
      s <- get ;;
      updateSearchStats
        {| total := Js.value (totalResults s);
           videos := Some (videoResults s);
           websites := Some (websiteResults s);
           stats_query := result_query data |}
  end.

(** [${data.total}] *)
Definition show_count (v : Js.Nullable nat) : string :=
  Js.show Js.show_nat v.

Definition on_search_completed (data : StatsData) : M unit :=
  hideLoadingIndicator ;;
  updateStatus
    ("Search completed. Found " ++ show_count (total data) ++ " results.")%string
    "success" ;;
  updateSearchStats data ;;
  set_disabled false.

Definition on_search_error (data : ErrorData) : M unit :=
  hideLoadingIndicator ;;
  updateStatus ("Error: " ++ Js.show (fun e => e) (error data))%string
    "error" ;;
  set_disabled false.

(** ** The submit listener *)

Definition read {A : Type} (element : Dom -> option A) : M A :=
  fun s =>
    match element (dom s) with
    | Some v => Normal v s
    | None => Abrupt s
    end.

Definition emit (q : SearchQuery) : M unit :=
  modify (fun s => set_emitted (emitted s ++ [q]) s).

Definition on_submit : M unit :=
  value <- read searchInput ;;
  let query := Js.trim value in
  if negb (Js.truthy query) then
    updateStatus "Please enter a search query" "error"
  else
    s <- get ;;
    if negb (connected s) then
      updateStatus "Not connected to server. Please wait..." "error"
    else
      videos <- read searchVideos ;;
      websites <- read searchWebsites ;;
      if negb videos && negb websites then
        updateStatus
          "Please select at least one search type (Videos or Websites)"
          "error"
      else
        emit {| query := query;
                searchTypes_videos := videos;
                searchTypes_websites := websites |}.

(** ** Clicking a watch button *)

(** Node [i] of the results area after a click on its watch button, and the
    URL opened, if any; [None] when node [i] has no such button. *)
Definition click_node (answer : bool) (n : Node)
    : option (Node * option string) :=
  match n with
  | ResultCard c =>
      match watchButton c with
      | Some _ =>
          let (c', o) := watchButton_onclick answer c in
          Some (ResultCard c', o)
      | None => None
      end
  | _ => None
  end.

Fixpoint replace_nth (i : nat) (n : Node) (nodes : list Node) : list Node :=
  match nodes, i with
  | [], _ => []
  | _ :: rest, O => n :: rest
  | x :: rest, S i' => x :: replace_nth i' n rest
  end.

Definition on_watch_click (i : nat) (answer : bool) : M unit :=
  s <- get ;;
  match resultsContainer (dom s) with
  | None => ret tt
  | Some nodes =>
      match nth_error nodes i with
      | None => ret tt
      | Some n =>
          match click_node answer n with
          | None => ret tt
          | Some (n', o) =>
              update_dom
                (set_resultsContainer (Some (replace_nth i n' nodes))) ;;
              match o with
              | Some u => modify (fun s => set_opened (opened s ++ [u]) s)
              | None => ret tt
              end
          end
      end
  end.

(** ** A favicon that fails to load *)

Definition node_onerror (n : Node) : option Node :=
  match n with
  | ResultCard c => Some (ResultCard (favicon_onerror c))
  | _ => None
  end.

(** The [error] event of the favicon of node [i] of the results area. *)
Definition on_favicon_error (i : nat) : M unit :=
  s <- get ;;
  match resultsContainer (dom s) with
  | None => ret tt
  | Some nodes =>
      match nth_error nodes i with
      | None => ret tt
      | Some n =>
          match node_onerror n with
          | None => ret tt
          | Some n' =>
              update_dom
                (set_resultsContainer (Some (replace_nth i n' nodes)))
          end
      end
  end.

(** ** The event loop *)

(** What can happen to the page: the six socket events (with [connect] and
    [disconnect] the transport flips [socket.connected] before it calls the
    handler), an invocation of [showMoreResults] (the [onclick] of the
    Show-More button), a click on the watch button of node [i] of the
    results area, a submission of the form, the user editing the form, and
    the favicon of node [i] failing to load. *)
Inductive Event : Type :=
| Connect
| Disconnect
| SearchStarted (data : StartedData)
| NewResult (data : NewResultData)
| SearchCompleted (data : StatsData)
| SearchError (data : ErrorData)
| ShowMore
| WatchClick (i : nat) (answer : bool)
| Submit
| TypeQuery (text : string)
| CheckVideos (b : bool)
| CheckWebsites (b : bool)
| FaviconError (i : nat).

Definition handler (e : Event) : M unit :=
  match e with
  | Connect => modify (set_connected true) ;; on_connect
  | Disconnect => modify (set_connected false) ;; on_disconnect
  | SearchStarted data => on_search_started data
  | NewResult data => on_new_result data
  | SearchCompleted data => on_search_completed data
  | SearchError data => on_search_error data
  | ShowMore => showMoreResults
  | WatchClick i answer => on_watch_click i answer
  | Submit =>
      s <- get ;;
      if searchForm (dom s) then on_submit else ret tt
  | TypeQuery text =>
      update_dom (fun d =>
        match searchInput d with
        | Some _ => set_searchInput (Some text) d
        | None => d
        end)
  | CheckVideos b =>
      update_dom (fun d =>
        match searchVideos d with
        | Some _ => set_searchVideos (Some b) d
        | None => d
        end)
  | CheckWebsites b =>
      update_dom (fun d =>
        match searchWebsites d with
        | Some _ => set_searchWebsites (Some b) d
        | None => d
        end)
  | FaviconError i => on_favicon_error i
  end.

Definition step (s : State) (e : Event) : State := run (handler e) s.

Definition steps (s : State) (es : list Event) : State :=
  fold_left step es s.

(** The state once the script has loaded in a page [page]: the variables as
    initialised, the socket not yet connected, the status line set. *)
Definition initialState (page : Dom) : State :=
  run (updateStatus "Ready to search" "info")
    {| totalResults := 0; videoResults := 0; websiteResults := 0;
       allResults := []; currentlyDisplayedResults := 0;
       dom := page; connected := false; emitted := []; opened := [] |}.

(** A page whose results area, if it has one, starts out empty. *)
Definition fresh_page (page : Dom) : Prop :=
  resultsContainer page = None \/ resultsContainer page = Some [].

Inductive reachable : State -> Prop :=
| reachable_init :
    forall page, fresh_page page -> reachable (initialState page)
| reachable_step :
    forall s e, reachable s -> reachable (step s e).

(** ** Views of a state *)

(** The result cards among the nodes of the results area, in document
    order. *)
Fixpoint cards (nodes : list Node) : list Card :=
  match nodes with
  | [] => []
  | ResultCard c :: rest => c :: cards rest
  | _ :: rest => cards rest
  end.

(** The number of Show-More buttons on the page. *)
Definition count_show_more (s : State) : nat :=
  match resultsContainer (dom s) with
  | None => 0
  | Some nodes => length (filter is_show_more nodes)
  end.

(** The results carried by a sequence of [new_result] payloads. *)
Fixpoint carried (ds : list NewResultData) : list SearchResult :=
  match ds with
  | [] => []
  | d :: rest =>
      match result d with
      | Some r => r :: carried rest
      | None => carried rest
      end
  end.

(** The payloads without a result. *)
Definition lacks_result (d : NewResultData) : bool :=
  match result d with
  | Some _ => false
  | None => true
  end.

Definition of_type (t : string) (rs : list SearchResult) : list SearchResult :=
  filter (fun r => (type r =? t)%string) rs.

(** The invariant of the renderer: the cursor stays within the accumulator
    and there is a Show-More button exactly when results remain hidden. *)
Definition cursor_ok (s : State) : Prop :=
  currentlyDisplayedResults s <= length (allResults s).


(** The next page: what [showMoreResults] is to reveal in state [s]. *)
Definition next_page (s : State) : list SearchResult :=
  firstn
    (Nat.min resultsPerPage
       (length (allResults s) - currentlyDisplayedResults s))
    (skipn (currentlyDisplayedResults s) (allResults s)).

Definition with_container (nodes : list Node) (s : State) : State :=
  set_dom (set_resultsContainer (Some nodes) (dom s)) s.

Definition result_cards (rs : list SearchResult) : list Node :=
  map ResultCard (map createResultElement rs).

Definition show_more_button (s : State) : list Node :=
  if currentlyDisplayedResults s <? length (allResults s) then
    [ShowMoreButton
       (show_more_text (length (allResults s) - currentlyDisplayedResults s))]
  else [].

(** A handler preserves a relation on states when the state it leaves
    behind, whether it completes or is aborted, is related to the state it
    started from. *)
Definition preserves (R : State -> State -> Prop) {A : Type} (m : M A)
    : Prop :=
  forall s, R s (final (m s)).

(** The accumulator and its counters are the same in both states. *)
Definition same_accumulator (s s' : State) : Prop :=
  totalResults s' = totalResults s /\
  videoResults s' = videoResults s /\
  websiteResults s' = websiteResults s /\
  allResults s' = allResults s.

(** Everything but the page is the same in both states. *)
Definition same_but_dom (s s' : State) : Prop :=
  same_accumulator s s' /\
  currentlyDisplayedResults s' = currentlyDisplayedResults s /\
  connected s' = connected s /\
  emitted s' = emitted s /\
  opened s' = opened s.

(** The accumulator update of [new_result]: the counters and the push. *)
Definition accumulate (r : SearchResult) (s : State) : State :=
  let s1 := set_totalResults (totalResults s + 1) s in
  let s2 :=
    if (type r =? "video")%string then
      set_videoResults (videoResults s1 + 1) s1
    else if (type r =? "website")%string then
      set_websiteResults (websiteResults s1 + 1) s1
    else s1 in
  set_allResults (allResults s2 ++ [r]) s2.

(** What [new_result] does after the accumulator update. *)
Definition rerender (data : NewResultData) : M unit :=
  s <- get ;;
  (if currentlyDisplayedResults s <? length (allResults s)
   then displayResults (allResults s)
   else ret tt) ;;
  s <- get ;;
  updateSearchStats
    {| total := Js.value (totalResults s);
       videos := Some (videoResults s);
       websites := Some (websiteResults s);
       stats_query := result_query data |}.


(** The cursor, the accumulator and the results area are the same. *)
Definition same_render (s s' : State) : Prop :=
  currentlyDisplayedResults s' = currentlyDisplayedResults s /\
  allResults s' = allResults s /\
  resultsContainer (dom s') = resultsContainer (dom s).

(** The result cards shown on the page. *)
Definition displayed (s : State) : list Card :=
  match resultsContainer (dom s) with
  | Some nodes => cards nodes
  | None => []
  end.

(** A browser as far as the examples go: none of the markup they write has
    an element with an [id]. *)
Definition no_ids : Parser := fun _ => [].

(** A page with every element the script looks up, [#stats] ahead of
    [#results]. *)
Definition example_page : Dom :=
  {| searchForm := true;
     searchInput := Some "cats";
     searchButton := Some true;
     searchVideos := Some true;
     searchWebsites := Some false;
     resultsContainer := Some [];
     statusElement :=
       Some {| status_text := EmptyString; status_class := "status" |};
     statsElement := Some EmptyString;
     parseHTML := no_ids;
     statsFirst := true;
     statsDetached := [] |}.

Definition video (u : string) : SearchResult :=
  {| type := "video"; url := u; title := Some "A video";
     description := None; source := None; platform := None;
     favicon := None |}.

Definition website (u : string) : SearchResult :=
  {| type := "website"; url := u; title := Some "A site";
     description := None; source := None; platform := None;
     favicon := None |}.

Definition carrying (r : SearchResult) : NewResultData :=
  {| result := Some r; result_query := Some "cats" |}.

Definition without_result : NewResultData :=
  {| result := None; result_query := Some "cats" |}.

Definition started : StartedData := {| message := "Searching for cats" |}.

Definition clip : SearchResult := video "https://youtu.be/dQw4w9WgXcQ".

Definition article : SearchResult :=
  website "https://example.com/articles/42".

(** A session in which six results arrive and Show-More is then invoked
    once. *)
Definition six_shown : State :=
  steps (initialState example_page)
    (SearchStarted started
     :: repeat (NewResult (carrying clip)) 6 ++ [ShowMore]).




Inductive Provider : Type := YouTube | Vimeo | Dailymotion.

Definition template (p : Provider) : string -> string :=
  match p with
  | YouTube => youtubeEmbed
  | Vimeo => vimeoEmbed
  | Dailymotion => dailymotionEmbed
  end.

(** The provider families in the order the resolver tries them. *)
Definition families : list (Provider * list RegExp.regex) :=
  [(YouTube, youtubePatterns); (Vimeo, vimeoPatterns);
   (Dailymotion, dailymotionPatterns)].

(** The eight patterns in priority order, each with its provider. *)
Definition all_patterns : list (Provider * RegExp.regex) :=
  flat_map (fun f => map (pair (fst f)) (snd f)) families.

(** The first family with a pattern that hits, tried in order. *)
Fixpoint first_family (url : string)
    (fams : list (Provider * list RegExp.regex)) : option string :=
  match fams with
  | [] => None
  | f :: rest =>
      match first_embed url (snd f) (template (fst f)) with
      | Some html => Some html
      | None => first_family url rest
      end
  end.

(** The first pattern that hits in a list of patterns with providers. *)
Fixpoint first_pattern (url : string)
    (patterns : list (Provider * RegExp.regex)) : option string :=
  match patterns with
  | [] => None
  | q :: rest =>
      match hit url (snd q) with
      | Some id => Some (template (fst q) id)
      | None => first_pattern url rest
      end
  end.

Definition misses (url : string) (q : Provider * RegExp.regex) : Prop :=
  hit url (snd q) = None.

(** [html] has [id] inside it. *)
Definition contains (html id : string) : Prop :=
  exists before after, html = (before ++ id ++ after)%string.

(** An embed fragment: the player markup of a provider for a video id. *)
Definition embed_fragment (html : string) : Prop :=
  exists p id, id <> EmptyString /\ html = template p id.

(** A well-formed example URL for each documented shape, with the provider
    and the id it denotes. *)
Definition documented_examples : list (string * Provider * string) :=
  [ ("https://www.youtube.com/watch?v=dQw4w9WgXcQ", YouTube, "dQw4w9WgXcQ");
    ("https://www.youtube.com/embed/dQw4w9WgXcQ", YouTube, "dQw4w9WgXcQ");
    ("https://www.youtube.com/v/dQw4w9WgXcQ", YouTube, "dQw4w9WgXcQ");
    ("https://youtu.be/dQw4w9WgXcQ", YouTube, "dQw4w9WgXcQ");
    ("https://vimeo.com/76979871", Vimeo, "76979871");
    ("https://player.vimeo.com/video/76979871", Vimeo, "76979871");
    ("https://www.dailymotion.com/video/x8abc12", Dailymotion, "x8abc12");
    ("https://dai.ly/x8abc12", Dailymotion, "x8abc12") ].

(** The pattern of [all_patterns] that each example is meant for. *)
Definition example_hits_own_pattern : bool :=
  forallb
    (fun ie =>
       match nth_error all_patterns (fst ie) with
       | Some q =>
           match hit (fst (fst (snd ie))) (snd q) with
           | Some id => (id =? snd (snd ie))%string
           | None => false
           end
       | None => false
       end)
    (combine (seq 0 8) documented_examples).

(** Empty, or made of white space only. *)
Fixpoint whitespace_only (s : string) : bool :=
  match s with
  | EmptyString => true
  | String c s' => Js.is_space c && whitespace_only s'
  end.

Definition error_status (text : string) : Status :=
  {| status_text := text; status_class := "status status-error" |}.

Definition blank_query : State :=
  steps (initialState example_page) [Connect; TypeQuery "   "].

Definition not_connected : State := initialState example_page.

Definition no_category : State :=
  steps (initialState example_page) [Connect; CheckVideos false].

Definition ready : State := steps (initialState example_page) [Connect].

Definition hidden_empty : VideoContainer :=
  {| display := "none"; innerHTML := EmptyString |}.

(** A video result whose URL is none of the documented shapes. *)
Definition unembeddable : SearchResult :=
  video "https://example.com/clips/42.mp4".

(** A page showing the card of [unembeddable]. *)
Definition showing_unembeddable : State :=
  steps (initialState example_page)
    [Connect; SearchStarted started; NewResult (carrying unembeddable)].

(** ** Further invariants *)

(** The counters agree with the accumulator. *)
Definition counters_ok (s : State) : Prop :=
  totalResults s = length (allResults s) /\
  videoResults s = length (of_type "video" (allResults s)) /\
  websiteResults s = length (of_type "website" (allResults s)).

(** A card is the card built for its result, but for its video container
    and for its favicon, which is the one built or, once that failed to
    load, [favicon.ico]; nothing has been taken out of a video container
    whose markup is empty. *)
Definition card_ok (c : Card) : Prop :=
  let built := createResultElement (card_result c) in
  title_href c = title_href built /\
  title_text c = title_text built /\
  description_text c = description_text built /\
  source_text c = source_text built /\
  watchButton c = watchButton built /\
  (favicon_src c = favicon_src built \/ favicon_src c = "favicon.ico") /\
  (innerHTML (videoContainer c) = EmptyString -> detached c = []).

(** On every page: the cards shown are those of the results revealed so
    far, in order, each as it was built; a page without a results area
    never moves the cursor. *)
Definition cards_shape (s : State) : Prop :=
  match resultsContainer (dom s) with
  | None => currentlyDisplayedResults s = 0
  | Some nodes =>
      map card_result (cards nodes) =
        firstn (currentlyDisplayedResults s) (allResults s) /\
      Forall card_ok (cards nodes)
  end.




(** The socket state, the events emitted and the URLs opened are the
    same. *)
Definition same_outside (s s' : State) : Prop :=
  connected s' = connected s /\
  emitted s' = emitted s /\
  opened s' = opened s.

(** A query worth sending: not empty, with no white space in front, and
    with a category selected. *)
Definition valid_query (q : SearchQuery) : Prop :=
  (exists c rest, query q = String c rest /\ Js.is_space c = false) /\
  searchTypes_videos q || searchTypes_websites q = true.

Definition is_connect (e : Event) : bool :=
  match e with
  | Connect => true
  | _ => false
  end.

Definition is_submit (e : Event) : bool :=
  match e with
  | Submit => true
  | _ => false
  end.

(** The form, its inputs, the submit button and the status line are the
    same. *)
Definition same_controls (s s' : State) : Prop :=
  searchForm (dom s') = searchForm (dom s) /\
  searchInput (dom s') = searchInput (dom s) /\
  searchButton (dom s') = searchButton (dom s) /\
  searchVideos (dom s') = searchVideos (dom s) /\
  searchWebsites (dom s') = searchWebsites (dom s) /\
  statusElement (dom s') = statusElement (dom s).



(** The classes the script gives the status line. *)
Definition known_status_class (c : string) : Prop :=
  c = "status status-info" \/ c = "status status-success" \/
  c = "status status-error".

(** A page showing the card of the website [article]. *)
Definition showing_article : State :=
  steps (initialState example_page)
    [Connect; SearchStarted started; NewResult (carrying article)].


(** The socket was connected and has been disconnected. *)
Definition offline : State := step ready Disconnect.

(** A user trying again and again while a late [search_completed]
    arrives. *)
Definition retries : list Event :=
  [TypeQuery "dogs"; CheckWebsites true; Submit;
   SearchCompleted
     {| total := Js.null; videos := None; websites := None;
        stats_query := None |};
   Submit].



(** A page showing the card of the video [clip]. *)
Definition showing_clip : State :=
  steps (initialState example_page)
    [Connect; SearchStarted started; NewResult (carrying clip)].

(** ** A URL that carries markup *)

(** A video id that closes the [src] attribute of the player markup and
    brings an element with the id of the Show-More button. *)
Definition spoof_button : string :=
  ("<b id=" ++ Js.dquote ++ "show-more-btn" ++ Js.dquote ++ ">")%string.

Definition spoof_id : string :=
  ("x" ++ Js.dquote ++ "></iframe>" ++ spoof_button ++ "</b><iframe src=" ++
   Js.dquote ++ "y")%string.

Definition spoof : SearchResult := video ("https://youtu.be/" ++ spoof_id).

(** A browser as far as the session below goes: of the markup it writes,
    only the player markup of [spoof] has an element with an [id], the [b]
    element, at depth 0. *)
Definition spoof_parser : Parser :=
  fun markup =>
    if Js.includes markup spoof_button
    then [{| element_id := "show-more-btn"; element_depth := 0 |}]
    else [].

Definition spoof_page : Dom :=
  {| searchForm := true;
     searchInput := Some "cats";
     searchButton := Some true;
     searchVideos := Some true;
     searchWebsites := Some false;
     resultsContainer := Some [];
     statusElement :=
       Some {| status_text := EmptyString; status_class := "status" |};
     statsElement := Some EmptyString;
     parseHTML := spoof_parser;
     statsFirst := true;
     statsDetached := [] |}.

(** Twelve results arrive, the first one [spoof]; its watch button is
    clicked; Show-More is then invoked. *)
Definition spoofed : State :=
  steps (initialState spoof_page)
    (SearchStarted started :: NewResult (carrying spoof)
     :: repeat (NewResult (carrying clip)) 11
     ++ [WatchClick 0 false; ShowMore]).

(** ** Vocabulary for the resolver *)

(** No code unit of [s] is [d], whatever its case. *)
Fixpoint lacks (d : ascii) (s : string) : bool :=
  match s with
  | EmptyString => true
  | String c s' => negb (RegExp.same_char d c) && lacks d s'
  end.

(** Every match of the pattern consumes a code unit that is [d], whatever
    its case. *)
Fixpoint needs (d : ascii) (r : RegExp.regex) : bool :=
  match r with
  | RegExp.Chr c => RegExp.same_char c d
  | RegExp.Seq r1 r2 => needs d r1 || needs d r2
  | RegExp.Alt r1 r2 => needs d r1 && needs d r2
  | RegExp.Group r1 => needs d r1
  | _ => false
  end.

(** Every code unit of [s] satisfies [p]. *)
Fixpoint all_chars (p : ascii -> bool) (s : string) : bool :=
  match s with
  | EmptyString => true
  | String c s' => p c && all_chars p s'
  end.

(** [s] is empty or starts with a code unit that [p] rejects. *)
Definition stops (p : ascii -> bool) (s : string) : bool :=
  match s with
  | EmptyString => true
  | String c _ => negb (p c)
  end.

Definition is_digit (c : ascii) : bool :=
  let n := nat_of_ascii c in (48 <=? n) && (n <=? 57).

Definition is_alnum (c : ascii) : bool :=
  let n := nat_of_ascii c in
  ((48 <=? n) && (n <=? 57)) || ((65 <=? n) && (n <=? 90)) ||
  ((97 <=? n) && (n <=? 122)).

(** Anything but [&] and [#]. *)
Definition not_separator (c : ascii) : bool :=
  negb (Ascii.eqb c "&" || Ascii.eqb c "#").

(** Anything but [?], [&] and [#]. *)
Definition not_query_separator (c : ascii) : bool :=
  negb (Ascii.eqb c "?" || Ascii.eqb c "&" || Ascii.eqb c "#").

(** The paths of the YouTube shapes other than the watch page, of the Vimeo
    shapes and of the Dailymotion shapes. *)
Definition youtube_paths : list string :=
  [ "youtube.com/embed/"; "youtube.com/v/"; "youtu.be/" ].
Definition vimeo_paths : list string :=
  [ "vimeo.com/"; "player.vimeo.com/video/" ].
Definition dailymotion_paths : list string :=
  [ "dailymotion.com/video/"; "dailymotion.com/hub/"; "dai.ly/" ].

(** The ways a URL may start before the host, as the patterns allow:
    optional scheme, optional [www.], in any case. *)
Definition accepted_prefixes : list string :=
  [ "https://www."; "http://www."; "https://"; "http://"; "www.";
    EmptyString; "HTTPS://WWW."; "Http://Www." ].

(** The continuation that ends a match: the match array is returned. *)
Definition accept : RegExp.Cont := fun _ cap => Some cap.

(** The pattern matches at no position inside [prefix], whatever follows
    it. *)
Fixpoint skips (r : RegExp.regex) (prefix : string) : Prop :=
  match prefix with
  | EmptyString => True
  | String c rest =>
      (forall s, RegExp.matcher r (String c (rest ++ s)) None accept = None)
      /\ skips r rest
  end.

(** At the start of [prefix ++ s] the pattern matches as soon as its last
    part [last] matches [s], with the same capture. *)
Definition enters (r last : RegExp.regex) (prefix : string) : Prop :=
  forall s cap,
    RegExp.matcher last s None accept = Some cap ->
    RegExp.matcher r (prefix ++ s) None accept = Some cap.

(** The capture a continuation receives: the one it was given, or a piece
    of the input. *)
Definition captured_in (s : string) (cap cap' : RegExp.Capture) : Prop :=
  cap' = cap \/
  exists a id b, s = (a ++ id ++ b)%string /\ cap' = Some id.

(** A card without the record of what was taken out of its video
    container. *)
Definition forget_detached (c : Card) : Card :=
  {| card_result := card_result c; favicon_src := favicon_src c;
     title_href := title_href c; title_text := title_text c;
     description_text := description_text c; source_text := source_text c;
     watchButton := watchButton c; videoContainer := videoContainer c;
     detached := [] |}.


(** The page once [showMoreResults], from state [s] with the children
    [nodes] in the results area, has appended the cards of the next page
    and removed the element with the id of the Show-More button. *)
Definition revealed (s : State) (nodes : list Node) : Dom :=
  remove_element "show-more-btn"
    (set_resultsContainer (Some (nodes ++ result_cards (next_page s)))
       (dom s)).

(** The page with the Show-More button of state [s] appended, if [s] has
    results to reveal. *)
Definition with_button (s : State) (d : Dom) : Dom :=
  match resultsContainer d with
  | Some nodes =>
      if currentlyDisplayedResults s <? length (allResults s)
      then set_resultsContainer (Some (nodes ++ show_more_button s)) d
      else d
  | None => d
  end.

(** The same page but for the children of [#results] and the record of
    what was taken out of [#stats]. *)
Definition same_fixtures (d d' : Dom) : Prop :=
  searchForm d' = searchForm d /\
  searchInput d' = searchInput d /\
  searchButton d' = searchButton d /\
  searchVideos d' = searchVideos d /\
  searchWebsites d' = searchWebsites d /\
  statusElement d' = statusElement d /\
  statsElement d' = statsElement d /\
  parseHTML d' = parseHTML d /\
  statsFirst d' = statsFirst d.






(** ** Basic facts *)

Ltac unfold_handlers :=
  unfold step, run, handler, on_connect, on_disconnect, on_search_started,
    on_search_completed, on_search_error, clearResults, showLoadingIndicator,
    hideLoadingIndicator, remove_by_id, updateSearchStats, updateStatus,
    set_disabled, update_dom, bind, modify, get, ret, final in *.

(** Opens a state into its variables and the elements of its page. *)
Ltac destruct_state s :=
  destruct s as [t v w rs c d cn em op];
  destruct d as [sf si sb sv sw rc st ss ph sfi sde].

Lemma cards_app (l1 l2 : list Node) : cards (l1 ++ l2) = cards l1 ++ cards l2.
Proof.
  induction l1 as [|n l1 IH]; simpl; [reflexivity|].
  destruct n; simpl; rewrite IH; reflexivity.
Qed.

Lemma cards_result_cards (cs : list Card) : cards (map ResultCard cs) = cs.
Proof. induction cs as [|c cs IH]; simpl; [|rewrite IH]; reflexivity. Qed.



Lemma cards_with_button (x : State) (nodes : list Node) :
  cards (nodes ++ show_more_button x) = cards nodes.
Proof.
  rewrite cards_app. unfold show_more_button.
  destruct (currentlyDisplayedResults x <? length (allResults x));
    simpl; apply app_nil_r.
Qed.





Lemma firstn_min_length {A : Type} (k : nat) (l : list A) :
  firstn (Nat.min k (length l)) l = firstn k l.
Proof.
  revert l. induction k as [|k IH]; intros [|x l]; simpl; try reflexivity.
  rewrite IH. reflexivity.
Qed.

Lemma skipn_nth_error {A : Type} (l : list A) (i : nat) (x : A) :
  nth_error l i = Some x -> skipn i l = x :: skipn (S i) l.
Proof.
  revert i. induction l as [|y l IH]; intros [|i] H; simpl in *;
    try discriminate.
  - injection H as ->. reflexivity.
  - apply IH. assumption.
Qed.

(** ** Markup-borne elements *)

Lemma detach_absent (id : string) (l : list IdElement) :
  has_id id l = false -> detach id l = l.
Proof.
  induction l as [|e l IH]; simpl; [reflexivity|].
  destruct (element_id e =? id)%string; simpl; [discriminate|].
  intros H. rewrite (IH H). reflexivity.
Qed.

Lemma after_removals_nil (ids : list string) : after_removals ids [] = [].
Proof. induction ids as [|i ids IH]; simpl; [reflexivity | exact IH]. Qed.

(** An empty video container holds no element. *)
Lemma video_elements_empty (parse : Parser) (c : Card) :
  innerHTML (videoContainer c) = EmptyString -> video_elements parse c = [].
Proof.
  intros H. unfold video_elements. rewrite H. apply after_removals_nil.
Qed.

Lemma holds_id_built (parse : Parser) (id : string)
    (rs : list SearchResult) :
  existsb (holds_id parse id) (result_cards rs) = false.
Proof. induction rs as [|r rs IH]; simpl; [reflexivity | exact IH]. Qed.



Lemma forget_mark_detached (id : string) (c : Card) :
  forget_detached (mark_detached id c) = forget_detached c.
Proof. reflexivity. Qed.

(** Removing an element by id leaves every card as it is, but for the
    record of what was taken out of its video container. *)
Lemma cards_remove_from_nodes (parse : Parser) (id : string)
    (nodes : list Node) :
  map forget_detached (cards (remove_from_nodes parse id nodes)) =
  map forget_detached (cards nodes).
Proof.
  induction nodes as [|n nodes IH]; simpl; [reflexivity|].
  destruct (holds_id parse id n).
  - destruct n; reflexivity.
  - destruct n; simpl; try rewrite IH; reflexivity.
Qed.

Lemma map_through_forget {A : Type} (f : Card -> A) (l l' : list Card) :
  (forall c, f (forget_detached c) = f c) ->
  map forget_detached l' = map forget_detached l ->
  map f l' = map f l.
Proof.
  intros Hf H.
  assert (E : forall x, map f x = map f (map forget_detached x)).
  { intros x. rewrite map_map. apply map_ext. intros c. symmetry. apply Hf. }
  rewrite (E l'), (E l), H. reflexivity.
Qed.







(** ** Removing an element by id, on the page *)

Lemma remove_element_container (id : string) (d : Dom) :
  resultsContainer (remove_element id d) =
  match locate id d with
  | InResults =>
      option_map (remove_from_nodes (parseHTML d) id) (resultsContainer d)
  | _ => resultsContainer d
  end.
Proof. unfold remove_element. destruct (locate id d); reflexivity. Qed.

(** The removal touches the children of [#results] and the record of what
    was taken out of [#stats], nothing else. *)
Lemma remove_element_frame (id : string) (d : Dom) :
  same_fixtures d (remove_element id d).
Proof.
  unfold remove_element. destruct (locate id d); repeat split.
Qed.

Lemma remove_element_searchForm (id : string) (d : Dom) :
  searchForm (remove_element id d) = searchForm d.
Proof. unfold remove_element. destruct (locate id d); reflexivity. Qed.

Lemma remove_element_searchInput (id : string) (d : Dom) :
  searchInput (remove_element id d) = searchInput d.
Proof. unfold remove_element. destruct (locate id d); reflexivity. Qed.

Lemma remove_element_searchButton (id : string) (d : Dom) :
  searchButton (remove_element id d) = searchButton d.
Proof. unfold remove_element. destruct (locate id d); reflexivity. Qed.

Lemma remove_element_searchVideos (id : string) (d : Dom) :
  searchVideos (remove_element id d) = searchVideos d.
Proof. unfold remove_element. destruct (locate id d); reflexivity. Qed.

Lemma remove_element_searchWebsites (id : string) (d : Dom) :
  searchWebsites (remove_element id d) = searchWebsites d.
Proof. unfold remove_element. destruct (locate id d); reflexivity. Qed.

Lemma remove_element_statusElement (id : string) (d : Dom) :
  statusElement (remove_element id d) = statusElement d.
Proof. unfold remove_element. destruct (locate id d); reflexivity. Qed.

Lemma remove_element_statsElement (id : string) (d : Dom) :
  statsElement (remove_element id d) = statsElement d.
Proof. unfold remove_element. destruct (locate id d); reflexivity. Qed.

Lemma remove_element_parseHTML (id : string) (d : Dom) :
  parseHTML (remove_element id d) = parseHTML d.
Proof. unfold remove_element. destruct (locate id d); reflexivity. Qed.

Lemma remove_element_statsFirst (id : string) (d : Dom) :
  statsFirst (remove_element id d) = statsFirst d.
Proof. unfold remove_element. destruct (locate id d); reflexivity. Qed.

Create Rewrite HintDb fixtures.

#[local] Hint Rewrite remove_element_searchForm remove_element_searchInput
  remove_element_searchButton remove_element_searchVideos
  remove_element_searchWebsites remove_element_statusElement
  remove_element_statsElement remove_element_parseHTML
  remove_element_statsFirst : fixtures.

Lemma same_fixtures_refl (d : Dom) : same_fixtures d d.
Proof. repeat split. Qed.

Lemma same_fixtures_trans (d1 d2 d3 : Dom) :
  same_fixtures d1 d2 -> same_fixtures d2 d3 -> same_fixtures d1 d3.
Proof.
  unfold same_fixtures.
  intros (A1 & A2 & A3 & A4 & A5 & A6 & A7 & A8 & A9)
         (B1 & B2 & B3 & B4 & B5 & B6 & B7 & B8 & B9).
  repeat split; congruence.
Qed.

Lemma same_fixtures_container (c : option (list Node)) (d : Dom) :
  same_fixtures d (set_resultsContainer c d).
Proof. repeat split. Qed.

Lemma remove_element_present (id : string) (d : Dom) (nodes : list Node) :
  resultsContainer d = Some nodes ->
  exists nodes',
    resultsContainer (remove_element id d) = Some nodes' /\
    map forget_detached (cards nodes') = map forget_detached (cards nodes).
Proof.
  intros Hc. rewrite remove_element_container, Hc.
  destruct (locate id d); simpl.
  - exists nodes. split; reflexivity.
  - exists (remove_from_nodes (parseHTML d) id nodes).
    split; [reflexivity | apply cards_remove_from_nodes].
  - exists nodes. split; reflexivity.
Qed.

Lemma remove_element_absent (id : string) (d : Dom) :
  resultsContainer d = None -> resultsContainer (remove_element id d) = None.
Proof.
  intros Hc. rewrite remove_element_container, Hc.
  destruct (locate id d); reflexivity.
Qed.

(** ** The renderer, characterised *)

Lemma container_with_container (nodes : list Node) (s : State) :
  resultsContainer (dom (with_container nodes s)) = Some nodes.
Proof. reflexivity. Qed.

Lemma cursor_with_container (nodes : list Node) (s : State) :
  currentlyDisplayedResults (with_container nodes s) =
  currentlyDisplayedResults s.
Proof. reflexivity. Qed.

Lemma with_container_same (s : State) (nodes : list Node) :
  resultsContainer (dom s) = Some nodes -> with_container nodes s = s.
Proof.
  destruct s as [t v w rs c d cn em op]; destruct d; simpl.
  intros ->. reflexivity.
Qed.

Lemma appendResults_seq (k : nat) :
  forall c s nodes,
    resultsContainer (dom s) = Some nodes ->
    c + k <= length (allResults s) ->
    appendResults (seq c k) s =
    Normal tt
      (with_container
         (nodes ++ result_cards (firstn k (skipn c (allResults s)))) s).
Proof.
  induction k as [|k IH]; intros c s nodes Hc Hk.
  - simpl. unfold ret, result_cards. simpl. rewrite app_nil_r.
    rewrite with_container_same by assumption. reflexivity.
  - simpl. unfold bind at 1, get.
    destruct (nth_error (allResults s) c) as [r|] eqn:Hr.
    + unfold bind, appendChild. rewrite Hc.
      fold (with_container (nodes ++ [ResultCard (createResultElement r)]) s).
      rewrite (IH (S c) _ (nodes ++ [ResultCard (createResultElement r)]));
        [| reflexivity | simpl; lia].
      simpl allResults.
      rewrite (skipn_nth_error _ _ _ Hr). simpl.
      unfold result_cards. simpl. rewrite <- app_assoc. reflexivity.
    + apply nth_error_None in Hr. lia.
Qed.

Lemma with_button_container (s : State) (d : Dom) :
  resultsContainer (with_button s d) =
  option_map (fun nodes => nodes ++ show_more_button s) (resultsContainer d).
Proof.
  unfold with_button, show_more_button.
  destruct (resultsContainer d) as [nodes|] eqn:Hd; [|exact Hd].
  destruct (currentlyDisplayedResults s <? length (allResults s)); simpl.
  - reflexivity.
  - rewrite app_nil_r. exact Hd.
Qed.

(** The button is appended to the children of [#results]: the rest of the
    page stays. *)
Lemma with_button_frame (s : State) (d : Dom) :
  same_fixtures d (with_button s d) /\
  statsDetached (with_button s d) = statsDetached d.
Proof.
  unfold with_button. destruct (resultsContainer d); [|repeat split].
  destruct (currentlyDisplayedResults s <? length (allResults s));
    repeat split.
Qed.

Lemma revealed_frame (s : State) (nodes : list Node) :
  same_fixtures (dom s) (revealed s nodes).
Proof.
  unfold revealed.
  eapply same_fixtures_trans; [|apply remove_element_frame].
  apply same_fixtures_container.
Qed.

Lemma revealed_container (s : State) (nodes : list Node) :
  exists nodes2,
    resultsContainer (revealed s nodes) = Some nodes2 /\
    map forget_detached (cards nodes2) =
    map forget_detached (cards nodes)
    ++ map createResultElement (next_page s).
Proof.
  destruct (remove_element_present "show-more-btn"
              (set_resultsContainer
                 (Some (nodes ++ result_cards (next_page s))) (dom s))
              _ eq_refl) as (nodes2 & H1 & H2).
  exists nodes2. split; [exact H1|].
  rewrite H2, cards_app, map_app. unfold result_cards.
  rewrite cards_result_cards. f_equal.
  rewrite map_map. apply map_ext. reflexivity.
Qed.

(** Freshly built cards hold no element with an id: the removal leaves
    them alone. *)
Lemma revealed_fresh (s : State) :
  resultsContainer (revealed s []) = Some (result_cards (next_page s)).
Proof.
  unfold revealed. rewrite remove_element_container.
  assert (H : in_results "show-more-btn"
                (set_resultsContainer
                   (Some ([] ++ result_cards (next_page s))) (dom s))
              = false) by apply holds_id_built.
  unfold locate. rewrite H.
  destruct (statsFirst _), (in_stats _ _); reflexivity.
Qed.




(** With a results area on the page and the cursor within the accumulator,
    [showMoreResults] completes: it appends the cards of the next page,
    moves the cursor to [endIndex], then removes the element with the id
    of the Show-More button and appends a new button if results remain. *)
Lemma showMoreResults_present (s : State) (nodes : list Node) :
  resultsContainer (dom s) = Some nodes ->
  cursor_ok s ->
  let s1 :=
    set_currentlyDisplayedResults
      (Nat.min (currentlyDisplayedResults s + resultsPerPage)
         (length (allResults s))) s in
  showMoreResults s =
  Normal tt (set_dom (with_button s1 (revealed s nodes)) s1).
Proof.
  intros Hc Hk s1. unfold cursor_ok in Hk.
  unfold showMoreResults. unfold bind at 1, get.
  unfold bind at 1.
  rewrite (appendResults_seq _ _ _ nodes Hc) by lia.
  replace (Nat.min (currentlyDisplayedResults s + resultsPerPage)
             (length (allResults s)) - currentlyDisplayedResults s)
    with (Nat.min resultsPerPage
            (length (allResults s) - currentlyDisplayedResults s)) by lia.
  fold (next_page s).
  unfold bind at 1, modify at 1. unfold bind at 1.
  unfold remove_by_id, update_dom, modify at 1.
  unfold bind at 1, get.
  change (remove_element "show-more-btn" _) with (revealed s nodes).
  destruct (revealed_container s nodes) as (nodes2 & Hn & _).
  unfold with_button. rewrite Hn.
  change (currentlyDisplayedResults (set_dom _ _))
    with (currentlyDisplayedResults s1).
  change (allResults (set_dom _ _)) with (allResults s1).
  destruct (currentlyDisplayedResults s1 <? length (allResults s1)) eqn:Hb.
  - unfold appendChild.
    change (resultsContainer (dom (set_dom (revealed s nodes) _)))
      with (resultsContainer (revealed s nodes)).
    rewrite Hn. unfold show_more_button. rewrite Hb. reflexivity.
  - reflexivity.
Qed.

(** Without a results area, [showMoreResults] is aborted at the first card
    it tries to append, before it moves the cursor; with nothing to append
    it completes: the cursor stays where it is and the page is left without
    a results area. *)
Lemma showMoreResults_absent (s : State) :
  resultsContainer (dom s) = None ->
  cursor_ok s ->
  final (showMoreResults s) = s \/
  final (showMoreResults s) =
    set_dom (remove_element "show-more-btn" (dom s)) s.
Proof.
  intros Hc Hk. unfold cursor_ok in Hk.
  destruct (Nat.min (currentlyDisplayedResults s + resultsPerPage)
              (length (allResults s)) - currentlyDisplayedResults s)
    as [|k] eqn:Hn.
  - right.
    unfold showMoreResults. unfold bind at 1, get. unfold bind at 1.
    rewrite Hn.
    assert (He : Nat.min (currentlyDisplayedResults s + resultsPerPage)
                   (length (allResults s)) = currentlyDisplayedResults s)
      by lia.
    assert (Hl : length (allResults s) = currentlyDisplayedResults s).
    { unfold resultsPerPage in *. lia. }
    rewrite He. simpl appendResults.
    unfold bind, ret, remove_by_id, update_dom, get. unfold modify.
    change (currentlyDisplayedResults (set_dom _ _))
      with (currentlyDisplayedResults s).
    change (allResults (set_dom _ _)) with (allResults s).
    rewrite Hl, Nat.ltb_irrefl. simpl final.
    destruct s; reflexivity.
  - left.
    unfold showMoreResults. unfold bind at 1, get. unfold bind at 1.
    rewrite Hn. simpl. unfold bind at 1, get.
    destruct (nth_error (allResults s) (currentlyDisplayedResults s)).
    + unfold bind, appendChild. rewrite Hc. reflexivity.
    + reflexivity.
Qed.

(** In both cases the page is still without a results area, and nothing
    but the page may have changed. *)
Lemma showMoreResults_absent_frame (s : State) :
  resultsContainer (dom s) = None ->
  cursor_ok s ->
  currentlyDisplayedResults (final (showMoreResults s)) =
    currentlyDisplayedResults s /\
  resultsContainer (dom (final (showMoreResults s))) = None.
Proof.
  intros Hc Hk.
  destruct (showMoreResults_absent s Hc Hk) as [-> | ->].
  - split; [reflexivity | exact Hc].
  - split; [reflexivity | apply remove_element_absent, Hc].
Qed.

(** ** Frame reasoning

    A handler preserves a preorder on states when each of its steps does. *)

Section Preserves.

Variable R : State -> State -> Prop.
Hypothesis R_refl : forall s, R s s.
Hypothesis R_trans : forall s1 s2 s3, R s1 s2 -> R s2 s3 -> R s1 s3.

Lemma preserves_ret {A : Type} (a : A) : preserves R (ret a).
Proof. intros s. apply R_refl. Qed.

Lemma preserves_throw {A : Type} : preserves R (@throw A).
Proof. intros s. apply R_refl. Qed.

Lemma preserves_modify (f : State -> State) :
  (forall s, R s (f s)) -> preserves R (modify f).
Proof. intros H s. apply H. Qed.

Lemma preserves_bind {A B : Type} (m : M A) (f : A -> M B) :
  preserves R m -> (forall a, preserves R (f a)) -> preserves R (bind m f).
Proof.
  intros Hm Hf s. unfold bind.
  specialize (Hm s). destruct (m s) as [a s'|s']; simpl in Hm.
  - apply R_trans with s'; [assumption | apply Hf].
  - assumption.
Qed.

(** The same at one state, for a first step that is only known to
    preserve [R] there. *)
Lemma preserves_bind_at {A B : Type} (m : M A) (f : A -> M B) (s : State) :
  R s (final (m s)) -> (forall a, preserves R (f a)) ->
  R s (final (bind m f s)).
Proof.
  intros Hm Hf. unfold bind.
  destruct (m s) as [a s'|s']; simpl in Hm.
  - apply R_trans with s'; [assumption | apply Hf].
  - assumption.
Qed.

(** [s <- get ;; k s], where what follows may depend on the state read. *)
Lemma preserves_get_bind {B : Type} (k : State -> M B) :
  (forall s, R s (final (k s s))) -> preserves R (bind get k).
Proof. intros H s. apply H. Qed.

Lemma preserves_update_dom (f : Dom -> Dom) :
  (forall s, R s (set_dom (f (dom s)) s)) -> preserves R (update_dom f).
Proof. intros H s. apply H. Qed.

End Preserves.

Lemma same_accumulator_refl (s : State) : same_accumulator s s.
Proof. repeat split. Qed.

Lemma same_accumulator_trans (s1 s2 s3 : State) :
  same_accumulator s1 s2 -> same_accumulator s2 s3 -> same_accumulator s1 s3.
Proof.
  unfold same_accumulator. intros (A1 & A2 & A3 & A4) (B1 & B2 & B3 & B4).
  repeat split; congruence.
Qed.

Lemma same_but_dom_refl (s : State) : same_but_dom s s.
Proof. repeat split. Qed.

Lemma same_but_dom_trans (s1 s2 s3 : State) :
  same_but_dom s1 s2 -> same_but_dom s2 s3 -> same_but_dom s1 s3.
Proof.
  unfold same_but_dom. intros (A & A1 & A2 & A3 & A4) (B & B1 & B2 & B3 & B4).
  split; [eapply same_accumulator_trans; eassumption|].
  repeat split; congruence.
Qed.

Lemma same_but_dom_set_dom (d : Dom) (s : State) :
  same_but_dom s (set_dom d s).
Proof. repeat split. Qed.

Create HintDb frame.

#[local] Hint Resolve same_accumulator_refl same_accumulator_trans
  same_but_dom_refl same_but_dom_trans same_but_dom_set_dom : frame.

Lemma update_dom_same_but_dom (f : Dom -> Dom) :
  preserves same_but_dom (update_dom f).
Proof. intros s. apply same_but_dom_set_dom. Qed.

Lemma appendChild_same_but_dom (n : Node) :
  preserves same_but_dom (appendChild n).
Proof.
  intros s. unfold appendChild.
  destruct (resultsContainer (dom s)); simpl; auto with frame.
Qed.

Lemma appendResults_same_but_dom (indices : list nat) :
  preserves same_but_dom (appendResults indices).
Proof.
  induction indices as [|i rest IH]; simpl.
  - apply preserves_ret, same_but_dom_refl.
  - apply preserves_get_bind. intros s.
    destruct (nth_error (allResults s) i).
    + apply (preserves_bind same_but_dom same_but_dom_trans).
      * apply appendChild_same_but_dom.
      * intros _. apply IH.
    + apply same_but_dom_refl.
Qed.

(** [showMoreResults] touches the cursor and the page, nothing else. *)
Lemma showMoreResults_same_accumulator :
  preserves same_accumulator showMoreResults.
Proof.
  assert (Hw : forall (A : Type) (m : M A),
             preserves same_but_dom m -> preserves same_accumulator m).
  { intros A m H s. apply H. }
  unfold showMoreResults.
  apply preserves_get_bind. intros s.
  apply (preserves_bind same_accumulator same_accumulator_trans).
  - apply Hw, appendResults_same_but_dom.
  - intros _.
    apply (preserves_bind same_accumulator same_accumulator_trans).
    + apply preserves_modify. intros s0. repeat split.
    + intros _.
      apply (preserves_bind same_accumulator same_accumulator_trans).
      * apply Hw, update_dom_same_but_dom.
      * intros _. apply preserves_get_bind. intros s0.
        destruct (currentlyDisplayedResults s0 <? length (allResults s0)).
        -- apply Hw, appendChild_same_but_dom.
        -- apply same_accumulator_refl.
Qed.

(** Re-rendering the accumulator itself leaves the accumulator alone. *)
Lemma displayResults_same_accumulator (s : State) :
  same_accumulator s (final (displayResults (allResults s) s)).
Proof.
  unfold displayResults. unfold bind at 1.
  destruct (resultsContainer (dom s)); [|apply same_accumulator_refl].
  unfold bind, modify.
  eapply same_accumulator_trans; [|apply showMoreResults_same_accumulator].
  repeat split.
Qed.

(** ** The [new_result] handler, characterised *)

Lemma on_new_result_some (data : NewResultData) (r : SearchResult)
    (s : State) :
  result data = Some r ->
  on_new_result data s = rerender data (accumulate r s).
Proof.
  intros Hr. unfold on_new_result, accumulate. rewrite Hr.
  unfold bind at 1, modify at 1. unfold bind at 1.
  destruct (type r =? "video")%string.
  - unfold modify at 1. unfold bind at 1, modify at 1. reflexivity.
  - destruct (type r =? "website")%string.
    + unfold modify at 1. unfold bind at 1, modify at 1. reflexivity.
    + unfold ret at 1. unfold bind at 1, modify at 1. reflexivity.
Qed.

Lemma rerender_same_accumulator (data : NewResultData) :
  preserves same_accumulator (rerender data).
Proof.
  unfold rerender.
  apply preserves_get_bind. intros s.
  apply (preserves_bind_at same_accumulator same_accumulator_trans).
  - destruct (currentlyDisplayedResults s <? length (allResults s)).
    + apply displayResults_same_accumulator.
    + apply same_accumulator_refl.
  - intros _. apply preserves_get_bind. intros s0.
    unfold updateSearchStats. apply update_dom_same_but_dom.
Qed.

(** One [new_result] event: the result it carries, if any, is pushed and
    counted, whatever happens to the rendering. *)
Lemma new_result_accumulates (s : State) (data : NewResultData) :
  let s' := step s (NewResult data) in
  allResults s' = allResults s ++ carried [data] /\
  totalResults s' = totalResults s + length (carried [data]) /\
  videoResults s' =
    videoResults s + length (of_type "video" (carried [data])) /\
  websiteResults s' =
    websiteResults s + length (of_type "website" (carried [data])).
Proof.
  unfold step, run, handler. simpl carried.
  destruct (result data) as [r|] eqn:Hr.
  - rewrite (on_new_result_some _ _ _ Hr).
    destruct (rerender_same_accumulator data (accumulate r s))
      as (Ht & Hv & Hw & Ha).
    rewrite Ht, Hv, Hw, Ha. unfold accumulate, of_type. simpl filter.
    destruct (type r =? "video")%string eqn:Ev.
    + apply String.eqb_eq in Ev. rewrite Ev. simpl.
      repeat split; lia.
    + destruct (type r =? "website")%string eqn:Ew; simpl;
        repeat split; lia.
  - unfold on_new_result. rewrite Hr. simpl.
    rewrite app_nil_r. repeat split; lia.
Qed.

Lemma carried_cons (d : NewResultData) (ds : list NewResultData) :
  carried (d :: ds) = carried [d] ++ carried ds.
Proof. simpl. destruct (result d); reflexivity. Qed.

Lemma new_results_accumulate (ds : list NewResultData) :
  forall s,
    let s' := steps s (map NewResult ds) in
    allResults s' = allResults s ++ carried ds /\
    totalResults s' = totalResults s + length (carried ds) /\
    videoResults s' = videoResults s + length (of_type "video" (carried ds)) /\
    websiteResults s' =
      websiteResults s + length (of_type "website" (carried ds)).
Proof.
  induction ds as [|d ds IH]; intros s.
  - simpl. rewrite app_nil_r. repeat split; lia.
  - cbv zeta in *. simpl map. unfold steps in *. simpl fold_left.
    destruct (IH (step s (NewResult d))) as (Ha & Ht & Hv & Hw).
    destruct (new_result_accumulates s d) as (Ha1 & Ht1 & Hv1 & Hw1).
    rewrite Ha, Ht, Hv, Hw, Ha1, Ht1, Hv1, Hw1.
    rewrite (carried_cons d ds). unfold of_type.
    rewrite !filter_app, !length_app, <- app_assoc.
    repeat split; lia.
Qed.

(** [search_started] starts a session afresh, whatever the state before. *)
Lemma search_started_resets (s : State) (data : StartedData) :
  let s' := step s (SearchStarted data) in
  totalResults s' = 0 /\ videoResults s' = 0 /\ websiteResults s' = 0 /\
  allResults s' = [] /\ currentlyDisplayedResults s' = 0 /\
  resultsContainer (dom s') =
    option_map (fun _ => [Loader]) (resultsContainer (dom s)).
Proof.
  destruct_state s. unfold_handlers. simpl.
  destruct st, rc, ss, sb; simpl; repeat split.
Qed.

(** ** The renderer on any page *)



(** [showMoreResults] keeps the cursor within the accumulator and never
    lowers it. *)
Lemma showMoreResults_cursor (s : State) :
  cursor_ok s ->
  cursor_ok (final (showMoreResults s)) /\
  currentlyDisplayedResults s
  <= currentlyDisplayedResults (final (showMoreResults s)).
Proof.
  intros Hk.
  destruct (resultsContainer (dom s)) as [nodes|] eqn:Hc.
  - rewrite (showMoreResults_present s nodes Hc Hk). simpl final.
    unfold cursor_ok in *. simpl. lia.
  - destruct (showMoreResults_absent s Hc Hk) as [-> | ->].
    + split; [exact Hk | lia].
    + split; [exact Hk | simpl; lia].
Qed.

Lemma displayResults_present (rs : list SearchResult) (s : State)
    (nodes : list Node) :
  resultsContainer (dom s) = Some nodes ->
  displayResults rs s =
  showMoreResults
    (with_container []
       (set_currentlyDisplayedResults 0 (set_allResults rs s))).
Proof.
  intros Hc. unfold displayResults. unfold bind at 1. rewrite Hc.
  reflexivity.
Qed.

(** With a results area on the page, [displayResults] re-renders from the
    first page: at most [resultsPerPage] cards, then the button if results
    remain.  The rest of the page stays, but for an element with the id of
    the Show-More button that markup in [#stats] may lose. *)
Lemma displayResults_first_page (rs : list SearchResult) (s : State)
    (nodes : list Node) :
  resultsContainer (dom s) = Some nodes ->
  let s1 :=
    set_currentlyDisplayedResults (Nat.min resultsPerPage (length rs))
      (set_allResults rs s) in
  exists d,
    displayResults rs s = Normal tt (set_dom d s1) /\
    resultsContainer d =
      Some (result_cards (firstn resultsPerPage rs) ++ show_more_button s1) /\
    same_fixtures (dom s) d.
Proof.
  intros Hc s1. rewrite (displayResults_present rs s nodes Hc).
  set (s0 := with_container []
               (set_currentlyDisplayedResults 0 (set_allResults rs s))).
  assert (Hp : next_page s0 = firstn resultsPerPage rs).
  { unfold next_page. change (currentlyDisplayedResults s0) with 0.
    change (allResults s0) with rs. rewrite Nat.sub_0_r.
    change (skipn 0 rs) with rs. apply firstn_min_length. }
  rewrite (showMoreResults_present s0 []);
    [| reflexivity | unfold cursor_ok; simpl; lia].
  exists (with_button s1 (revealed s0 [])).
  split; [reflexivity|]. split.
  - rewrite with_button_container, revealed_fresh, Hp. reflexivity.
  - eapply same_fixtures_trans; [|apply with_button_frame].
    apply (same_fixtures_trans _ (dom s0));
      [repeat split | apply revealed_frame].
Qed.

Lemma accumulate_fields (r : SearchResult) (s : State) :
  currentlyDisplayedResults (accumulate r s) = currentlyDisplayedResults s /\
  allResults (accumulate r s) = allResults s ++ [r] /\
  dom (accumulate r s) = dom s.
Proof.
  unfold accumulate.
  destruct (type r =? "video")%string;
    [| destruct (type r =? "website")%string]; repeat split.
Qed.

Lemma updateSearchStats_fields (data : StatsData) (s : State) :
  let s' := final (updateSearchStats data s) in
  same_but_dom s s' /\
  resultsContainer (dom s') = resultsContainer (dom s).
Proof.
  unfold updateSearchStats, update_dom, modify. simpl.
  split; [apply same_but_dom_set_dom|].
  destruct (statsElement (dom s)); reflexivity.
Qed.

(** A [new_result] that carries a result, on a page with a results area:
    the list is re-rendered from its first page. *)
Lemma new_result_present (s : State) (data : NewResultData)
    (r : SearchResult) (nodes : list Node) :
  result data = Some r ->
  resultsContainer (dom s) = Some nodes ->
  cursor_ok s ->
  let s' := step s (NewResult data) in
  currentlyDisplayedResults s' =
    Nat.min resultsPerPage (S (length (allResults s))) /\
  resultsContainer (dom s') =
    Some (result_cards (firstn resultsPerPage (allResults s ++ [r]))
          ++ show_more_button s').
Proof.
  intros Hr Hc Hk. cbv zeta. unfold step, run, handler.
  rewrite (on_new_result_some _ _ _ Hr).
  destruct (accumulate_fields r s) as (Ac & Aa & Ad).
  assert (Hg : (currentlyDisplayedResults (accumulate r s)
                <? length (allResults (accumulate r s))) = true).
  { apply Nat.ltb_lt. rewrite Ac, Aa, length_app. unfold cursor_ok in Hk.
    simpl. lia. }
  set (s1 := set_currentlyDisplayedResults
               (Nat.min resultsPerPage (length (allResults (accumulate r s))))
               (set_allResults (allResults (accumulate r s))
                  (accumulate r s))).
  destruct (displayResults_first_page (allResults (accumulate r s))
              (accumulate r s) nodes) as (d & Ed & Hd & _);
    [rewrite Ad; exact Hc|].
  fold s1 in Ed, Hd.
  set (s2 := set_dom d s1) in *.
  assert (E : rerender data (accumulate r s) =
              updateSearchStats
                {| total := Js.value (totalResults s2);
                   videos := Some (videoResults s2);
                   websites := Some (websiteResults s2);
                   stats_query := result_query data |} s2).
  { unfold rerender. unfold bind at 1, get. rewrite Hg. unfold bind at 1.
    rewrite Ed. reflexivity. }
  rewrite E.
  match goal with
  | |- context [final (updateSearchStats ?x s2)] =>
      destruct (updateSearchStats_fields x s2)
        as (((_ & _ & _ & Hall) & Hcur & _) & Hcont);
      set (s' := final (updateSearchStats x s2)) in *
  end.
  change (allResults s2) with (allResults (accumulate r s)) in Hall.
  change (currentlyDisplayedResults s2)
    with (Nat.min resultsPerPage (length (allResults (accumulate r s))))
    in Hcur.
  rewrite Aa in Hall, Hcur.
  split.
  - rewrite Hcur, length_app, Nat.add_1_r. reflexivity.
  - rewrite Hcont.
    change (resultsContainer (dom s2)) with (resultsContainer d).
    rewrite Hd.
    unfold show_more_button. rewrite Hcur, Hall.
    change (currentlyDisplayedResults s1)
      with (Nat.min resultsPerPage (length (allResults (accumulate r s)))).
    change (allResults s1) with (allResults (accumulate r s)).
    rewrite Aa. reflexivity.
Qed.

(** ** The renderer on a tidy page *)








(** ** Events that leave the rendering alone *)


Ltac crush_handler s :=
  destruct_state s; unfold_handlers; simpl;
  repeat first
    [ progress (autorewrite with fixtures; simpl)
    | match goal with
      | |- context [match ?x with Some _ => _ | None => _ end] =>
          is_var x; destruct x; simpl
      | |- context [if ?x then _ else _] => is_var x; destruct x; simpl
      end ].

Lemma connect_same_render (s : State) : same_render s (step s Connect).
Proof. crush_handler s; repeat split. Qed.

Lemma disconnect_same_render (s : State) : same_render s (step s Disconnect).
Proof. crush_handler s; repeat split. Qed.

Lemma form_edit_same_render (s : State) (e : Event) :
  match e with
  | TypeQuery _ | CheckVideos _ | CheckWebsites _ => True
  | _ => False
  end ->
  same_render s (step s e).
Proof.
  destruct e; intros H; try contradiction;
    crush_handler s; repeat split.
Qed.

Lemma submit_same_render (s : State) : same_render s (step s Submit).
Proof.
  destruct_state s. unfold step, run, handler, on_submit, read, emit.
  unfold_handlers. simpl.
  destruct sf; simpl; [| repeat split].
  destruct si as [value|]; simpl; [| repeat split].
  destruct (Js.truthy (Js.trim value)); simpl.
  - destruct cn; simpl.
    + destruct sv as [[|]|], sw as [[|]|]; simpl;
        try destruct st; repeat split.
    + destruct st; repeat split.
  - destruct st; repeat split.
Qed.

(** [search_completed] and [search_error]: the element with id [loader]
    goes, the status line, the statistics and the submit button change, and
    that is all. *)
Lemma search_completed_frame (s : State) (data : StatsData) :
  let s' := step s (SearchCompleted data) in
  same_but_dom s s' /\
  resultsContainer (dom s') =
    resultsContainer (remove_element "loader" (dom s)) /\
  searchForm (dom s') = searchForm (dom s) /\
  searchInput (dom s') = searchInput (dom s) /\
  searchVideos (dom s') = searchVideos (dom s) /\
  searchWebsites (dom s') = searchWebsites (dom s) /\
  parseHTML (dom s') = parseHTML (dom s) /\
  statsFirst (dom s') = statsFirst (dom s).
Proof.
  cbv zeta. unfold step, run, handler. unfold_handlers.
  pose proof (remove_element_frame "loader" (dom s)) as Hf.
  destruct (remove_element "loader" (dom s))
    as [sf si sb sv sw rc st ss ph sfi sde].
  unfold same_fixtures in Hf. simpl in Hf.
  destruct Hf as (F1 & F2 & F3 & F4 & F5 & F6 & F7 & F8 & F9).
  simpl. destruct st, ss, sb; simpl; repeat split; assumption.
Qed.

Lemma search_error_frame (s : State) (data : ErrorData) :
  let s' := step s (SearchError data) in
  same_but_dom s s' /\
  resultsContainer (dom s') =
    resultsContainer (remove_element "loader" (dom s)) /\
  statsElement (dom s') = statsElement (dom s) /\
  searchForm (dom s') = searchForm (dom s) /\
  searchInput (dom s') = searchInput (dom s) /\
  searchVideos (dom s') = searchVideos (dom s) /\
  searchWebsites (dom s') = searchWebsites (dom s) /\
  parseHTML (dom s') = parseHTML (dom s) /\
  statsFirst (dom s') = statsFirst (dom s) /\
  statsDetached (dom s') = statsDetached (remove_element "loader" (dom s)).
Proof.
  cbv zeta. unfold step, run, handler. unfold_handlers.
  pose proof (remove_element_frame "loader" (dom s)) as Hf.
  destruct (remove_element "loader" (dom s))
    as [sf si sb sv sw rc st ss ph sfi sde].
  unfold same_fixtures in Hf. simpl in Hf.
  destruct Hf as (F1 & F2 & F3 & F4 & F5 & F6 & F7 & F8 & F9).
  simpl. destruct st, sb; simpl; repeat split; assumption.
Qed.




(** The state after a click on the watch button of node [i]. *)
Lemma watch_click_state (s : State) (i : nat) (answer : bool) :
  step s (WatchClick i answer) =
  match resultsContainer (dom s) with
  | Some nodes =>
      match nth_error nodes i with
      | Some n =>
          match click_node answer n with
          | Some (n', Some u) =>
              set_opened (opened s ++ [u])
                (with_container (replace_nth i n' nodes) s)
          | Some (n', None) => with_container (replace_nth i n' nodes) s
          | None => s
          end
      | None => s
      end
  | None => s
  end.
Proof.
  unfold step, run, handler, on_watch_click. unfold bind at 1, get.
  destruct (resultsContainer (dom s)) as [nodes|]; [|reflexivity].
  destruct (nth_error nodes i) as [n|]; [|reflexivity].
  destruct (click_node answer n) as [[n' o]|]; [|reflexivity].
  destruct o; reflexivity.
Qed.

(** The state after the favicon of node [i] has failed to load. *)
Lemma favicon_error_state (s : State) (i : nat) :
  step s (FaviconError i) =
  match resultsContainer (dom s) with
  | Some nodes =>
      match nth_error nodes i with
      | Some n =>
          match node_onerror n with
          | Some n' => with_container (replace_nth i n' nodes) s
          | None => s
          end
      | None => s
      end
  | None => s
  end.
Proof.
  unfold step, run, handler, on_favicon_error. unfold bind at 1, get.
  destruct (resultsContainer (dom s)) as [nodes|]; [|reflexivity].
  destruct (nth_error nodes i) as [n|]; [|reflexivity].
  destruct (node_onerror n) as [n'|]; reflexivity.
Qed.

(** ** The cursor stays within the accumulator *)

Lemma cursor_ok_same (s s' : State) :
  currentlyDisplayedResults s' = currentlyDisplayedResults s ->
  allResults s' = allResults s ->
  cursor_ok s -> cursor_ok s'.
Proof. unfold cursor_ok. intros -> ->. trivial. Qed.

Lemma cursor_ok_same_render (s s' : State) :
  same_render s s' -> cursor_ok s -> cursor_ok s'.
Proof. intros (Hc & Ha & _). apply cursor_ok_same; assumption. Qed.

Lemma cursor_ok_same_but_dom (s s' : State) :
  same_but_dom s s' -> cursor_ok s -> cursor_ok s'.
Proof.
  intros ((_ & _ & _ & Ha) & Hc & _). apply cursor_ok_same; assumption.
Qed.

(** A [new_result] that carries a result, on a page without a results
    area: the handler is aborted by [displayResults], after the accumulator
    update and before the statistics. *)
Lemma new_result_absent (s : State) (data : NewResultData)
    (r : SearchResult) :
  result data = Some r ->
  resultsContainer (dom s) = None ->
  cursor_ok s ->
  step s (NewResult data) = accumulate r s.
Proof.
  intros Hr Hc Hk. unfold step, run, handler.
  rewrite (on_new_result_some _ _ _ Hr).
  destruct (accumulate_fields r s) as (Ac & Aa & Ad).
  unfold rerender. unfold bind at 1, get.
  assert (Hg : (currentlyDisplayedResults (accumulate r s)
                <? length (allResults (accumulate r s))) = true).
  { apply Nat.ltb_lt. rewrite Ac, Aa, length_app.
    unfold cursor_ok in Hk. simpl. lia. }
  rewrite Hg. unfold bind at 1, displayResults. unfold bind at 1.
  rewrite Ad, Hc. reflexivity.
Qed.

Lemma new_result_cursor_ok (s : State) (data : NewResultData) :
  cursor_ok s -> cursor_ok (step s (NewResult data)).
Proof.
  intros Hk.
  destruct (result data) as [r|] eqn:Hr.
  - destruct (resultsContainer (dom s)) as [nodes|] eqn:Hc.
    + destruct (new_result_present s data r nodes Hr Hc Hk) as (Hcur & _).
      destruct (new_result_accumulates s data) as (Hall & _).
      simpl carried in Hall. rewrite Hr in Hall.
      unfold cursor_ok. rewrite Hcur, Hall, length_app.
      change (length [r]) with 1. lia.
    + rewrite (new_result_absent s data r Hr Hc Hk).
      destruct (accumulate_fields r s) as (Ac & Aa & _).
      unfold cursor_ok in *. rewrite Ac, Aa, length_app. lia.
  - unfold step, run, handler, on_new_result. rewrite Hr. exact Hk.
Qed.

Lemma step_cursor_ok (s : State) (e : Event) :
  cursor_ok s -> cursor_ok (step s e).
Proof.
  intros Hk. destruct e.
  - apply (cursor_ok_same_render s); [apply connect_same_render | exact Hk].
  - apply (cursor_ok_same_render s);
      [apply disconnect_same_render | exact Hk].
  - destruct (search_started_resets s data) as (_ & _ & _ & Ha & Hc & _).
    unfold cursor_ok. rewrite Hc. lia.
  - apply new_result_cursor_ok, Hk.
  - apply (cursor_ok_same_but_dom s);
      [apply (search_completed_frame s data) | exact Hk].
  - apply (cursor_ok_same_but_dom s);
      [apply (search_error_frame s data) | exact Hk].
  - apply showMoreResults_cursor, Hk.
  - rewrite watch_click_state.
    destruct (resultsContainer (dom s)) as [nodes|]; [|exact Hk].
    destruct (nth_error nodes i) as [n|]; [|exact Hk].
    destruct (click_node answer n) as [[n' [u|]]|]; exact Hk.
  - apply (cursor_ok_same_render s); [apply submit_same_render | exact Hk].
  - apply (cursor_ok_same_render s);
      [apply form_edit_same_render; exact I | exact Hk].
  - apply (cursor_ok_same_render s);
      [apply form_edit_same_render; exact I | exact Hk].
  - apply (cursor_ok_same_render s);
      [apply form_edit_same_render; exact I | exact Hk].
  - rewrite favicon_error_state.
    destruct (resultsContainer (dom s)) as [nodes|]; [|exact Hk].
    destruct (nth_error nodes i) as [n|]; [|exact Hk].
    destruct (node_onerror n) as [n'|]; exact Hk.
Qed.

Lemma initial_cursor_ok (page : Dom) : cursor_ok (initialState page).
Proof.
  destruct page as [sf si sb sv sw rc st ss ph sfi sde].
  unfold initialState. unfold_handlers. simpl.
  destruct st; unfold cursor_ok; simpl; lia.
Qed.

Lemma reachable_cursor_ok (s : State) : reachable s -> cursor_ok s.
Proof.
  induction 1 as [page Hp | s e _ IH].
  - apply initial_cursor_ok.
  - apply step_cursor_ok, IH.
Qed.

Lemma reachable_steps (es : list Event) :
  forall s, reachable s -> reachable (steps s es).
Proof.
  induction es as [|e es IH]; intros s Hs; simpl.
  - exact Hs.
  - apply IH, reachable_step, Hs.
Qed.



(** ** The invariant of the renderer on a tidy page *)












(** ** The example session *)

Lemma example_page_fresh : fresh_page example_page.
Proof. right. reflexivity. Qed.

Lemma six_shown_reachable : reachable six_shown.
Proof. apply reachable_steps, reachable_init, example_page_fresh. Qed.

(** * The claims *)

(** ** C1: the reveal cursor *)




(** ** C2: the accumulator and its counters *)

(** C2, as stated, fails: a [new_result] event without a [result] is
    received and ignored, so the accumulator is shorter than the number of
    events received. *)
Lemma event_without_result_not_counted :
  length
    (allResults
       (steps (step (initialState example_page) (SearchStarted started))
          (map NewResult [without_result])))
  <> length [without_result].
Proof. vm_compute. discriminate. Qed.

Lemma carried_length (ds : list NewResultData) :
  length (carried ds) + length (filter lacks_result ds) = length ds.
Proof.
  induction ds as [|d ds IH]; simpl; [reflexivity|].
  unfold lacks_result at 1. destruct (result d); simpl; lia.
Qed.

(** C2, amended: for every sequence of [new_result] events received within
    one session, [allResults] holds the results of the events that carry
    one, in arrival order, so its length and [totalResults] equal the
    number of those events (events without a result are ignored: the
    length is the number of events received less the number of events
    without a result), and [videoResults] and [websiteResults] equal the
    number of them whose [result.type] is ['video'] and ['website']. *)
Theorem accumulator_counts_carried_results (s0 : State) (data : StartedData)
    (ds : list NewResultData) :
  let s' := steps (step s0 (SearchStarted data)) (map NewResult ds) in
  allResults s' = carried ds /\
  length (allResults s') = length (carried ds) /\
  length (allResults s') + length (filter lacks_result ds) = length ds /\
  totalResults s' = length (carried ds) /\
  videoResults s' = length (of_type "video" (carried ds)) /\
  websiteResults s' = length (of_type "website" (carried ds)).
Proof.
  cbv zeta.
  destruct (search_started_resets s0 data) as (Ht & Hv & Hw & Ha & _).
  destruct (new_results_accumulate ds (step s0 (SearchStarted data)))
    as (Ha' & Ht' & Hv' & Hw').
  rewrite Ha', Ht', Hv', Hw', Ha, Ht, Hv, Hw. simpl app.
  repeat split. apply carried_length.
Qed.

(** ** C3: one page per invocation *)



(** ** C4: [search_started] resets the session *)

(** C4: whatever the state before, after [search_started] the three
    counters are 0, [allResults] is empty, the reveal cursor is 0, and the
    results area shows no card and no Show-More button (it holds the loader
    only). *)
Theorem search_started_resets_session (s : State) (data : StartedData) :
  let s' := step s (SearchStarted data) in
  totalResults s' = 0 /\
  videoResults s' = 0 /\
  websiteResults s' = 0 /\
  allResults s' = [] /\
  currentlyDisplayedResults s' = 0 /\
  displayed s' = [] /\
  count_show_more s' = 0 /\
  resultsContainer (dom s') =
    option_map (fun _ => [Loader]) (resultsContainer (dom s)).
Proof.
  cbv zeta.
  destruct (search_started_resets s data) as (Ht & Hv & Hw & Ha & Hc & Hd).
  unfold displayed, count_show_more. rewrite Hd.
  destruct (resultsContainer (dom s)); simpl; repeat split; assumption.
Qed.

(** ** The resolver as a priority search *)

Lemma append_assoc (a b c : string) :
  ((a ++ b) ++ c = a ++ (b ++ c))%string.
Proof. induction a as [|x a IH]; simpl; [|rewrite IH]; reflexivity. Qed.

Lemma iframe_contains (before id after allow : string) :
  contains (iframe (before ++ id ++ after)%string allow) id.
Proof.
  unfold contains, iframe.
  exists ("<iframe " ++ Js.newline ++ Js.spaces 16 ++ "src=" ++ Js.dquote
          ++ before)%string.
  exists (after ++ Js.dquote ++ " " ++ Js.newline ++
          Js.spaces 16 ++ "allow=" ++ Js.dquote ++ allow ++ Js.dquote ++ " "
          ++ Js.newline ++
          Js.spaces 16 ++ "allowfullscreen>" ++ Js.newline ++
          Js.spaces 12 ++ "</iframe>")%string.
  rewrite !append_assoc. reflexivity.
Qed.

Lemma template_contains (p : Provider) (id : string) :
  contains (template p id) id.
Proof.
  destruct p; unfold template, youtubeEmbed, vimeoEmbed, dailymotionEmbed.
  - exact (iframe_contains "https://www.youtube.com/embed/" id
             "?autoplay=0&rel=0" _).
  - exact (iframe_contains "https://player.vimeo.com/video/" id
             "?autoplay=0" _).
  - exact (iframe_contains "https://www.dailymotion.com/embed/video/" id
             "?autoplay=0" _).
Qed.

Lemma template_not_empty (p : Provider) (id : string) :
  template p id <> EmptyString.
Proof. destruct p; discriminate. Qed.

Lemma hit_not_empty (url : string) (re : RegExp.regex) (id : string) :
  hit url re = Some id -> id <> EmptyString.
Proof.
  unfold hit. destruct (js_match url re) as [[c|]|]; try discriminate.
  destruct (Js.truthy c) eqn:Ht; [|discriminate].
  intros H. injection H as <-. destruct c; [discriminate Ht | discriminate].
Qed.

(** The loop over one family is the priority search over its patterns. *)
Lemma first_embed_first_pattern (url : string) (p : Provider)
    (patterns : list RegExp.regex) :
  first_embed url patterns (template p) =
  first_pattern url (map (pair p) patterns).
Proof.
  induction patterns as [|re rest IH]; simpl; [reflexivity|].
  destruct (hit url re); [reflexivity | exact IH].
Qed.

Lemma first_pattern_app (url : string)
    (l1 l2 : list (Provider * RegExp.regex)) :
  first_pattern url (l1 ++ l2) =
  match first_pattern url l1 with
  | Some html => Some html
  | None => first_pattern url l2
  end.
Proof.
  induction l1 as [|q l1 IH]; simpl; [reflexivity|].
  destruct (hit url (snd q)); [reflexivity | exact IH].
Qed.

(** The loops over the families, one after the other, are the priority
    search over all their patterns. *)
Lemma first_family_first_pattern (url : string)
    (fams : list (Provider * list RegExp.regex)) :
  first_family url fams =
  first_pattern url (flat_map (fun f => map (pair (fst f)) (snd f)) fams).
Proof.
  induction fams as [|f rest IH]; simpl; [reflexivity|].
  rewrite first_pattern_app, <- first_embed_first_pattern, IH.
  reflexivity.
Qed.

Lemma createVideoEmbed_first_pattern (url : string) :
  url <> EmptyString ->
  createVideoEmbed url = first_pattern url all_patterns.
Proof.
  intros Hu. unfold all_patterns.
  rewrite <- first_family_first_pattern.
  unfold createVideoEmbed. destruct url as [|a u]; [contradiction|].
  change (negb (Js.truthy (String a u))) with false. cbv iota.
  unfold first_family, families, fst, snd, template.
  destruct (first_embed _ youtubePatterns _); [reflexivity|].
  destruct (first_embed _ vimeoPatterns _); [reflexivity|].
  destruct (first_embed _ dailymotionPatterns _); reflexivity.
Qed.

Lemma first_pattern_wins (url : string) (p : Provider) (re : RegExp.regex)
    (id : string) (before after : list (Provider * RegExp.regex)) :
  Forall (misses url) before ->
  hit url re = Some id ->
  first_pattern url (before ++ (p, re) :: after) = Some (template p id).
Proof.
  intros Hb Hh. induction Hb as [|q before Hq _ IH]; simpl.
  - rewrite Hh. reflexivity.
  - unfold misses in Hq. rewrite Hq. exact IH.
Qed.

Lemma first_pattern_none (url : string)
    (patterns : list (Provider * RegExp.regex)) :
  Forall (misses url) patterns -> first_pattern url patterns = None.
Proof.
  induction 1 as [|q rest Hq _ IH]; simpl; [reflexivity|].
  unfold misses in Hq. rewrite Hq. exact IH.
Qed.

Lemma first_pattern_some (url html : string)
    (patterns : list (Provider * RegExp.regex)) :
  first_pattern url patterns = Some html -> embed_fragment html.
Proof.
  induction patterns as [|q rest IH]; simpl; [discriminate|].
  destruct (hit url (snd q)) as [id|] eqn:Hh; [|exact IH].
  intros H. injection H as <-.
  exists (fst q), id. split; [eapply hit_not_empty; eassumption|reflexivity].
Qed.

(** ** C5: the documented URL shapes *)

(** C5: each of the eight documented examples hits the pattern written for
    its shape and resolves to the fragment of its provider for the id in
    the URL, which the fragment contains; for every non-empty URL the first
    pattern that hits, in the order of the families and of the patterns
    within each, decides the fragment; and a non-empty URL that no pattern
    hits resolves to [null]. *)
Theorem resolver_round_trip :
  (Forall
     (fun e =>
        createVideoEmbed (fst (fst e)) =
          Some (template (snd (fst e)) (snd e)) /\
        contains (template (snd (fst e)) (snd e)) (snd e) /\
        snd e <> EmptyString)
     documented_examples /\
   example_hits_own_pattern = true /\
   length all_patterns = 8) /\
  (forall url p re id before after,
      url <> EmptyString ->
      all_patterns = before ++ (p, re) :: after ->
      Forall (misses url) before ->
      hit url re = Some id ->
      createVideoEmbed url = Some (template p id) /\
      contains (template p id) id) /\
  (forall url,
      url <> EmptyString ->
      Forall (misses url) all_patterns ->
      createVideoEmbed url = None).
Proof.
  split; [split; [|split] |split].
  - unfold documented_examples.
    repeat (apply Forall_cons || apply Forall_nil);
      (split; [vm_compute; reflexivity
              | split; [apply template_contains | discriminate]]).
  - vm_compute. reflexivity.
  - reflexivity.
  - intros url p re id before after Hu Hl Hb Hh.
    split; [|apply template_contains].
    rewrite (createVideoEmbed_first_pattern url Hu), Hl.
    apply first_pattern_wins; assumption.
  - intros url Hu Hm.
    rewrite (createVideoEmbed_first_pattern url Hu).
    apply first_pattern_none, Hm.
Qed.

Lemma resolver_round_trip_witness :
  createVideoEmbed "https://vimeo.com/76979871" =
    Some (template Vimeo "76979871") /\
  createVideoEmbed "https://example.com/articles/42" = None.
Proof.
  destruct resolver_round_trip as (_ & Hfirst & Hnone).
  split.
  - apply (Hfirst "https://vimeo.com/76979871" Vimeo
             (nth 0 vimeoPatterns RegExp.Eps) "76979871"
             (firstn 4 all_patterns) (skipn 5 all_patterns)).
    + discriminate.
    + reflexivity.
    + repeat (apply Forall_cons || apply Forall_nil);
        vm_compute; reflexivity.
    + vm_compute. reflexivity.
  - apply Hnone.
    + discriminate.
    + repeat (apply Forall_cons || apply Forall_nil);
        vm_compute; reflexivity.
Defined.

(** ** C6: the outcomes of the resolver *)

(** C6, as stated, fails: for the empty URL the resolver returns the empty
    string, which is neither [null] nor an embed fragment. *)
Lemma empty_url_third_outcome :
  createVideoEmbed EmptyString = Some EmptyString /\
  ~ (createVideoEmbed EmptyString = None \/
     exists html,
       createVideoEmbed EmptyString = Some html /\ embed_fragment html).
Proof.
  split; [reflexivity|].
  intros [H | (html & H & (p & id & _ & Hf))].
  - discriminate H.
  - change (createVideoEmbed EmptyString) with (Some EmptyString) in H.
    injection H as <-. symmetry in Hf.
    exact (template_not_empty p id Hf).
Qed.

(** C6, amended: for every URL the resolver returns [null], or an embed
    fragment (the markup of one of the three providers for a non-empty
    video id), or, for the empty URL and only for it, the empty string. *)
Theorem resolver_outcomes (url : string) :
  createVideoEmbed url = None \/
  (exists html, createVideoEmbed url = Some html /\ embed_fragment html) \/
  (url = EmptyString /\ createVideoEmbed url = Some EmptyString).
Proof.
  destruct url as [|a u].
  - right. right. split; reflexivity.
  - assert (Hu : String a u <> EmptyString) by discriminate.
    rewrite (createVideoEmbed_first_pattern _ Hu).
    destruct (first_pattern (String a u) all_patterns) as [html|] eqn:Hf.
    + right. left. exists html. split; [reflexivity|].
      eapply first_pattern_some. eassumption.
    + left. reflexivity.
Qed.

(** ** C7: the submission guards *)

Lemma trim_start_whitespace (s : string) :
  whitespace_only s = true -> Js.trim_start s = EmptyString.
Proof.
  induction s as [|c s IH]; simpl; [reflexivity|].
  destruct (Js.is_space c); simpl; [exact IH | discriminate].
Qed.

Lemma trim_start_other (s : string) :
  whitespace_only s = false ->
  exists c rest, Js.trim_start s = String c rest /\ Js.is_space c = false.
Proof.
  induction s as [|c s IH]; simpl; [discriminate|].
  destruct (Js.is_space c) eqn:Hc; simpl.
  - exact IH.
  - intros _. exists c, s. split; [reflexivity | exact Hc].
Qed.

(** The trimmed query is falsy exactly when the input is empty or white
    space only. *)
Lemma truthy_trim (s : string) :
  Js.truthy (Js.trim s) = negb (whitespace_only s).
Proof.
  unfold Js.trim. destruct (whitespace_only s) eqn:Hw.
  - rewrite (trim_start_whitespace s Hw). reflexivity.
  - destruct (trim_start_other s Hw) as (c & rest & -> & Hc).
    simpl. destruct (Js.trim_end rest); [rewrite Hc|]; reflexivity.
Qed.

(** C7: on submission of the form with [value] in the query input,
    - an empty or white-space-only [value] sets the status to
      "Please enter a search query" and emits nothing;
    - otherwise, while the socket is not connected, the status is set to
      the connection message and nothing is emitted;
    - otherwise, with both category boxes unchecked, the status is set to
      the category-selection message and nothing is emitted;
    - otherwise exactly one [search_query] is emitted, carrying the trimmed
      query and the two category flags, and the status is left alone.
    Nothing is emitted whenever one of the three guards applies, and the
    three messages are distinct. *)
Theorem submit_guards (s : State) (value : string) :
  searchForm (dom s) = true ->
  searchInput (dom s) = Some value ->
  let s' := step s Submit in
  let rejected (text : string) :=
    emitted s' = emitted s /\
    statusElement (dom s') =
      option_map (fun _ => error_status text) (statusElement (dom s)) in
  (whitespace_only value = true ->
   rejected "Please enter a search query") /\
  (whitespace_only value = false -> connected s = false ->
   rejected "Not connected to server. Please wait...") /\
  (whitespace_only value = false -> connected s = true ->
   searchVideos (dom s) = Some false ->
   searchWebsites (dom s) = Some false ->
   rejected "Please select at least one search type (Videos or Websites)") /\
  (forall v w,
      whitespace_only value = false -> connected s = true ->
      searchVideos (dom s) = Some v ->
      searchWebsites (dom s) = Some w ->
      v || w = true ->
      emitted s' =
        emitted s ++ [{| query := Js.trim value;
                         searchTypes_videos := v;
                         searchTypes_websites := w |}] /\
      statusElement (dom s') = statusElement (dom s)) /\
  (whitespace_only value = true \/ connected s = false \/
   (searchVideos (dom s) = Some false /\
    searchWebsites (dom s) = Some false) ->
   emitted s' = emitted s) /\
  ("Please enter a search query"
   <> "Not connected to server. Please wait..." /\
   "Please enter a search query"
   <> "Please select at least one search type (Videos or Websites)" /\
   "Not connected to server. Please wait..."
   <> "Please select at least one search type (Videos or Websites)").
Proof.
  intros Hf Hi. cbv zeta.
  destruct_state s. simpl in Hf, Hi. subst sf si.
  unfold step, run, handler, on_submit, read, emit, updateStatus,
    update_dom, bind, modify, get, ret, final, error_status.
  simpl. rewrite truthy_trim.
  split; [|split; [|split; [|split; [|split]]]].
  - intros ->. simpl. destruct st; split; reflexivity.
  - intros -> Hc. simpl in Hc. subst cn. simpl.
    destruct st; split; reflexivity.
  - intros -> Hc Hv Hw. simpl in Hc, Hv, Hw. subst cn sv sw. simpl.
    destruct st; split; reflexivity.
  - intros v0 w0 -> Hc Hv Hw Hvw. simpl in Hc, Hv, Hw. subst cn sv sw.
    simpl. destruct v0, w0; try discriminate Hvw; simpl;
      split; reflexivity.
  - intros [-> | [Hc | (Hv & Hw)]]; simpl in *.
    + destruct st; reflexivity.
    + subst cn. destruct (whitespace_only value); simpl;
        destruct st; reflexivity.
    + subst sv sw. destruct (whitespace_only value), cn; simpl;
        destruct st; reflexivity.
  - repeat split; discriminate.
Qed.

Lemma submit_guards_witness :
  (emitted (step blank_query Submit) = emitted blank_query /\
   statusElement (dom (step blank_query Submit)) =
     option_map (fun _ => error_status "Please enter a search query")
       (statusElement (dom blank_query))) /\
  (emitted (step not_connected Submit) = emitted not_connected /\
   statusElement (dom (step not_connected Submit)) =
     option_map
       (fun _ => error_status "Not connected to server. Please wait...")
       (statusElement (dom not_connected))) /\
  (emitted (step no_category Submit) = emitted no_category /\
   statusElement (dom (step no_category Submit)) =
     option_map
       (fun _ =>
          error_status
            "Please select at least one search type (Videos or Websites)")
       (statusElement (dom no_category))) /\
  (emitted (step ready Submit) =
     emitted ready ++ [{| query := Js.trim "cats";
                          searchTypes_videos := true;
                          searchTypes_websites := false |}] /\
   statusElement (dom (step ready Submit)) = statusElement (dom ready)).
Proof.
  split; [|split; [|split]].
  - destruct (submit_guards blank_query "   " eq_refl eq_refl) as (H & _).
    apply H. reflexivity.
  - destruct (submit_guards not_connected "cats" eq_refl eq_refl)
      as (_ & H & _).
    apply H; reflexivity.
  - destruct (submit_guards no_category "cats" eq_refl eq_refl)
      as (_ & _ & H & _).
    apply H; reflexivity.
  - destruct (submit_guards ready "cats" eq_refl eq_refl)
      as (_ & _ & _ & H & _).
    apply (H true false); reflexivity.
Defined.

(** ** C8: the watch toggle *)

Lemma onclick_hidden (answer : bool) (c : Card) :
  display (videoContainer c) = "none" ->
  watchButton_onclick answer c =
  handleWatchClick answer c (url (card_result c)).
Proof. intros H. unfold watchButton_onclick. rewrite H. reflexivity. Qed.

Lemma onclick_shown (answer : bool) (c : Card) :
  display (videoContainer c) = "block" ->
  watchButton_onclick answer c =
  (set_watchButton (Some watch_label) (set_videoContainer hidden_empty c),
   None).
Proof. intros H. unfold watchButton_onclick. rewrite H. reflexivity. Qed.

Lemma handleWatchClick_embed (answer : bool) (c : Card) (u html : string) :
  createVideoEmbed u = Some html ->
  html <> EmptyString ->
  handleWatchClick answer c u =
  (set_videoContainer
     {| display := "block"; innerHTML := (html ++ close_button)%string |} c,
   None).
Proof.
  intros He Hh. unfold handleWatchClick. rewrite He.
  destruct html; [contradiction | reflexivity].
Qed.

Lemma handleWatchClick_fallback (answer : bool) (c : Card) (u : string) :
  createVideoEmbed u = None ->
  handleWatchClick answer c u =
  (set_videoContainer
     {| display := display (videoContainer c); innerHTML := cannot_embed |}
     c,
   if answer then Some u else None).
Proof. intros He. unfold handleWatchClick. rewrite He. reflexivity. Qed.

(** For an embeddable URL the toggle works as described: the first click
    builds the embed and reveals the container, the second hides and empties
    it; the label of the button is the initial one throughout. *)
Lemma watch_toggle_embeddable (r : SearchResult) (html : string)
    (answer1 answer2 : bool) :
  createVideoEmbed (url r) = Some html ->
  html <> EmptyString ->
  let card := createResultElement r in
  let once := fst (watchButton_onclick answer1 card) in
  let twice := fst (watchButton_onclick answer2 once) in
  videoContainer card = hidden_empty /\
  videoContainer once =
    {| display := "block"; innerHTML := (html ++ close_button)%string |} /\
  videoContainer twice = hidden_empty /\
  watchButton twice = Some watch_label.
Proof.
  intros He Hh. cbv zeta.
  rewrite (onclick_hidden answer1 (createResultElement r) eq_refl).
  rewrite (handleWatchClick_embed answer1 _ _ html He Hh).
  rewrite onclick_shown by reflexivity.
  repeat split.
Qed.

(** For a URL the resolver does not embed, the first click writes the
    fallback message into the container but leaves it hidden, so the second
    click takes the same branch again instead of collapsing. *)
Lemma watch_toggle_not_embeddable (r : SearchResult)
    (answer1 answer2 : bool) :
  createVideoEmbed (url r) = None ->
  let card := createResultElement r in
  let once := fst (watchButton_onclick answer1 card) in
  let twice := fst (watchButton_onclick answer2 once) in
  videoContainer once = {| display := "none"; innerHTML := cannot_embed |} /\
  videoContainer twice = {| display := "none"; innerHTML := cannot_embed |}.
Proof.
  intros He. cbv zeta.
  rewrite (onclick_hidden answer1 (createResultElement r) eq_refl).
  rewrite (handleWatchClick_fallback answer1 _ _ He).
  rewrite onclick_hidden by reflexivity.
  rewrite (handleWatchClick_fallback answer2 _ _ He).
  split; reflexivity.
Qed.

(** C8 at a video card whose URL cannot be embedded: after the first click
    on the watch button the container holds the fallback message but is
    still hidden ([display] is ['none']); after the second click it still
    holds the message, so it is not empty.  The same on the page, through
    the event loop. *)
Theorem watch_toggle_fallback_not_cleared :
  createVideoEmbed (url unembeddable) = None /\
  (let card := createResultElement unembeddable in
   let once := fst (watchButton_onclick false card) in
   let twice := fst (watchButton_onclick false once) in
   watchButton card = Some watch_label /\
   videoContainer once =
     {| display := "none"; innerHTML := cannot_embed |} /\
   videoContainer twice =
     {| display := "none"; innerHTML := cannot_embed |} /\
   innerHTML (videoContainer twice) <> EmptyString) /\
  map videoContainer
    (displayed
       (steps showing_unembeddable [WatchClick 0 false; WatchClick 0 false]))
  = [{| display := "none"; innerHTML := cannot_embed |}].
Proof.
  split; [vm_compute; reflexivity|]. split.
  - cbv zeta. split; [reflexivity|].
    assert (He : createVideoEmbed (url unembeddable) = None)
      by (vm_compute; reflexivity).
    destruct (watch_toggle_not_embeddable unembeddable false false He)
      as (H1 & H2).
    split; [exact H1|]. split; [exact H2|].
    rewrite H2. discriminate.
  - vm_compute. reflexivity.
Qed.

(** ** C9: Show-More at the end of the list *)

Lemma count_show_more_differs (x y : State) :
  count_show_more x <> count_show_more y -> x <> y.
Proof. intros H E. apply H. rewrite E. reflexivity. Qed.


(** C9 on a page where the URL of a result carries markup.  The URL of
    [spoof] is one the resolver embeds, and the id it captures closes the
    [src] attribute of the player markup and brings a [b] element with the
    id of the Show-More button.  Once the watch button of that card has
    been clicked, [showMoreResults] finds the [b] element ahead of its own
    button and removes it instead: the old button stays and a new one is
    appended, so the page has two; after the next invocation the cursor is
    at [allResults.length] and a button is still there; and the invocation
    after that, made with the cursor at the end, is no no-op: it removes
    that button. *)
Theorem show_more_button_not_removed :
  createVideoEmbed (url spoof) = Some (youtubeEmbed spoof_id) /\
  count_show_more spoofed = 2 /\
  currentlyDisplayedResults (step spoofed ShowMore) =
    length (allResults (step spoofed ShowMore)) /\
  count_show_more (step spoofed ShowMore) = 1 /\
  step (step spoofed ShowMore) ShowMore <> step spoofed ShowMore.
Proof.
  split; [vm_compute; reflexivity|].
  split; [vm_compute; reflexivity|].
  split; [vm_compute; reflexivity|].
  split; [vm_compute; reflexivity|].
  apply count_show_more_differs. vm_compute. discriminate.
Qed.

(** ** C10: [search_completed] and [search_error] *)





(** * Further properties *)

(** ** What each event leaves alone *)

Lemma same_outside_refl (s : State) : same_outside s s.
Proof. repeat split. Qed.

Lemma same_outside_trans (s1 s2 s3 : State) :
  same_outside s1 s2 -> same_outside s2 s3 -> same_outside s1 s3.
Proof.
  unfold same_outside. intros (A1 & A2 & A3) (B1 & B2 & B3).
  repeat split; congruence.
Qed.

Lemma same_but_dom_outside (s s' : State) :
  same_but_dom s s' -> same_outside s s'.
Proof. intros (_ & _ & Hc & He & Ho). repeat split; assumption. Qed.

Lemma showMoreResults_same_outside : preserves same_outside showMoreResults.
Proof.
  assert (Hw : forall (A : Type) (m : M A),
             preserves same_but_dom m -> preserves same_outside m).
  { intros A m H s. apply same_but_dom_outside, H. }
  unfold showMoreResults.
  apply preserves_get_bind. intros s.
  apply (preserves_bind same_outside same_outside_trans).
  - apply Hw, appendResults_same_but_dom.
  - intros _.
    apply (preserves_bind same_outside same_outside_trans).
    + apply preserves_modify. intros s0. repeat split.
    + intros _.
      apply (preserves_bind same_outside same_outside_trans).
      * apply Hw, update_dom_same_but_dom.
      * intros _. apply preserves_get_bind. intros s0.
        destruct (currentlyDisplayedResults s0 <? length (allResults s0)).
        -- apply Hw, appendChild_same_but_dom.
        -- apply same_outside_refl.
Qed.

Lemma displayResults_same_outside (rs : list SearchResult) :
  preserves same_outside (displayResults rs).
Proof.
  intros s. unfold displayResults. unfold bind at 1.
  destruct (resultsContainer (dom s)); [|apply same_outside_refl].
  unfold bind, modify.
  eapply same_outside_trans; [|apply showMoreResults_same_outside].
  repeat split.
Qed.

Lemma new_result_same_outside (s : State) (data : NewResultData) :
  same_outside s (step s (NewResult data)).
Proof.
  unfold step, run, handler.
  destruct (result data) as [r|] eqn:Hr.
  - rewrite (on_new_result_some _ _ _ Hr).
    apply same_outside_trans with (accumulate r s).
    + unfold accumulate.
      destruct (type r =? "video")%string;
        [| destruct (type r =? "website")%string]; repeat split.
    + unfold rerender.
      apply (preserves_get_bind same_outside). intros s0.
      apply (preserves_bind same_outside same_outside_trans).
      * destruct (currentlyDisplayedResults s0 <? length (allResults s0)).
        -- apply displayResults_same_outside.
        -- intros s1. apply same_outside_refl.
      * intros _. apply preserves_get_bind. intros s1.
        apply same_but_dom_outside, update_dom_same_but_dom.
  - unfold on_new_result. rewrite Hr. apply same_outside_refl.
Qed.

Lemma watch_click_same_accumulator (s : State) (i : nat) (answer : bool) :
  same_accumulator s (step s (WatchClick i answer)) /\
  currentlyDisplayedResults (step s (WatchClick i answer)) =
    currentlyDisplayedResults s /\
  connected (step s (WatchClick i answer)) = connected s /\
  emitted (step s (WatchClick i answer)) = emitted s.
Proof.
  rewrite watch_click_state.
  destruct (resultsContainer (dom s)) as [nodes|]; [|repeat split].
  destruct (nth_error nodes i) as [n|]; [|repeat split].
  destruct (click_node answer n) as [[n' o]|]; [|repeat split].
  destruct o; repeat split.
Qed.

Lemma favicon_error_same_but_dom (s : State) (i : nat) :
  same_but_dom s (step s (FaviconError i)).
Proof.
  rewrite favicon_error_state.
  destruct (resultsContainer (dom s)) as [nodes|]; [|repeat split].
  destruct (nth_error nodes i) as [n|]; [|repeat split].
  destruct (node_onerror n) as [n'|]; repeat split.
Qed.

(** Apart from [new_result] and [search_started], no event touches the
    accumulator or its counters. *)
Lemma step_same_accumulator (s : State) (e : Event) :
  match e with
  | NewResult _ | SearchStarted _ => False
  | _ => True
  end ->
  same_accumulator s (step s e).
Proof.
  destruct e; intros H; try contradiction.
  - crush_handler s; repeat split.
  - crush_handler s; repeat split.
  - apply (search_completed_frame s data).
  - apply (search_error_frame s data).
  - apply showMoreResults_same_accumulator.
  - apply watch_click_same_accumulator.
  - destruct_state s. unfold step, run, handler, on_submit, read, emit.
    unfold_handlers. simpl.
    destruct sf; simpl; [| repeat split].
    destruct si as [value|]; simpl; [| repeat split].
    destruct (Js.truthy (Js.trim value)); simpl.
    + destruct cn; simpl.
      * destruct sv as [[|]|], sw as [[|]|]; simpl;
          try destruct st; repeat split.
      * destruct st; repeat split.
    + destruct st; repeat split.
  - crush_handler s; repeat split.
  - crush_handler s; repeat split.
  - crush_handler s; repeat split.
  - apply favicon_error_same_but_dom.
Qed.

Lemma counters_ok_same_accumulator (s s' : State) :
  same_accumulator s s' -> counters_ok s -> counters_ok s'.
Proof.
  unfold counters_ok. intros (Ht & Hv & Hw & Ha) (H1 & H2 & H3).
  rewrite Ht, Hv, Hw, Ha. repeat split; assumption.
Qed.

Lemma step_counters_ok (s : State) (e : Event) :
  counters_ok s -> counters_ok (step s e).
Proof.
  intros Hs.
  assert (Hf : match e with
               | NewResult _ | SearchStarted _ => False
               | _ => True
               end -> counters_ok (step s e)).
  { intros H. apply (counters_ok_same_accumulator s); [|exact Hs].
    apply step_same_accumulator, H. }
  destruct e; try (apply Hf; exact I).
  - destruct (search_started_resets s data) as (Ht & Hv & Hw & Ha & _).
    unfold counters_ok. rewrite Ht, Hv, Hw, Ha. repeat split.
  - destruct (new_result_accumulates s data) as (Ha & Ht & Hv & Hw).
    destruct Hs as (H1 & H2 & H3).
    unfold counters_ok, of_type in *.
    rewrite Ha, Ht, Hv, Hw, !filter_app, !length_app. lia.
Qed.

Lemma reachable_counters_ok (s : State) : reachable s -> counters_ok s.
Proof.
  induction 1 as [page Hp | s e _ IH].
  - unfold initialState. unfold_handlers. simpl. repeat split.
  - apply step_counters_ok, IH.
Qed.

(** ** The cards on any page *)

Lemma firstn_app_skipn {A : Type} (c k : nat) (l : list A) :
  firstn c l ++ firstn k (skipn c l) = firstn (c + k) l.
Proof.
  revert l. induction c as [|c IH]; intros l; simpl; [reflexivity|].
  destruct l as [|x l]; simpl.
  - destruct k; reflexivity.
  - rewrite IH. reflexivity.
Qed.

Lemma card_ok_fresh (r : SearchResult) : card_ok (createResultElement r).
Proof.
  unfold card_ok. cbv zeta. repeat (split; [reflexivity|]).
  split; [left; reflexivity | reflexivity].
Qed.

Lemma card_result_fresh (rs : list SearchResult) :
  map card_result (map createResultElement rs) = rs.
Proof. induction rs as [|r rs IH]; simpl; [|rewrite IH]; reflexivity. Qed.

Lemma card_ok_all_fresh (rs : list SearchResult) :
  Forall card_ok (map createResultElement rs).
Proof.
  induction rs as [|r rs IH]; simpl; constructor;
    [apply card_ok_fresh | exact IH].
Qed.

(** A video container that holds an element has markup. *)
Lemma has_id_markup (parse : Parser) (id : string) (c : Card) :
  has_id id (video_elements parse c) = true ->
  innerHTML (videoContainer c) <> EmptyString.
Proof.
  intros H E. rewrite (video_elements_empty parse c E) in H. discriminate.
Qed.

Lemma card_ok_mark_detached (parse : Parser) (id : string) (c : Card) :
  has_id id (video_elements parse c) = true ->
  card_ok c -> card_ok (mark_detached id c).
Proof.
  intros H (H1 & H2 & H3 & H4 & H5 & H6 & _).
  unfold card_ok. cbv zeta. simpl.
  repeat (split; [assumption|]).
  intros E. destruct (has_id_markup parse id c H E).
Qed.

Lemma card_ok_set_videoContainer (v : VideoContainer) (c : Card) :
  card_ok c -> card_ok (set_videoContainer v c).
Proof.
  intros (H1 & H2 & H3 & H4 & H5 & H6 & _).
  unfold card_ok. cbv zeta. simpl.
  repeat (split; [assumption|]). reflexivity.
Qed.

Lemma card_ok_favicon_onerror (c : Card) :
  card_ok c -> card_ok (favicon_onerror c).
Proof.
  intros (H1 & H2 & H3 & H4 & H5 & _ & H7).
  unfold card_ok. cbv zeta. simpl.
  repeat (split; [assumption|]).
  split; [right; reflexivity | exact H7].
Qed.

(** A card has a watch button exactly when its result is a video, and the
    button reads "Watch Now". *)
Lemma card_ok_watchButton (c : Card) :
  card_ok c ->
  watchButton c =
  if (type (card_result c) =? "video")%string
  then Some watch_label else None.
Proof. intros (_ & _ & _ & _ & H & _). exact H. Qed.

Lemma cards_ok_remove_from_nodes (parse : Parser) (id : string)
    (nodes : list Node) :
  Forall card_ok (cards nodes) ->
  Forall card_ok (cards (remove_from_nodes parse id nodes)).
Proof.
  induction nodes as [|n nodes IH]; simpl; [trivial|].
  destruct n as [|c|t]; simpl.
  - destruct (id =? "loader")%string; simpl; [trivial | exact IH].
  - intros H. inversion H as [|? ? Hc Hr]; subst.
    destruct (has_id id (video_elements parse c)) eqn:Hi; simpl.
    + constructor; [exact (card_ok_mark_detached parse id c Hi Hc) | exact Hr].
    + constructor; [exact Hc | exact (IH Hr)].
  - destruct (id =? "show-more-btn")%string; simpl; [trivial | exact IH].
Qed.

(** Removing an element by id leaves the cards with their results, each
    still as it was built. *)
Lemma remove_element_cards (id : string) (d : Dom) (nodes nodes' : list Node) :
  resultsContainer d = Some nodes ->
  resultsContainer (remove_element id d) = Some nodes' ->
  map card_result (cards nodes') = map card_result (cards nodes) /\
  (Forall card_ok (cards nodes) -> Forall card_ok (cards nodes')).
Proof.
  intros Hc Hr. rewrite remove_element_container, Hc in Hr.
  destruct (locate id d); simpl in Hr; injection Hr as <-;
    try (split; [reflexivity | trivial]).
  split.
  - apply (map_through_forget card_result); [reflexivity|].
    apply cards_remove_from_nodes.
  - apply cards_ok_remove_from_nodes.
Qed.

(** Replacing the card at node [i] replaces it among the cards. *)
Lemma cards_replace_nth (nodes : list Node) :
  forall i c c',
    nth_error nodes i = Some (ResultCard c) ->
    exists before after,
      cards nodes = before ++ c :: after /\
      cards (replace_nth i (ResultCard c') nodes) = before ++ c' :: after.
Proof.
  induction nodes as [|n nodes IH]; intros i c c' Hn.
  - destruct i; discriminate.
  - destruct i as [|i]; simpl in Hn.
    + injection Hn as ->. exists [], (cards nodes). split; reflexivity.
    + destruct (IH i c c' Hn) as (before & after & E1 & E2).
      destruct n as [|x|t]; simpl; rewrite E1, E2.
      * exists before, after. split; reflexivity.
      * exists (x :: before), after. split; reflexivity.
      * exists before, after. split; reflexivity.
Qed.

Lemma cards_shape_replace_nth (s : State) (nodes : list Node) (i : nat)
    (c c' : Card) :
  resultsContainer (dom s) = Some nodes ->
  nth_error nodes i = Some (ResultCard c) ->
  card_result c' = card_result c ->
  (card_ok c -> card_ok c') ->
  cards_shape s ->
  cards_shape (with_container (replace_nth i (ResultCard c') nodes) s).
Proof.
  intros Hc Hn Hr Hk Hs. unfold cards_shape in *. rewrite Hc in Hs.
  rewrite container_with_container, cursor_with_container.
  change (allResults (with_container _ s)) with (allResults s).
  destruct Hs as (Hm & Hf).
  destruct (cards_replace_nth nodes i c c' Hn) as (before & after & E1 & E2).
  rewrite E2. rewrite E1 in Hm, Hf. split.
  - rewrite <- Hm, !map_app. simpl. rewrite Hr. reflexivity.
  - apply Forall_app in Hf. destruct Hf as (Hb & Ha).
    inversion Ha; subst. apply Forall_app. split; [exact Hb|].
    constructor; auto.
Qed.

(** A click on a watch button keeps the result of the card and everything
    of the card but its video container. *)
Lemma onclick_card_ok (answer : bool) (c : Card) :
  watchButton c <> None ->
  card_ok c ->
  card_result (fst (watchButton_onclick answer c)) = card_result c /\
  card_ok (fst (watchButton_onclick answer c)).
Proof.
  intros Hb Hc.
  unfold watchButton_onclick.
  destruct (display (videoContainer c) =? "none")%string.
  - unfold handleWatchClick.
    destruct (createVideoEmbed (url (card_result c))) as [html|];
      [destruct (Js.truthy html)|]; simpl; split;
      try reflexivity; apply card_ok_set_videoContainer, Hc.
  - simpl. split; [reflexivity|].
    assert (Hl : watchButton c = Some watch_label).
    { rewrite (card_ok_watchButton c Hc) in Hb |- *.
      destruct (type (card_result c) =? "video")%string;
        [reflexivity | contradiction]. }
    replace (set_watchButton (Some watch_label)
               (set_videoContainer
                  {| display := "none"; innerHTML := EmptyString |} c))
      with (set_videoContainer
              {| display := "none"; innerHTML := EmptyString |} c).
    + apply card_ok_set_videoContainer, Hc.
    + destruct c; simpl in *. subst. reflexivity.
Qed.

Lemma click_node_inv (answer : bool) (n n' : Node) (o : option string) :
  click_node answer n = Some (n', o) ->
  exists c,
    n = ResultCard c /\ watchButton c <> None /\
    n' = ResultCard (fst (watchButton_onclick answer c)) /\
    o = snd (watchButton_onclick answer c).
Proof.
  destruct n as [|c|t]; simpl; try discriminate.
  destruct (watchButton c) eqn:Hb; [|discriminate].
  destruct (watchButton_onclick answer c) as [c' o'] eqn:Hw.
  intros H. injection H as <- <-. exists c.
  split; [reflexivity|]. split; [congruence|].
  rewrite Hw. split; reflexivity.
Qed.

Lemma node_onerror_inv (n n' : Node) :
  node_onerror n = Some n' ->
  exists c, n = ResultCard c /\ n' = ResultCard (favicon_onerror c).
Proof.
  destruct n as [|c|t]; simpl; try discriminate.
  intros H. injection H as <-. exists c. split; reflexivity.
Qed.

(** The card at a node is one of the cards. *)
Lemma nth_error_card_in (nodes : list Node) (i : nat) (c : Card) :
  nth_error nodes i = Some (ResultCard c) -> In c (cards nodes).
Proof.
  intros Hn.
  destruct (cards_replace_nth nodes i c c Hn) as (before & after & E & _).
  rewrite E. apply in_or_app. right. left. reflexivity.
Qed.

Lemma cards_shape_card_ok (s : State) (nodes : list Node) (i : nat)
    (c : Card) :
  cards_shape s ->
  resultsContainer (dom s) = Some nodes ->
  nth_error nodes i = Some (ResultCard c) ->
  card_ok c.
Proof.
  intros Hs Hc Hn. unfold cards_shape in Hs. rewrite Hc in Hs.
  destruct Hs as (_ & Hf).
  exact (proj1 (Forall_forall _ _) Hf c (nth_error_card_in nodes i c Hn)).
Qed.

Lemma watch_click_cards_shape (s : State) (i : nat) (answer : bool) :
  cards_shape s -> cards_shape (step s (WatchClick i answer)).
Proof.
  intros Hs. rewrite watch_click_state.
  destruct (resultsContainer (dom s)) as [nodes|] eqn:Hc; [|exact Hs].
  destruct (nth_error nodes i) as [n|] eqn:Hn; [|exact Hs].
  destruct (click_node answer n) as [[n' o]|] eqn:Hcl; [|exact Hs].
  destruct (click_node_inv _ _ _ _ Hcl) as (c & -> & Hb & -> & _).
  assert (Hgoal : cards_shape
                    (with_container
                       (replace_nth i
                          (ResultCard (fst (watchButton_onclick answer c)))
                          nodes) s)).
  { apply (cards_shape_replace_nth s nodes i c); try assumption.
    - apply onclick_card_ok; [exact Hb|].
      exact (cards_shape_card_ok s nodes i c Hs Hc Hn).
    - intros Hk. apply onclick_card_ok; assumption. }
  destruct o; exact Hgoal.
Qed.

Lemma favicon_error_cards_shape (s : State) (i : nat) :
  cards_shape s -> cards_shape (step s (FaviconError i)).
Proof.
  intros Hs. rewrite favicon_error_state.
  destruct (resultsContainer (dom s)) as [nodes|] eqn:Hc; [|exact Hs].
  destruct (nth_error nodes i) as [n|] eqn:Hn; [|exact Hs].
  destruct (node_onerror n) as [n'|] eqn:Hcl; [|exact Hs].
  destruct (node_onerror_inv _ _ Hcl) as (c & -> & ->).
  apply (cards_shape_replace_nth s nodes i c); try assumption.
  - reflexivity.
  - apply card_ok_favicon_onerror.
Qed.

Lemma cards_shape_same_render (s s' : State) :
  same_render s s' -> cards_shape s -> cards_shape s'.
Proof.
  intros (Hc & Ha & Hd). unfold cards_shape. rewrite Hd, Hc, Ha.
  exact (fun H => H).
Qed.

Lemma show_more_cards_shape (s : State) :
  cursor_ok s -> cards_shape s -> cards_shape (step s ShowMore).
Proof.
  intros Hk Hs. unfold step, run, handler.
  destruct (resultsContainer (dom s)) as [nodes|] eqn:Hc.
  - rewrite (showMoreResults_present s nodes Hc Hk). simpl final.
    unfold cards_shape in *. rewrite Hc in Hs. destruct Hs as (Hm & Hf).
    change (resultsContainer (dom (set_dom ?d _)))
      with (resultsContainer d).
    rewrite with_button_container.
    destruct (resultsContainer (revealed s nodes)) as [nodes2|] eqn:Hr;
      [| destruct (revealed_container s nodes) as (x & Hx & _);
         congruence].
    destruct (remove_element_cards "show-more-btn"
                (set_resultsContainer
                   (Some (nodes ++ result_cards (next_page s))) (dom s))
                (nodes ++ result_cards (next_page s)) nodes2 eq_refl Hr)
      as (Em & Ef).
    simpl option_map. cbv iota.
    rewrite cards_with_button. split.
    + rewrite Em, cards_app, map_app, Hm. unfold result_cards.
      rewrite cards_result_cards, card_result_fresh. unfold next_page.
      rewrite firstn_app_skipn.
      change (allResults (set_dom _ _)) with (allResults s).
      change (currentlyDisplayedResults (set_dom _ _))
        with (Nat.min (currentlyDisplayedResults s + resultsPerPage)
                (length (allResults s))).
      unfold cursor_ok in Hk. f_equal. lia.
    + apply Ef. rewrite cards_app. apply Forall_app. split; [exact Hf|].
      unfold result_cards. rewrite cards_result_cards.
      apply card_ok_all_fresh.
  - destruct (showMoreResults_absent_frame s Hc Hk) as (Hcur & Hd).
    unfold cards_shape in *. rewrite Hd, Hcur. rewrite Hc in Hs. exact Hs.
Qed.

Lemma new_result_cards_shape (s : State) (data : NewResultData) :
  cursor_ok s -> cards_shape s -> cards_shape (step s (NewResult data)).
Proof.
  intros Hk Hs.
  destruct (result data) as [r|] eqn:Hr.
  - destruct (resultsContainer (dom s)) as [nodes|] eqn:Hc.
    + destruct (new_result_present s data r nodes Hr Hc Hk) as (Hcur & Hcont).
      destruct (new_result_accumulates s data) as (Hall & _).
      simpl carried in Hall. rewrite Hr in Hall.
      unfold cards_shape. rewrite Hcont.
      rewrite cards_with_button. unfold result_cards.
      rewrite cards_result_cards. split; [|apply card_ok_all_fresh].
      rewrite card_result_fresh, Hcur, Hall.
      rewrite <- (firstn_min_length resultsPerPage).
      rewrite length_app, Nat.add_1_r. reflexivity.
    + rewrite (new_result_absent s data r Hr Hc Hk).
      destruct (accumulate_fields r s) as (Ac & Aa & Ad).
      unfold cards_shape in *. rewrite Ad, Ac, Hc. rewrite Hc in Hs.
      exact Hs.
  - unfold step, run, handler, on_new_result. rewrite Hr. exact Hs.
Qed.

Lemma remove_loader_cards_shape (s s' : State) :
  same_but_dom s s' ->
  resultsContainer (dom s') =
    resultsContainer (remove_element "loader" (dom s)) ->
  cards_shape s -> cards_shape s'.
Proof.
  intros ((_ & _ & _ & Ha) & Hc & _) Hd Hs.
  unfold cards_shape in *. rewrite Hd, Hc, Ha.
  destruct (resultsContainer (dom s)) as [nodes|] eqn:Hn.
  - destruct (remove_element_present "loader" (dom s) nodes Hn)
      as (nodes' & Hr & _).
    rewrite Hr.
    destruct (remove_element_cards "loader" (dom s) nodes nodes' Hn Hr)
      as (Em & Ef).
    rewrite Em. destruct Hs as (Hm & Hf). split; [exact Hm | exact (Ef Hf)].
  - rewrite (remove_element_absent "loader" (dom s) Hn). exact Hs.
Qed.

Lemma step_cards_shape (s : State) (e : Event) :
  cursor_ok s -> cards_shape s -> cards_shape (step s e).
Proof.
  intros Hk Hs. destruct e.
  - apply (cards_shape_same_render s); [apply connect_same_render | exact Hs].
  - apply (cards_shape_same_render s);
      [apply disconnect_same_render | exact Hs].
  - destruct (search_started_resets s data) as (_ & _ & _ & Ha & Hc & Hd).
    unfold cards_shape. rewrite Hd.
    destruct (resultsContainer (dom s)); simpl option_map; cbv iota;
      [|exact Hc].
    rewrite Hc. split; [reflexivity | constructor].
  - apply new_result_cards_shape; assumption.
  - destruct (search_completed_frame s data) as (H1 & H2 & _).
    exact (remove_loader_cards_shape s _ H1 H2 Hs).
  - destruct (search_error_frame s data) as (H1 & H2 & _).
    exact (remove_loader_cards_shape s _ H1 H2 Hs).
  - apply show_more_cards_shape; assumption.
  - apply watch_click_cards_shape, Hs.
  - apply (cards_shape_same_render s); [apply submit_same_render | exact Hs].
  - apply (cards_shape_same_render s);
      [apply form_edit_same_render; exact I | exact Hs].
  - apply (cards_shape_same_render s);
      [apply form_edit_same_render; exact I | exact Hs].
  - apply (cards_shape_same_render s);
      [apply form_edit_same_render; exact I | exact Hs].
  - apply favicon_error_cards_shape, Hs.
Qed.

Lemma reachable_cards_shape (s : State) : reachable s -> cards_shape s.
Proof.
  induction 1 as [page Hp | s e Hs IH].
  - destruct page as [sf si sb sv sw rc st ss ph sfi sde].
    unfold fresh_page in Hp. simpl in Hp.
    unfold initialState, cards_shape. unfold_handlers. simpl.
    destruct Hp as [-> | ->]; destruct st; simpl; try reflexivity;
      split; (reflexivity || constructor).
  - apply step_cards_shape; [apply reachable_cursor_ok, Hs | exact IH].
Qed.

(** ** The shape of the results area on a tidy page *)
















(** ** The controls *)

Lemma same_controls_refl (s : State) : same_controls s s.
Proof. repeat split. Qed.

Lemma same_controls_trans (s1 s2 s3 : State) :
  same_controls s1 s2 -> same_controls s2 s3 -> same_controls s1 s3.
Proof.
  unfold same_controls.
  intros (A1 & A2 & A3 & A4 & A5 & A6) (B1 & B2 & B3 & B4 & B5 & B6).
  repeat split; congruence.
Qed.

Lemma appendChild_same_controls (n : Node) :
  preserves same_controls (appendChild n).
Proof.
  intros s. unfold appendChild.
  destruct (resultsContainer (dom s)); simpl; repeat split.
Qed.

Lemma appendResults_same_controls (indices : list nat) :
  preserves same_controls (appendResults indices).
Proof.
  induction indices as [|i rest IH]; simpl.
  - apply preserves_ret, same_controls_refl.
  - apply preserves_get_bind. intros s.
    destruct (nth_error (allResults s) i).
    + apply (preserves_bind same_controls same_controls_trans).
      * apply appendChild_same_controls.
      * intros _. apply IH.
    + apply same_controls_refl.
Qed.

Lemma remove_by_id_same_controls (id : string) :
  preserves same_controls (remove_by_id id).
Proof.
  intros s. unfold remove_by_id, update_dom, modify. simpl.
  destruct (remove_element_frame id (dom s))
    as (H1 & H2 & H3 & H4 & H5 & H6 & _).
  repeat split; assumption.
Qed.

Lemma showMoreResults_same_controls : preserves same_controls showMoreResults.
Proof.
  unfold showMoreResults.
  apply preserves_get_bind. intros s.
  apply (preserves_bind same_controls same_controls_trans).
  - apply appendResults_same_controls.
  - intros _.
    apply (preserves_bind same_controls same_controls_trans).
    + apply preserves_modify. intros s0. repeat split.
    + intros _.
      apply (preserves_bind same_controls same_controls_trans).
      * apply remove_by_id_same_controls.
      * intros _. apply preserves_get_bind. intros s0.
        destruct (currentlyDisplayedResults s0 <? length (allResults s0)).
        -- apply appendChild_same_controls.
        -- apply same_controls_refl.
Qed.

Lemma displayResults_same_controls (rs : list SearchResult) :
  preserves same_controls (displayResults rs).
Proof.
  intros s. unfold displayResults. unfold bind at 1.
  destruct (resultsContainer (dom s)); [|apply same_controls_refl].
  unfold bind, modify.
  eapply same_controls_trans; [|apply showMoreResults_same_controls].
  repeat split.
Qed.

Lemma new_result_same_controls (s : State) (data : NewResultData) :
  same_controls s (step s (NewResult data)).
Proof.
  unfold step, run, handler.
  destruct (result data) as [r|] eqn:Hr.
  - rewrite (on_new_result_some _ _ _ Hr).
    apply same_controls_trans with (accumulate r s).
    + destruct (accumulate_fields r s) as (_ & _ & Ad).
      unfold same_controls. rewrite Ad. repeat split.
    + unfold rerender.
      apply (preserves_get_bind same_controls). intros s0.
      apply (preserves_bind same_controls same_controls_trans).
      * destruct (currentlyDisplayedResults s0 <? length (allResults s0)).
        -- apply displayResults_same_controls.
        -- intros s1. apply same_controls_refl.
      * intros _. apply preserves_get_bind. intros s1.
        unfold updateSearchStats, update_dom, modify. simpl.
        destruct (statsElement (dom s1)); repeat split.
  - unfold on_new_result. rewrite Hr. apply same_controls_refl.
Qed.

Lemma watch_click_same_controls (s : State) (i : nat) (answer : bool) :
  same_controls s (step s (WatchClick i answer)).
Proof.
  rewrite watch_click_state.
  destruct (resultsContainer (dom s)) as [nodes|]; [|repeat split].
  destruct (nth_error nodes i) as [n|]; [|repeat split].
  destruct (click_node answer n) as [[n' o]|]; [|repeat split].
  destruct o; repeat split.
Qed.

Lemma favicon_error_same_controls (s : State) (i : nat) :
  same_controls s (step s (FaviconError i)).
Proof.
  rewrite favicon_error_state.
  destruct (resultsContainer (dom s)) as [nodes|]; [|repeat split].
  destruct (nth_error nodes i) as [n|]; [|repeat split].
  destruct (node_onerror n) as [n'|]; repeat split.
Qed.



Lemma length_filter_disjoint {A : Type} (p q : A -> bool) (l : list A) :
  (forall x, p x = true -> q x = false) ->
  length (filter p l) + length (filter q l) <= length l.
Proof.
  intros H. induction l as [|x l IH]; simpl; [lia|].
  destruct (p x) eqn:Hp.
  - rewrite (H x Hp). simpl. lia.
  - destruct (q x); simpl; lia.
Qed.


(** ** Tidy sessions *)










(** ** X1 - X6: the accumulator and the results area in every reachable
    state *)

(** X1: in every state the page can reach, whatever the events and their
    order, [totalResults] is [allResults.length], [videoResults] and
    [websiteResults] are the numbers of accumulated results of type
    ['video'] and ['website'], and the two together never exceed
    [totalResults]. *)
Theorem counters_match_accumulator (s : State) :
  reachable s ->
  totalResults s = length (allResults s) /\
  videoResults s = length (of_type "video" (allResults s)) /\
  websiteResults s = length (of_type "website" (allResults s)) /\
  videoResults s + websiteResults s <= totalResults s.
Proof.
  intros Hs. destruct (reachable_counters_ok s Hs) as (Ht & Hv & Hw).
  repeat split; try assumption.
  rewrite Ht, Hv, Hw. apply length_filter_disjoint.
  intros r Hr. apply String.eqb_eq in Hr. rewrite Hr. reflexivity.
Qed.

Lemma counters_match_accumulator_witness :
  totalResults six_shown = length (allResults six_shown) /\
  videoResults six_shown = length (of_type "video" (allResults six_shown)) /\
  websiteResults six_shown =
    length (of_type "website" (allResults six_shown)) /\
  videoResults six_shown + websiteResults six_shown <= totalResults six_shown.
Proof. exact (counters_match_accumulator six_shown six_shown_reachable). Defined.





Lemma cards_ok_of_reachable (s : State) :
  reachable s -> Forall card_ok (displayed s).
Proof.
  intros Hs. assert (Hp := reachable_cards_shape s Hs).
  unfold cards_shape, displayed in *.
  destruct (resultsContainer (dom s)) as [nodes|]; [apply Hp | constructor].
Qed.

(** X4: in every reachable state each card on the page shows what
    [createResultElement] builds for its result, but for the content and
    visibility of its video container and for its icon, which is the one
    built or, once it has failed to load, [favicon.ico]: no event alters
    the link, the texts or the button.  So a card has a watch button
    exactly when its result is of type ['video'], and the button always
    reads "Watch Now". *)
Theorem cards_keep_their_build (s : State) :
  reachable s ->
  Forall
    (fun c =>
       let built := createResultElement (card_result c) in
       title_href c = title_href built /\
       title_text c = title_text built /\
       description_text c = description_text built /\
       source_text c = source_text built /\
       watchButton c = watchButton built /\
       (favicon_src c = favicon_src built \/
        favicon_src c = "favicon.ico") /\
       watchButton c =
         if (type (card_result c) =? "video")%string
         then Some watch_label else None)
    (displayed s).
Proof.
  intros Hs. assert (Hf := cards_ok_of_reachable s Hs).
  apply Forall_impl with (2 := Hf). intros c Hc.
  assert (Hw := card_ok_watchButton c Hc).
  destruct Hc as (H1 & H2 & H3 & H4 & H5 & H6 & _).
  cbv zeta. repeat (split; [assumption|]). exact Hw.
Qed.

Lemma cards_keep_their_build_witness :
  Forall
    (fun c =>
       let built := createResultElement (card_result c) in
       title_href c = title_href built /\
       title_text c = title_text built /\
       description_text c = description_text built /\
       source_text c = source_text built /\
       watchButton c = watchButton built /\
       (favicon_src c = favicon_src built \/
        favicon_src c = "favicon.ico") /\
       watchButton c =
         if (type (card_result c) =? "video")%string
         then Some watch_label else None)
    (displayed six_shown).
Proof. exact (cards_keep_their_build six_shown six_shown_reachable). Defined.

(** X5: in every reachable state a click on the watch button of node [i]
    of the results area does nothing at all unless that node is the card of
    a result of type ['video']: the loader, the Show-More button, the card
    of a website and a position past the end do not react. *)
Theorem watch_click_needs_video_card (s : State) (i : nat) (answer : bool) :
  reachable s ->
  (forall nodes c,
      resultsContainer (dom s) = Some nodes ->
      nth_error nodes i = Some (ResultCard c) ->
      type (card_result c) <> "video") ->
  step s (WatchClick i answer) = s.
Proof.
  intros Hs Hv. rewrite watch_click_state.
  destruct (resultsContainer (dom s)) as [nodes|] eqn:Hc; [|reflexivity].
  destruct (nth_error nodes i) as [n|] eqn:Hn; [|reflexivity].
  destruct (click_node answer n) as [[n' o]|] eqn:Hcl; [|reflexivity].
  exfalso.
  destruct (click_node_inv _ _ _ _ Hcl) as (c & -> & Hb & _).
  apply (Hv nodes c eq_refl Hn).
  assert (Hf := cards_shape_card_ok s nodes i c
                  (reachable_cards_shape s Hs) Hc Hn).
  rewrite (card_ok_watchButton c Hf) in Hb.
  destruct (type (card_result c) =? "video")%string eqn:E;
    [apply String.eqb_eq, E | contradiction].
Qed.

Lemma watch_click_needs_video_card_witness :
  step showing_article (WatchClick 0 true) = showing_article.
Proof.
  apply watch_click_needs_video_card.
  - apply reachable_steps, reachable_init, example_page_fresh.
  - intros nodes c Hc Hn. vm_compute in Hc. injection Hc as <-.
    vm_compute in Hn. injection Hn as <-. vm_compute. discriminate.
Defined.





(** ** X24: Show-More on a tidy page *)




(** ** The outside world *)

Lemma trim_head (value : string) :
  Js.truthy (Js.trim value) = true ->
  exists c rest, Js.trim value = String c rest /\ Js.is_space c = false.
Proof.
  rewrite truthy_trim. intros Hw. apply negb_true_iff in Hw.
  destruct (trim_start_other value Hw) as (c & rest & E & Hc).
  unfold Js.trim. rewrite E. simpl.
  destruct (Js.trim_end rest) as [|c' t].
  - rewrite Hc. exists c, EmptyString. split; [reflexivity | exact Hc].
  - exists c, (String c' t). split; [reflexivity | exact Hc].
Qed.

(** What a submission does to the events emitted. *)
Lemma submit_emitted (s : State) :
  emitted (step s Submit) = emitted s \/
  exists q,
    emitted (step s Submit) = emitted s ++ [q] /\
    valid_query q /\ connected s = true.
Proof.
  destruct_state s. unfold step, run, handler, on_submit, read, emit.
  unfold_handlers. simpl.
  destruct sf; simpl; [| left; reflexivity].
  destruct si as [value|]; simpl; [| left; reflexivity].
  destruct (Js.truthy (Js.trim value)) eqn:Ht; simpl.
  - destruct cn; simpl.
    + destruct sv as [[|]|], sw as [[|]|]; simpl;
        try (left; destruct st; reflexivity);
        right; eexists; (split; [reflexivity|]);
        (split; [|reflexivity]);
        (split; [apply trim_head, Ht | reflexivity]).
    + left. destruct st; reflexivity.
  - left. destruct st; reflexivity.
Qed.

(** Events other than a submission emit nothing. *)
Lemma step_emitted_other (s : State) (e : Event) :
  is_submit e = false -> emitted (step s e) = emitted s.
Proof.
  destruct e; intros H; try discriminate H.
  - crush_handler s; reflexivity.
  - crush_handler s; reflexivity.
  - crush_handler s; reflexivity.
  - apply (new_result_same_outside s data).
  - apply (search_completed_frame s data).
  - apply (search_error_frame s data).
  - apply (showMoreResults_same_outside s).
  - apply (watch_click_same_accumulator s i answer).
  - crush_handler s; reflexivity.
  - crush_handler s; reflexivity.
  - crush_handler s; reflexivity.
  - apply (favicon_error_same_but_dom s i).
Qed.

(** [socket.connected] after one event. *)
Lemma step_connected (s : State) (e : Event) :
  connected (step s e) =
  match e with
  | Connect => true
  | Disconnect => false
  | _ => connected s
  end.
Proof.
  destruct e.
  - crush_handler s; reflexivity.
  - crush_handler s; reflexivity.
  - crush_handler s; reflexivity.
  - apply (new_result_same_outside s data).
  - apply (search_completed_frame s data).
  - apply (search_error_frame s data).
  - apply (showMoreResults_same_outside s).
  - apply (watch_click_same_accumulator s i answer).
  - destruct_state s. unfold step, run, handler, on_submit, read, emit.
    unfold_handlers. simpl.
    destruct sf; simpl; [| reflexivity].
    destruct si as [value|]; simpl; [| reflexivity].
    destruct (Js.truthy (Js.trim value)); simpl.
    + destruct cn; simpl.
      * destruct sv as [[|]|], sw as [[|]|]; simpl;
          try destruct st; reflexivity.
      * destruct st; reflexivity.
    + destruct st; reflexivity.
  - crush_handler s; reflexivity.
  - crush_handler s; reflexivity.
  - crush_handler s; reflexivity.
  - apply (favicon_error_same_but_dom s i).
Qed.

Lemma reachable_emitted_valid (s : State) :
  reachable s -> Forall valid_query (emitted s).
Proof.
  induction 1 as [page Hp | s e _ IH].
  - unfold initialState. unfold_handlers. simpl. constructor.
  - destruct (is_submit e) eqn:He.
    + destruct e; try discriminate He.
      destruct (submit_emitted s) as [-> | (q & -> & Hq & _)];
        [exact IH|].
      apply Forall_app. split; [exact IH|]. constructor; [exact Hq|constructor].
    + rewrite (step_emitted_other s e He). exact IH.
Qed.

Lemma disconnected_steps (es : list Event) :
  forall s,
    connected s = false ->
    forallb (fun e => negb (is_connect e)) es = true ->
    emitted (steps s es) = emitted s /\ connected (steps s es) = false.
Proof.
  induction es as [|e es IH]; intros s Hc Hes; simpl in *.
  - split; [reflexivity | exact Hc].
  - apply andb_true_iff in Hes. destruct Hes as (He & Hes).
    assert (Hc' : connected (step s e) = false).
    { rewrite step_connected. destruct e; try exact Hc; try reflexivity.
      discriminate He. }
    assert (Hm : emitted (step s e) = emitted s).
    { destruct (is_submit e) eqn:Hsub.
      - destruct e; try discriminate Hsub.
        destruct (submit_emitted s) as [E | (q & _ & _ & Hcon)];
          [exact E | congruence].
      - apply step_emitted_other, Hsub. }
    destruct (IH (step s e) Hc' Hes) as (H1 & H2).
    unfold steps in *. split; [rewrite H1; exact Hm | exact H2].
Qed.

(** What an event does to the URLs opened: only a confirmed click on the
    watch button of a hidden card whose URL is not embeddable opens one,
    the URL of the card. *)
Lemma step_opened (s : State) (e : Event) :
  opened (step s e) = opened s \/
  exists i c nodes,
    e = WatchClick i true /\
    resultsContainer (dom s) = Some nodes /\
    nth_error nodes i = Some (ResultCard c) /\
    Js.truthy_opt (createVideoEmbed (url (card_result c))) = false /\
    opened (step s e) = opened s ++ [url (card_result c)].
Proof.
  destruct e as [ | | data | data | data | data | | i answer
                | | text | flag | flag | i ].
  - left. crush_handler s; reflexivity.
  - left. crush_handler s; reflexivity.
  - left. crush_handler s; reflexivity.
  - left. apply (new_result_same_outside s data).
  - left. apply (search_completed_frame s data).
  - left. apply (search_error_frame s data).
  - left. apply (showMoreResults_same_outside s).
  - rewrite watch_click_state.
    destruct (resultsContainer (dom s)) as [nodes|] eqn:Hc;
      [|left; reflexivity].
    destruct (nth_error nodes i) as [n|] eqn:Hn; [|left; reflexivity].
    destruct (click_node answer n) as [[n' o]|] eqn:Hcl;
      [|left; reflexivity].
    destruct (click_node_inv _ _ _ _ Hcl) as (c & -> & _ & _ & Ho).
    destruct o as [u|]; [|left; reflexivity].
    right. exists i, c, nodes.
    unfold watchButton_onclick in Ho.
    destruct (display (videoContainer c) =? "none")%string;
      [|discriminate Ho].
    unfold handleWatchClick in Ho.
    destruct (createVideoEmbed (url (card_result c))) as [html|] eqn:He;
      [destruct (Js.truthy html) eqn:Ht|]; simpl in Ho;
      try discriminate Ho;
      (destruct answer; [|discriminate Ho]); injection Ho as ->;
      repeat split; try assumption; try reflexivity.
  - left. destruct_state s.
    unfold step, run, handler, on_submit, read, emit.
    unfold_handlers. simpl.
    destruct sf; simpl; [| reflexivity].
    destruct si as [value|]; simpl; [| reflexivity].
    destruct (Js.truthy (Js.trim value)); simpl.
    + destruct cn; simpl.
      * destruct sv as [[|]|], sw as [[|]|]; simpl;
          try destruct st; reflexivity.
      * destruct st; reflexivity.
    + destruct st; reflexivity.
  - left. crush_handler s; reflexivity.
  - left. crush_handler s; reflexivity.
  - left. crush_handler s; reflexivity.
  - left. apply (favicon_error_same_but_dom s i).
Qed.

(** ** X8 - X11: what leaves the page *)

(** X8: every [search_query] the page has ever emitted carries a query that
    is not empty and does not start with white space, and has at least one
    of the two categories selected. *)
Theorem emitted_queries_are_valid (s : State) :
  reachable s ->
  Forall
    (fun q =>
       (exists c rest, query q = String c rest /\ Js.is_space c = false) /\
       searchTypes_videos q || searchTypes_websites q = true)
    (emitted s).
Proof. intros Hs. exact (reachable_emitted_valid s Hs). Qed.

Lemma emitted_queries_are_valid_witness :
  Forall
    (fun q =>
       (exists c rest, query q = String c rest /\ Js.is_space c = false) /\
       searchTypes_videos q || searchTypes_websites q = true)
    (emitted (step ready Submit)).
Proof.
  apply emitted_queries_are_valid.
  apply reachable_step, reachable_steps, reachable_init, example_page_fresh.
Defined.

(** X9: from a state in which the socket is not connected, no sequence of
    events without a [connect] emits anything, however often the form is
    submitted and whatever is typed or checked in between; the socket stays
    not connected. *)
Theorem nothing_emitted_while_disconnected (s : State) (es : list Event) :
  connected s = false ->
  forallb (fun e => negb (is_connect e)) es = true ->
  emitted (steps s es) = emitted s /\ connected (steps s es) = false.
Proof. intros Hc Hes. exact (disconnected_steps es s Hc Hes). Qed.

Lemma nothing_emitted_while_disconnected_witness :
  emitted (steps offline retries) = emitted offline /\
  connected (steps offline retries) = false.
Proof.
  assert (Hc : connected offline = false) by (vm_compute; reflexivity).
  assert (He : forallb (fun e => negb (is_connect e)) retries = true)
    by reflexivity.
  exact (nothing_emitted_while_disconnected offline retries Hc He).
Defined.

(** X10: only a form submission emits, one event at most, and only while
    the socket is connected: every other event leaves the list of emitted
    events as it is. *)
Theorem only_submit_emits (s : State) (e : Event) :
  (is_submit e = false -> emitted (step s e) = emitted s) /\
  (connected s = false -> emitted (step s e) = emitted s) /\
  exists l, emitted (step s e) = emitted s ++ l /\ length l <= 1.
Proof.
  assert (H : emitted (step s e) = emitted s \/
              exists q, emitted (step s e) = emitted s ++ [q] /\
                        connected s = true).
  { destruct (is_submit e) eqn:He.
    - destruct e; try discriminate He.
      destruct (submit_emitted s) as [E | (q & E & _ & Hc)];
        [left; exact E | right; exists q; split; assumption].
    - left. apply step_emitted_other, He. }
  split; [apply step_emitted_other|]. split.
  - intros Hc. destruct H as [E | (q & _ & Hc')]; [exact E | congruence].
  - destruct H as [E | (q & E & _)].
    + exists []. rewrite app_nil_r. split; [exact E | simpl; lia].
    + exists [q]. split; [exact E | simpl; lia].
Qed.

Lemma only_submit_emits_witness :
  emitted (step ready ShowMore) = emitted ready /\
  emitted (step not_connected Submit) = emitted not_connected.
Proof.
  split.
  - destruct (only_submit_emits ready ShowMore) as (H & _).
    apply H. reflexivity.
  - destruct (only_submit_emits not_connected Submit) as (_ & H & _).
    apply H. reflexivity.
Defined.

(** X11: a window is opened by one thing only: a click on the watch button
    of a card whose URL the resolver does not embed, when the user confirms
    the dialog; what is opened is the URL of that card.  Every other event,
    and a click answered with Cancel, opens nothing. *)
Theorem only_confirmed_fallback_opens (s : State) (e : Event) :
  opened (step s e) = opened s \/
  exists i c nodes,
    e = WatchClick i true /\
    resultsContainer (dom s) = Some nodes /\
    nth_error nodes i = Some (ResultCard c) /\
    Js.truthy_opt (createVideoEmbed (url (card_result c))) = false /\
    opened (step s e) = opened s ++ [url (card_result c)].
Proof. exact (step_opened s e). Qed.

(** ** X12 - X15: the controls and the statistics *)








(** The status line after one event: left alone, or given one of the three
    classes. *)
Lemma step_status (s : State) (e : Event) :
  statusElement (dom (step s e)) = statusElement (dom s) \/
  exists st,
    statusElement (dom (step s e)) = Some st /\
    known_status_class (status_class st).
Proof.
  unfold known_status_class.
  destruct e as [ | | data | data | data | data | | i answer
                | | text | flag | flag | i ].
  - crush_handler s; (left; reflexivity) || (right; eexists; split;
      [reflexivity | simpl; auto]).
  - crush_handler s; (left; reflexivity) || (right; eexists; split;
      [reflexivity | simpl; auto]).
  - crush_handler s; (left; reflexivity) || (right; eexists; split;
      [reflexivity | simpl; auto]).
  - left. apply (new_result_same_controls s data).
  - crush_handler s; (left; reflexivity) || (right; eexists; split;
      [reflexivity | simpl; auto]).
  - crush_handler s; (left; reflexivity) || (right; eexists; split;
      [reflexivity | simpl; auto]).
  - left. apply (showMoreResults_same_controls s).
  - left. apply (watch_click_same_controls s i answer).
  - destruct_state s. unfold step, run, handler, on_submit, read, emit.
    unfold_handlers. simpl.
    destruct sf; simpl; [| left; reflexivity].
    destruct si as [value|]; simpl; [| left; reflexivity].
    destruct (Js.truthy (Js.trim value)); simpl.
    + destruct cn; simpl.
      * destruct sv as [[|]|], sw as [[|]|]; simpl;
          try destruct st; (left; reflexivity) || (right; eexists; split;
            [reflexivity | simpl; auto]).
      * destruct st; (left; reflexivity) || (right; eexists; split;
          [reflexivity | simpl; auto]).
    + destruct st; (left; reflexivity) || (right; eexists; split;
        [reflexivity | simpl; auto]).
  - left. crush_handler s; reflexivity.
  - left. crush_handler s; reflexivity.
  - left. crush_handler s; reflexivity.
  - left. apply (favicon_error_same_controls s i).
Qed.

(** X15: in every reachable state the status line, if the page has one,
    carries one of the three classes the script knows: [status
    status-info], [status status-success] or [status status-error]. *)
Theorem status_class_is_known (s : State) (st : Status) :
  reachable s ->
  statusElement (dom s) = Some st ->
  status_class st = "status status-info" \/
  status_class st = "status status-success" \/
  status_class st = "status status-error".
Proof.
  intros Hs. revert st. induction Hs as [page Hp | s e _ IH]; intros st Hst.
  - destruct page as [sf si sb sv sw rc st0 ss ph sfi sde].
    unfold initialState in Hst. unfold_handlers. simpl in Hst.
    destruct st0; simpl in Hst; [|discriminate].
    injection Hst as <-. left. reflexivity.
  - destruct (step_status s e) as [E | (st' & E & Hk)].
    + rewrite E in Hst. exact (IH st Hst).
    + rewrite E in Hst. injection Hst as <-. exact Hk.
Qed.

Lemma status_class_is_known_witness :
  status_class (error_status "Not connected to server. Please wait...") =
    "status status-info" \/
  status_class (error_status "Not connected to server. Please wait...") =
    "status status-success" \/
  status_class (error_status "Not connected to server. Please wait...") =
    "status status-error".
Proof.
  apply (status_class_is_known (step not_connected Submit)).
  - apply reachable_step, reachable_init, example_page_fresh.
  - vm_compute. reflexivity.
Defined.

(** ** X16, X17: the watch toggle on the page *)

Lemma nth_error_replace_nth_same (i : nat) (n' : Node) :
  forall (nodes : list Node) (n : Node),
    nth_error nodes i = Some n ->
    nth_error (replace_nth i n' nodes) i = Some n'.
Proof.
  induction i as [|i IH]; intros [|x nodes] n H; simpl in *;
    try discriminate; [reflexivity | eapply IH; eassumption].
Qed.

Lemma nth_error_replace_nth_other (n' : Node) :
  forall (nodes : list Node) (i j : nat),
    j <> i ->
    nth_error (replace_nth i n' nodes) j = nth_error nodes j.
Proof.
  induction nodes as [|x nodes IH]; intros i j Hj;
    [destruct i; reflexivity|].
  destruct i as [|i], j as [|j]; simpl; try reflexivity.
  - contradiction.
  - apply IH. congruence.
Qed.

Lemma length_replace_nth (n' : Node) :
  forall (nodes : list Node) (i : nat),
    length (replace_nth i n' nodes) = length nodes.
Proof.
  induction nodes as [|x nodes IH]; intros [|i]; simpl;
    try reflexivity. rewrite IH. reflexivity.
Qed.

Lemma replace_nth_twice (a b : Node) :
  forall (nodes : list Node) (i : nat),
    replace_nth i a (replace_nth i b nodes) = replace_nth i a nodes.
Proof.
  induction nodes as [|x nodes IH]; intros [|i]; simpl;
    try reflexivity. rewrite IH. reflexivity.
Qed.

Lemma replace_nth_same :
  forall (nodes : list Node) (i : nat) (n : Node),
    nth_error nodes i = Some n -> replace_nth i n nodes = nodes.
Proof.
  induction nodes as [|x nodes IH]; intros [|i] n H; simpl in *;
    try discriminate.
  - injection H as ->. reflexivity.
  - rewrite (IH i n H). reflexivity.
Qed.

Lemma nth_error_card_displayed (s : State) (nodes : list Node) (i : nat)
    (c : Card) :
  resultsContainer (dom s) = Some nodes ->
  nth_error nodes i = Some (ResultCard c) ->
  In c (displayed s).
Proof.
  intros Hc Hn. unfold displayed. rewrite Hc. clear Hc. revert i Hn.
  induction nodes as [|x nodes IH]; intros [|i] Hn; simpl in Hn;
    try discriminate.
  - injection Hn as ->. left. reflexivity.
  - destruct x; simpl; [|right|]; eapply IH; eassumption.
Qed.

(** X16: in a reachable state, on the card of a video whose URL the
    resolver embeds, with its video container hidden and empty, the first
    click on the watch button shows the player markup followed by the close
    button and opens nothing, and the second click restores the whole
    state: two clicks are the identity. *)
Theorem embed_toggle_round_trip (s : State) (nodes : list Node) (i : nat)
    (c : Card) (html : string) (answer1 answer2 : bool) :
  reachable s ->
  resultsContainer (dom s) = Some nodes ->
  nth_error nodes i = Some (ResultCard c) ->
  type (card_result c) = "video" ->
  videoContainer c = hidden_empty ->
  createVideoEmbed (url (card_result c)) = Some html ->
  html <> EmptyString ->
  let s1 := step s (WatchClick i answer1) in
  resultsContainer (dom s1) =
    Some (replace_nth i
            (ResultCard
               (set_videoContainer
                  {| display := "block";
                     innerHTML := (html ++ close_button)%string |} c))
            nodes) /\
  opened s1 = opened s /\
  step s1 (WatchClick i answer2) = s.
Proof.
  intros Hs Hc Hn Hty Hv He Hh s1.
  assert (Hok : card_ok c).
  { assert (Hf := cards_ok_of_reachable s Hs).
    rewrite Forall_forall in Hf.
    apply Hf, (nth_error_card_displayed s nodes i c Hc Hn). }
  assert (Hb : watchButton c = Some watch_label).
  { rewrite (card_ok_watchButton c Hok), Hty. reflexivity. }
  assert (Hd : detached c = []).
  { destruct Hok as (_ & _ & _ & _ & _ & _ & Hd).
    apply Hd. rewrite Hv. reflexivity. }
  set (c1 := set_videoContainer
               {| display := "block";
                  innerHTML := (html ++ close_button)%string |} c).
  assert (H1 : click_node answer1 (ResultCard c) = Some (ResultCard c1, None)).
  { unfold click_node. rewrite Hb.
    rewrite onclick_hidden by (rewrite Hv; reflexivity).
    rewrite (handleWatchClick_embed answer1 c _ html He Hh). reflexivity. }
  assert (E1 : s1 = with_container (replace_nth i (ResultCard c1) nodes) s).
  { unfold s1. rewrite watch_click_state, Hc, Hn, H1. reflexivity. }
  clearbody s1. subst s1.
  assert (H2 : click_node answer2 (ResultCard c1) = Some (ResultCard c, None)).
  { unfold click_node. change (watchButton c1) with (watchButton c).
    rewrite Hb. rewrite onclick_shown by reflexivity.
    f_equal. f_equal. f_equal.
    destruct c; simpl in *. subst. reflexivity. }
  split; [reflexivity|]. split; [reflexivity|].
  rewrite watch_click_state, container_with_container.
  rewrite (nth_error_replace_nth_same i _ nodes _ Hn), H2.
  rewrite replace_nth_twice, (replace_nth_same nodes i _ Hn).
  transitivity (with_container nodes s);
    [reflexivity | apply with_container_same, Hc].
Qed.

Lemma embed_toggle_round_trip_witness :
  step (step showing_clip (WatchClick 0 false)) (WatchClick 0 false)
  = showing_clip.
Proof.
  destruct (embed_toggle_round_trip showing_clip
              [ResultCard (createResultElement clip)] 0
              (createResultElement clip)
              (youtubeEmbed "dQw4w9WgXcQ") false false)
    as (_ & _ & H).
  - apply reachable_steps, reachable_init, example_page_fresh.
  - vm_compute. reflexivity.
  - reflexivity.
  - reflexivity.
  - reflexivity.
  - vm_compute. reflexivity.
  - discriminate.
  - exact H.
Defined.

(** X17: a click on the watch button of node [i] is local to that node:
    the results area keeps its length and every other node, no card
    changes its result, and the accumulator, its counters, the cursor, the
    statistics, the status line, the form and the events emitted are left
    as they are. *)
Theorem watch_click_is_local (s : State) (i : nat) (answer : bool) :
  let s' := step s (WatchClick i answer) in
  (match resultsContainer (dom s), resultsContainer (dom s') with
   | Some nodes, Some nodes' =>
       length nodes' = length nodes /\
       (forall j, j <> i -> nth_error nodes' j = nth_error nodes j) /\
       map card_result (cards nodes') = map card_result (cards nodes)
   | None, None => True
   | _, _ => False
   end) /\
  allResults s' = allResults s /\
  totalResults s' = totalResults s /\
  videoResults s' = videoResults s /\
  websiteResults s' = websiteResults s /\
  currentlyDisplayedResults s' = currentlyDisplayedResults s /\
  statsElement (dom s') = statsElement (dom s) /\
  statusElement (dom s') = statusElement (dom s) /\
  searchButton (dom s') = searchButton (dom s) /\
  emitted s' = emitted s.
Proof.
  cbv zeta.
  destruct (watch_click_same_accumulator s i answer)
    as ((Ht & Hv & Hw & Ha) & Hcur & _ & Hem).
  destruct (watch_click_same_controls s i answer)
    as (_ & _ & Hsb & _ & _ & Hst).
  split; [|repeat split; try assumption].
  - rewrite watch_click_state.
    destruct (resultsContainer (dom s)) as [nodes|] eqn:Hc;
      [|rewrite Hc; exact I].
    assert (Hsame : length nodes = length nodes /\
                    (forall j, j <> i ->
                               nth_error nodes j = nth_error nodes j) /\
                    map card_result (cards nodes) =
                      map card_result (cards nodes))
      by (repeat split).
    destruct (nth_error nodes i) as [n|] eqn:Hn; [|rewrite Hc; exact Hsame].
    destruct (click_node answer n) as [[n' o]|] eqn:Hcl;
      [|rewrite Hc; exact Hsame].
    destruct (click_node_inv _ _ _ _ Hcl) as (c & -> & Hb & -> & _).
    assert (Hr : card_result (fst (watchButton_onclick answer c)) =
                 card_result c).
    { unfold watchButton_onclick.
      destruct (display (videoContainer c) =? "none")%string;
        [|reflexivity].
      unfold handleWatchClick.
      destruct (createVideoEmbed (url (card_result c))) as [h|];
        [destruct (Js.truthy h)|]; reflexivity. }
    assert (Hres : length (replace_nth i
                             (ResultCard (fst (watchButton_onclick answer c)))
                             nodes) = length nodes /\
                   (forall j, j <> i ->
                      nth_error
                        (replace_nth i
                           (ResultCard (fst (watchButton_onclick answer c)))
                           nodes) j = nth_error nodes j) /\
                   map card_result
                     (cards (replace_nth i
                               (ResultCard
                                  (fst (watchButton_onclick answer c)))
                               nodes)) = map card_result (cards nodes)).
    { split; [apply length_replace_nth|].
      split; [intros j Hj; apply nth_error_replace_nth_other, Hj|].
      clear - Hn Hr. revert i Hn.
      induction nodes as [|x nodes IH]; intros [|i] Hn; simpl in Hn;
        try discriminate.
      - injection Hn as ->. simpl. rewrite Hr. reflexivity.
      - destruct x; simpl; rewrite (IH i Hn); reflexivity. }
    destruct o; exact Hres.
  - rewrite watch_click_state.
    destruct (resultsContainer (dom s)) as [nodes|]; [|reflexivity].
    destruct (nth_error nodes i) as [n|]; [|reflexivity].
    destruct (click_node answer n) as [[n' o]|]; [|reflexivity].
    destruct o; reflexivity.
Qed.

(** ** The matcher: what a capture is *)

Lemma append_nil_r (s : string) : (s ++ EmptyString)%string = s.
Proof. induction s as [|c s IH]; simpl; [|rewrite IH]; reflexivity. Qed.

Lemma length_append (a b : string) :
  String.length (a ++ b) = String.length a + String.length b.
Proof. induction a as [|c a IH]; simpl; [|rewrite IH]; reflexivity. Qed.

Lemma substring_prefix (m s : string) :
  substring 0 (String.length m) (m ++ s) = m.
Proof.
  induction m as [|c m IH]; simpl.
  - destruct s; reflexivity.
  - rewrite IH. reflexivity.
Qed.

Lemma captured_in_shift (m s : string) (cap cap1 cap2 : RegExp.Capture) :
  captured_in (m ++ s) cap cap1 ->
  captured_in s cap1 cap2 ->
  captured_in (m ++ s) cap cap2.
Proof.
  intros H1 [-> | (a & id & b & -> & ->)]; [exact H1|].
  right. exists (m ++ a)%string, id, b.
  split; [rewrite append_assoc; reflexivity | reflexivity].
Qed.

Lemma star_cls_calls (negated : bool) (ranges : list (ascii * ascii))
    (s : string) :
  forall cap k res,
    RegExp.star_cls negated ranges s cap k = Some res ->
    exists m s', s = (m ++ s')%string /\ k s' cap = Some res.
Proof.
  induction s as [|c s IH]; intros cap k res H; simpl in H.
  - exists EmptyString, EmptyString. split; [reflexivity | exact H].
  - destruct (RegExp.in_class negated ranges c).
    + destruct (RegExp.star_cls negated ranges s cap k) as [r|] eqn:E.
      * injection H as ->.
        destruct (IH cap k res E) as (m & s' & -> & Hk).
        exists (String c m), s'. split; [reflexivity | exact Hk].
      * exists EmptyString, (String c s). split; [reflexivity | exact H].
    + exists EmptyString, (String c s). split; [reflexivity | exact H].
Qed.

(** A successful match ends in a call of the continuation on a suffix of
    the input, with the capture given or a piece of the input. *)
Lemma matcher_calls (r : RegExp.regex) :
  forall s cap k res,
    RegExp.matcher r s cap k = Some res ->
    exists m s' cap',
      s = (m ++ s')%string /\ k s' cap' = Some res /\
      captured_in s cap cap'.
Proof.
  induction r as [ | c | n rs | r1 IH1 r2 IH2 | r1 IH1 r2 IH2 | r1 IH1
                 | n rs | r1 IH1 ];
    intros s cap k res H; simpl in H.
  - exists EmptyString, s, cap. repeat split; [exact H | left; reflexivity].
  - destruct s as [|x s]; [discriminate|].
    destruct (RegExp.same_char c x); [|discriminate].
    exists (String x EmptyString), s, cap.
    repeat split; [exact H | left; reflexivity].
  - destruct s as [|x s]; [discriminate|].
    destruct (RegExp.in_class n rs x); [|discriminate].
    exists (String x EmptyString), s, cap.
    repeat split; [exact H | left; reflexivity].
  - destruct (IH1 _ _ _ _ H) as (m1 & s1 & cap1 & -> & H1 & C1).
    destruct (IH2 _ _ _ _ H1) as (m2 & s2 & cap2 & -> & H2 & C2).
    exists (m1 ++ m2)%string, s2, cap2.
    split; [rewrite append_assoc; reflexivity|]. split; [exact H2|].
    eapply captured_in_shift; eassumption.
  - destruct (RegExp.matcher r1 s cap k) as [x|] eqn:E.
    + injection H as ->. exact (IH1 _ _ _ _ E).
    + exact (IH2 _ _ _ _ H).
  - destruct (RegExp.matcher r1 s cap k) as [x|] eqn:E.
    + injection H as ->. exact (IH1 _ _ _ _ E).
    + exists EmptyString, s, cap.
      repeat split; [exact H | left; reflexivity].
  - destruct s as [|x s]; [discriminate|].
    destruct (RegExp.in_class n rs x); [|discriminate].
    destruct (star_cls_calls _ _ _ _ _ _ H) as (m & s' & -> & Hk).
    exists (String x m), s', cap.
    repeat split; [exact Hk | left; reflexivity].
  - destruct (IH1 _ _ _ _ H) as (m & s' & cap' & -> & Hk & _).
    exists m, s', (Some (substring 0 (String.length (m ++ s')
                                      - String.length s') (m ++ s'))).
    split; [reflexivity|]. split; [exact Hk|].
    right. exists EmptyString, m, s'.
    split; [reflexivity|]. f_equal.
    rewrite length_append, Nat.add_sub. apply substring_prefix.
Qed.

Lemma exec_capture (r : RegExp.regex) (s : string) :
  forall id,
    RegExp.exec r s = Some (Some id) ->
    exists a b, s = (a ++ id ++ b)%string.
Proof.
  induction s as [|c s IH]; intros id H; simpl in H.
  - destruct (RegExp.matcher r EmptyString None (fun _ cap => Some cap))
      as [cap|] eqn:E; [|discriminate].
    injection H as ->.
    destruct (matcher_calls _ _ _ _ _ E) as (m & s' & cap' & Hs & Hk & Hc).
    injection Hk as ->.
    destruct Hc as [Hc | (a & i & b & Hab & Hi)]; [discriminate|].
    injection Hi as ->. exists a, b. exact Hab.
  - destruct (RegExp.matcher r (String c s) None (fun _ cap => Some cap))
      as [cap|] eqn:E.
    + injection H as ->.
      destruct (matcher_calls _ _ _ _ _ E) as (m & s' & cap' & Hs & Hk & Hc).
      injection Hk as ->.
      destruct Hc as [Hc | (a & i & b & Hab & Hi)]; [discriminate|].
      injection Hi as ->. exists a, b. exact Hab.
    + destruct (IH id H) as (a & b & ->).
      exists (String c a), b. reflexivity.
Qed.

Lemma hit_capture (url : string) (re : RegExp.regex) (id : string) :
  hit url re = Some id -> contains url id /\ id <> EmptyString.
Proof.
  intros H. split; [|eapply hit_not_empty; eassumption].
  unfold hit, js_match in H.
  destruct (RegExp.exec re url) as [[c|]|] eqn:E; try discriminate.
  destruct (Js.truthy c); [|discriminate]. injection H as ->.
  exact (exec_capture re url id E).
Qed.

Lemma first_pattern_capture (url html : string)
    (patterns : list (Provider * RegExp.regex)) :
  first_pattern url patterns = Some html ->
  exists p id,
    html = template p id /\ contains url id /\ id <> EmptyString.
Proof.
  induction patterns as [|q rest IH]; simpl; [discriminate|].
  destruct (hit url (snd q)) as [id|] eqn:Hh; [|exact IH].
  intros H. injection H as <-.
  exists (fst q), id. split; [reflexivity | exact (hit_capture _ _ _ Hh)].
Qed.

(** ** X18: the id comes from the URL *)

(** X18: whenever the resolver returns a fragment for a URL, the fragment
    is the player markup of one of the three providers for a video id that
    is a non-empty piece of that very URL: the resolver never invents or
    alters an id. *)
Theorem embedded_id_comes_from_url (url html : string) :
  url <> EmptyString ->
  createVideoEmbed url = Some html ->
  exists p id,
    html = template p id /\
    (exists before after, url = (before ++ id ++ after)%string) /\
    id <> EmptyString.
Proof.
  intros Hu H. rewrite (createVideoEmbed_first_pattern url Hu) in H.
  exact (first_pattern_capture url html all_patterns H).
Qed.

Lemma embedded_id_comes_from_url_witness :
  exists p id,
    youtubeEmbed "dQw4w9WgXcQ" = template p id /\
    (exists before after,
        "https://youtu.be/dQw4w9WgXcQ?t=42" = (before ++ id ++ after)%string)
    /\ id <> EmptyString.
Proof.
  apply (embedded_id_comes_from_url "https://youtu.be/dQw4w9WgXcQ?t=42").
  - discriminate.
  - vm_compute. reflexivity.
Defined.

(** ** The matcher: what a pattern needs *)

Lemma same_char_trans_false (c d x : ascii) :
  RegExp.same_char c d = true ->
  RegExp.same_char d x = false ->
  RegExp.same_char c x = false.
Proof.
  unfold RegExp.same_char. intros H1 H2.
  apply Ascii.eqb_eq in H1. rewrite H1. exact H2.
Qed.

Lemma star_cls_fails (d : ascii) (negated : bool)
    (ranges : list (ascii * ascii)) (s : string) :
  forall cap k,
    lacks d s = true ->
    (forall s' cap', lacks d s' = true -> k s' cap' = None) ->
    RegExp.star_cls negated ranges s cap k = None.
Proof.
  induction s as [|c s IH]; intros cap k Hs Hk; simpl.
  - apply Hk. reflexivity.
  - simpl in Hs. apply andb_true_iff in Hs. destruct Hs as (Hc & Hs).
    assert (Hcs : k (String c s) cap = None)
      by (apply Hk; simpl; rewrite Hc, Hs; reflexivity).
    destruct (RegExp.in_class negated ranges c); [|exact Hcs].
    rewrite (IH cap k Hs Hk). exact Hcs.
Qed.

(** On an input without [d], a matcher whose continuation fails on every
    input without [d] fails. *)
Lemma matcher_fails_with (d : ascii) (r : RegExp.regex) :
  forall s cap k,
    lacks d s = true ->
    (forall s' cap', lacks d s' = true -> k s' cap' = None) ->
    RegExp.matcher r s cap k = None.
Proof.
  induction r as [ | c | n rs | r1 IH1 r2 IH2 | r1 IH1 r2 IH2 | r1 IH1
                 | n rs | r1 IH1 ];
    intros s cap k Hs Hk; simpl.
  - apply Hk, Hs.
  - destruct s as [|x s]; [reflexivity|]. simpl in Hs.
    apply andb_true_iff in Hs. destruct Hs as (_ & Hs).
    destruct (RegExp.same_char c x); [apply Hk, Hs | reflexivity].
  - destruct s as [|x s]; [reflexivity|]. simpl in Hs.
    apply andb_true_iff in Hs. destruct Hs as (_ & Hs).
    destruct (RegExp.in_class n rs x); [apply Hk, Hs | reflexivity].
  - apply IH1; [exact Hs|]. intros s' cap' Hs'. apply IH2; assumption.
  - rewrite (IH1 s cap k Hs Hk). apply IH2; assumption.
  - rewrite (IH1 s cap k Hs Hk). apply Hk, Hs.
  - destruct s as [|x s]; [reflexivity|]. simpl in Hs.
    apply andb_true_iff in Hs. destruct Hs as (_ & Hs).
    destruct (RegExp.in_class n rs x); [|reflexivity].
    apply (star_cls_fails d); assumption.
  - apply IH1; [exact Hs|]. intros s' cap' Hs'. apply Hk, Hs'.
Qed.

(** A pattern that needs [d] fails on an input without [d]. *)
Lemma matcher_needs (d : ascii) (r : RegExp.regex) :
  forall s cap k,
    needs d r = true ->
    lacks d s = true ->
    RegExp.matcher r s cap k = None.
Proof.
  induction r as [ | c | n rs | r1 IH1 r2 IH2 | r1 IH1 r2 IH2 | r1 IH1
                 | n rs | r1 IH1 ];
    intros s cap k Hn Hs; simpl in Hn; try discriminate; simpl.
  - destruct s as [|x s]; [reflexivity|]. simpl in Hs.
    apply andb_true_iff in Hs. destruct Hs as (Hx & _).
    apply negb_true_iff in Hx.
    rewrite (same_char_trans_false c d x Hn Hx). reflexivity.
  - apply orb_true_iff in Hn. destruct Hn as [Hn | Hn].
    + apply IH1; assumption.
    + apply (matcher_fails_with d); [exact Hs|].
      intros s' cap' Hs'. apply IH2; assumption.
  - apply andb_true_iff in Hn. destruct Hn as (H1 & H2).
    rewrite (IH1 s cap k H1 Hs). apply IH2; assumption.
  - apply IH1; assumption.
Qed.

Lemma exec_needs (d : ascii) (r : RegExp.regex) (s : string) :
  needs d r = true -> lacks d s = true -> RegExp.exec r s = None.
Proof.
  intros Hn. induction s as [|c s IH]; intros Hs; simpl.
  - rewrite (matcher_needs d r _ _ _ Hn Hs). reflexivity.
  - rewrite (matcher_needs d r _ _ _ Hn Hs).
    simpl in Hs. apply andb_true_iff in Hs. apply IH, Hs.
Qed.

Lemma hit_needs (d : ascii) (r : RegExp.regex) (url : string) :
  needs d r = true -> lacks d url = true -> hit url r = None.
Proof.
  intros Hn Hs. unfold hit, js_match.
  rewrite (exec_needs d r url Hn Hs). reflexivity.
Qed.

(** ** X19: URLs that cannot be embedded *)

(** X19: a URL without a dot, or without a slash, is never embedded: the
    resolver returns [null] for it (the empty string for the empty URL),
    since each of the eight patterns needs both. *)
Theorem url_without_dot_or_slash_not_embedded (url : string) :
  lacks "." url = true \/ lacks "/" url = true ->
  createVideoEmbed url = if Js.truthy url then None else Some EmptyString.
Proof.
  intros H. destruct url as [|a u]; [reflexivity|].
  assert (Hu : String a u <> EmptyString) by discriminate.
  rewrite (createVideoEmbed_first_pattern _ Hu). simpl Js.truthy. cbv iota.
  apply first_pattern_none.
  destruct H as [H | H].
  - repeat (apply Forall_cons || apply Forall_nil); unfold misses;
      apply (hit_needs "."); (reflexivity || exact H).
  - repeat (apply Forall_cons || apply Forall_nil); unfold misses;
      apply (hit_needs "/"); (reflexivity || exact H).
Qed.

Lemma url_without_dot_or_slash_not_embedded_witness :
  createVideoEmbed "youtube" = None /\
  createVideoEmbed "www.youtube.com" = None.
Proof.
  split.
  - apply (url_without_dot_or_slash_not_embedded "youtube").
    left. reflexivity.
  - apply (url_without_dot_or_slash_not_embedded "www.youtube.com").
    right. reflexivity.
Defined.

(** ** The matcher on well-formed URLs *)

Lemma exec_accept (r : RegExp.regex) (s : string) :
  RegExp.exec r s =
  match RegExp.matcher r s None accept with
  | Some cap => Some cap
  | None =>
      match s with
      | EmptyString => None
      | String _ s' => RegExp.exec r s'
      end
  end.
Proof. destruct s; reflexivity. Qed.

Lemma exec_skips (r : RegExp.regex) (prefix s : string) :
  skips r prefix -> RegExp.exec r (prefix ++ s) = RegExp.exec r s.
Proof.
  induction prefix as [|c rest IH]; [reflexivity|].
  intros (Hc & Hrest).
  change (String c rest ++ s)%string with (String c (rest ++ s)).
  rewrite (exec_accept r (String c (rest ++ s))), Hc. apply IH, Hrest.
Qed.

Lemma exec_enters (r last : RegExp.regex) (prefix s : string)
    (cap : RegExp.Capture) :
  enters r last prefix ->
  RegExp.matcher last s None accept = Some cap ->
  RegExp.exec r (prefix ++ s) = Some cap.
Proof. intros He Hm. rewrite exec_accept, (He s cap Hm). reflexivity. Qed.

(** The greedy run takes all of [id] when what follows stops it. *)
Lemma star_cls_run (negated : bool) (ranges : list (ascii * ascii))
    (id tail : string) (cap : RegExp.Capture) (k : RegExp.Cont)
    (res : RegExp.Capture) :
  all_chars (RegExp.in_class negated ranges) id = true ->
  stops (RegExp.in_class negated ranges) tail = true ->
  k tail cap = Some res ->
  RegExp.star_cls negated ranges (id ++ tail) cap k = Some res.
Proof.
  intros Hid Ht Hk. induction id as [|c id IH]; simpl.
  - destruct tail as [|x tail]; simpl; [exact Hk|].
    simpl in Ht. apply negb_true_iff in Ht. rewrite Ht. exact Hk.
  - simpl in Hid. apply andb_true_iff in Hid. destruct Hid as (Hc & Hid).
    rewrite Hc, (IH Hid). reflexivity.
Qed.

(** The capturing group [(class+)] on an id of the class followed by
    something that stops the run captures the id. *)
Lemma group_captures_id (negated : bool) (ranges : list (ascii * ascii))
    (id tail : string) :
  id <> EmptyString ->
  all_chars (RegExp.in_class negated ranges) id = true ->
  stops (RegExp.in_class negated ranges) tail = true ->
  RegExp.matcher (RegExp.Group (RegExp.PlusCls negated ranges))
    (id ++ tail) None accept = Some (Some id).
Proof.
  intros Hne Hid Ht. destruct id as [|c id]; [contradiction|].
  change (String c id ++ tail)%string with (String c (id ++ tail)).
  change (RegExp.matcher (RegExp.Group (RegExp.PlusCls negated ranges))
            (String c (id ++ tail)) None accept)
    with (if RegExp.in_class negated ranges c
          then RegExp.star_cls negated ranges (id ++ tail) None
                 (fun s' _ => accept s'
                    (Some (substring 0
                             (String.length (String c (id ++ tail))
                              - String.length s')
                             (String c (id ++ tail)))))
          else None).
  simpl in Hid. apply andb_true_iff in Hid. destruct Hid as (Hc & Hid).
  rewrite Hc.
  apply star_cls_run; [exact Hid | exact Ht|].
  unfold accept. f_equal. f_equal.
  change (String c (id ++ tail)) with (String c id ++ tail)%string.
  rewrite length_append.
  replace (String.length (String c id) + String.length tail
           - String.length tail) with (String.length (String c id)) by lia.
  apply (substring_prefix (String c id) tail).
Qed.

Lemma all_chars_impl (p q : ascii -> bool) (s : string) :
  (forall c, p c = true -> q c = true) ->
  all_chars p s = true -> all_chars q s = true.
Proof.
  intros H. induction s as [|c s IH]; simpl; [reflexivity|].
  intros Hs. apply andb_true_iff in Hs. destruct Hs as (Hc & Hs).
  rewrite (H c Hc), (IH Hs). reflexivity.
Qed.

Lemma lacks_app (d : ascii) (a b : string) :
  lacks d (a ++ b) = lacks d a && lacks d b.
Proof.
  induction a as [|c a IH]; simpl; [reflexivity|].
  rewrite IH, andb_assoc. reflexivity.
Qed.

Lemma all_chars_lacks (p : ascii -> bool) (d : ascii) (s : string) :
  (forall c, p c = true -> RegExp.same_char d c = false) ->
  all_chars p s = true -> lacks d s = true.
Proof.
  intros H. induction s as [|c s IH]; simpl; [reflexivity|].
  intros Hs. apply andb_true_iff in Hs. destruct Hs as (Hc & Hs).
  rewrite (H c Hc), (IH Hs). reflexivity.
Qed.

Lemma stops_impl (p q : ascii -> bool) (s : string) :
  (forall c, q c = true -> p c = true) ->
  stops p s = true -> stops q s = true.
Proof.
  intros H. destruct s as [|c s]; simpl; [reflexivity|].
  intros Hp. apply negb_true_iff in Hp. apply negb_true_iff.
  destruct (q c) eqn:Hq; [|reflexivity].
  rewrite (H c Hq) in Hp. discriminate.
Qed.

(** The character classes of the patterns, read as predicates. *)
Lemma class_amp_hash (c : ascii) :
  RegExp.in_class true amp_hash c = not_separator c.
Proof. destruct c as [[] [] [] [] [] [] [] []]; vm_compute; reflexivity. Qed.

Lemma class_query_amp_hash (c : ascii) :
  RegExp.in_class true query_amp_hash c = not_query_separator c.
Proof. destruct c as [[] [] [] [] [] [] [] []]; vm_compute; reflexivity. Qed.

Lemma class_digit (c : ascii) : RegExp.in_class false digit c = is_digit c.
Proof. destruct c as [[] [] [] [] [] [] [] []]; vm_compute; reflexivity. Qed.

Lemma class_alnum (c : ascii) : RegExp.in_class false alnum c = is_alnum c.
Proof. destruct c as [[] [] [] [] [] [] [] []]; vm_compute; reflexivity. Qed.

Lemma digit_no_dot (c : ascii) :
  is_digit c = true -> RegExp.same_char "." c = false.
Proof.
  destruct c as [[] [] [] [] [] [] [] []]; vm_compute;
    (discriminate || reflexivity).
Qed.

Lemma alnum_no_dot (c : ascii) :
  is_alnum c = true -> RegExp.same_char "." c = false.
Proof.
  destruct c as [[] [] [] [] [] [] [] []]; vm_compute;
    (discriminate || reflexivity).
Qed.

Lemma all_patterns_need_dot :
  Forall (fun q => needs "." (snd q) = true) all_patterns.
Proof. repeat constructor. Qed.

Lemma nth_error_firstn_skipn {A : Type} (l : list A) (j : nat) (x : A) :
  nth_error l j = Some x -> l = firstn j l ++ x :: skipn (S j) l.
Proof.
  revert j. induction l as [|a l IH]; intros [|j] H; try discriminate.
  - injection H as ->. reflexivity.
  - simpl in H. simpl. f_equal. apply IH, H.
Qed.

Lemma Forall_firstn_of {A : Type} (P : A -> Prop) (l : list A) (j : nat) :
  Forall P l -> Forall P (firstn j l).
Proof.
  intros H. revert j. induction H as [|a l Ha _ IH]; intros [|j]; simpl;
    constructor; [exact Ha | apply IH].
Qed.

(** A URL made of a known start [start] and a remainder [rest] resolves by
    pattern number [j] as soon as the earlier patterns match nowhere in the
    start, the remainder has no dot (or there is no earlier pattern), and
    pattern [j] matches at the start, capturing [id]. *)
Lemma shape_resolves (j : nat) (p : Provider) (re last : RegExp.regex)
    (start rest id : string) :
  nth_error all_patterns j = Some (p, re) ->
  Forall (fun q => skips (snd q) start) (firstn j all_patterns) ->
  j = 0 \/ lacks "." rest = true ->
  enters re last start ->
  RegExp.matcher last rest None accept = Some (Some id) ->
  id <> EmptyString ->
  createVideoEmbed (start ++ rest) = Some (template p id).
Proof.
  intros Hj Hskip Hdot He Hm Hne.
  assert (Hu : (start ++ rest)%string <> EmptyString).
  { intros Hu. destruct id as [|c id]; [contradiction|].
    pose proof (exec_enters re last start rest _ He Hm) as Hx.
    rewrite Hu in Hx. apply exec_capture in Hx.
    destruct Hx as (a & b & Hx). destruct a; discriminate. }
  rewrite (createVideoEmbed_first_pattern _ Hu).
  rewrite (nth_error_firstn_skipn all_patterns j (p, re) Hj) at 1.
  apply first_pattern_wins.
  - destruct Hdot as [-> | Hdot]; [constructor|].
    pose proof (Forall_firstn_of _ _ j all_patterns_need_dot) as Hn.
    revert Hskip Hn. generalize (firstn j all_patterns) as before.
    intros before Hskip Hn.
    induction Hskip as [|q before Hq Hskip IH]; constructor.
    + unfold misses, hit, js_match.
      rewrite (exec_skips (snd q) start rest Hq).
      inversion Hn as [|? ? Hnq Hn']; subst.
      rewrite (exec_needs "." (snd q) rest Hnq Hdot). reflexivity.
    + inversion Hn; subst. apply IH; assumption.
  - unfold hit, js_match.
    rewrite (exec_enters re last start rest _ He Hm).
    destruct id; [contradiction | reflexivity].
Qed.

(** A pattern that ends with [last] enters it after [start] when the part
    before [last] consumes [start] with any continuation. *)
Lemma enters_head (re head last : RegExp.regex) (start : string) :
  (forall s k, RegExp.matcher re s None k =
               RegExp.matcher head s None
                 (fun s' cap' => RegExp.matcher last s' cap' k)) ->
  (forall (k : RegExp.Cont) s cap,
      k s None = Some cap ->
      RegExp.matcher head (start ++ s) None k = Some cap) ->
  enters re last start.
Proof.
  intros Hsplit Hhead s cap H. rewrite Hsplit.
  apply (Hhead (fun s' cap' => RegExp.matcher last s' cap' accept)).
  exact H.
Qed.

(** Proof steps for a concrete start of the URL. *)
Ltac solve_enters head :=
  apply (enters_head _ (url_prefix head));
  [ intros; reflexivity
  | let k := fresh "k" in
    let s := fresh "s" in
    let cap := fresh "cap" in
    let H := fresh "H" in
    intros k s cap H; vm_compute; rewrite H; reflexivity ].

(** Joins the concrete start of the URL in the goal. *)
Ltac fixed_start :=
  match goal with
  | |- createVideoEmbed (?a ++ ?b ++ ?rest) = Some (?f ?id) =>
      let start := eval vm_compute in (a ++ b)%string in
      change (createVideoEmbed (start ++ rest) = Some (f id))
  end.

(** ** X20: watch-page URLs *)

(** X20: a YouTube watch-page URL resolves to the YouTube player of its
    video id, whatever the id and whatever follows it: with or without
    scheme and [www.], for every non-empty id free of [&] and [#], followed
    by nothing or by further parameters starting with [&] or [#]. *)
Theorem watch_url_resolves (prefix id tail : string) :
  In prefix accepted_prefixes ->
  id <> EmptyString ->
  all_chars not_separator id = true ->
  stops not_separator tail = true ->
  createVideoEmbed (prefix ++ "youtube.com/watch?v=" ++ id ++ tail)
  = Some (youtubeEmbed id).
Proof.
  intros Hin Hne Hid Ht.
  assert (Hm : RegExp.matcher (RegExp.Group (RegExp.PlusCls true amp_hash))
                 (id ++ tail) None accept = Some (Some id)).
  { apply group_captures_id; [exact Hne | |].
    - apply (all_chars_impl not_separator); [|exact Hid].
      intros c Hc. rewrite class_amp_hash. exact Hc.
    - apply (stops_impl not_separator); [|exact Ht].
      intros c Hc. rewrite <- class_amp_hash. exact Hc. }
  revert Hm. generalize (id ++ tail)%string as rest. intros rest Hm.
  unfold accepted_prefixes in Hin. simpl in Hin.
  repeat (destruct Hin as [<- | Hin]); [..|contradiction];
    fixed_start;
    (eapply (shape_resolves 0 YouTube _
               (RegExp.Group (RegExp.PlusCls true amp_hash)));
       [reflexivity | constructor | left; reflexivity
       | solve_enters (RegExp.lit "youtube.com/watch?v=")
       | exact Hm | exact Hne]).
Qed.

Lemma watch_url_resolves_witness :
  createVideoEmbed "https://www.youtube.com/watch?v=dQw4w9WgXcQ&t=42s"
  = Some (youtubeEmbed "dQw4w9WgXcQ").
Proof.
  apply (watch_url_resolves "https://www." "dQw4w9WgXcQ" "&t=42s").
  - left. reflexivity.
  - discriminate.
  - reflexivity.
  - reflexivity.
Defined.

Ltac solve_skips :=
  repeat (apply Forall_cons || apply Forall_nil);
  (vm_compute; repeat (split; [intros ?; reflexivity|]); exact I).

(** One concrete start: pattern number [j] of provider [p], whose part
    before the group is [head] and whose group is [last]. *)
Ltac resolve_by j p head last Hdot Hm Hne :=
  fixed_start;
  (eapply (shape_resolves j p _ last);
     [ reflexivity | solve_skips | right; exact Hdot | solve_enters head
     | exact Hm | exact Hne ]).

(** ** X21: the other YouTube shapes *)

(** X21: an embed, [/v/] or short-link YouTube URL resolves to the YouTube
    player of its video id: with or without scheme and [www.], for every
    non-empty id free of [?], [&] and [#], followed by nothing or by
    something that starts with one of these, as long as no dot follows the
    path. *)
Theorem youtube_path_urls_resolve (prefix path id tail : string) :
  In prefix accepted_prefixes ->
  In path youtube_paths ->
  id <> EmptyString ->
  all_chars not_query_separator id = true ->
  stops not_query_separator tail = true ->
  lacks "." (id ++ tail) = true ->
  createVideoEmbed (prefix ++ path ++ id ++ tail) = Some (youtubeEmbed id).
Proof.
  intros Hin Hpath Hne Hid Ht Hdot.
  assert (Hm : RegExp.matcher
                 (RegExp.Group (RegExp.PlusCls true query_amp_hash))
                 (id ++ tail) None accept = Some (Some id)).
  { apply group_captures_id; [exact Hne | |].
    - apply (all_chars_impl not_query_separator); [|exact Hid].
      intros c Hc. rewrite class_query_amp_hash. exact Hc.
    - apply (stops_impl not_query_separator); [|exact Ht].
      intros c Hc. rewrite <- class_query_amp_hash. exact Hc. }
  revert Hm Hdot. generalize (id ++ tail)%string as rest. intros rest Hm Hdot.
  unfold youtube_paths in Hpath. simpl in Hpath.
  unfold accepted_prefixes in Hin. simpl in Hin.
  destruct Hpath as [<- | [<- | [<- | []]]].
  - repeat (destruct Hin as [<- | Hin]); [..|contradiction];
      resolve_by 1 YouTube (RegExp.lit "youtube.com/embed/")
        (RegExp.Group (RegExp.PlusCls true query_amp_hash)) Hdot Hm Hne.
  - repeat (destruct Hin as [<- | Hin]); [..|contradiction];
      resolve_by 2 YouTube (RegExp.lit "youtube.com/v/")
        (RegExp.Group (RegExp.PlusCls true query_amp_hash)) Hdot Hm Hne.
  - repeat (destruct Hin as [<- | Hin]); [..|contradiction];
      resolve_by 3 YouTube (RegExp.lit "youtu.be/")
        (RegExp.Group (RegExp.PlusCls true query_amp_hash)) Hdot Hm Hne.
Qed.

Lemma youtube_path_urls_resolve_witness :
  createVideoEmbed "https://youtu.be/dQw4w9WgXcQ?t=42"
  = Some (youtubeEmbed "dQw4w9WgXcQ").
Proof.
  apply (youtube_path_urls_resolve "https://" "youtu.be/" "dQw4w9WgXcQ"
           "?t=42").
  - right. right. left. reflexivity.
  - right. right. left. reflexivity.
  - discriminate.
  - reflexivity.
  - reflexivity.
  - reflexivity.
Defined.

(** ** X22: Vimeo URLs *)

(** X22: a Vimeo page or player URL resolves to the Vimeo player of its
    numeric id: with or without scheme and [www.], for every non-empty run
    of digits, followed by nothing or by something that starts with a
    non-digit and has no dot. *)
Theorem vimeo_urls_resolve (prefix path id tail : string) :
  In prefix accepted_prefixes ->
  In path vimeo_paths ->
  id <> EmptyString ->
  all_chars is_digit id = true ->
  stops is_digit tail = true ->
  lacks "." tail = true ->
  createVideoEmbed (prefix ++ path ++ id ++ tail) = Some (vimeoEmbed id).
Proof.
  intros Hin Hpath Hne Hid Ht Hdot'.
  assert (Hdot : lacks "." (id ++ tail) = true).
  { rewrite lacks_app, Hdot', (all_chars_lacks is_digit "." id digit_no_dot Hid).
    reflexivity. }
  assert (Hm : RegExp.matcher (RegExp.Group (RegExp.PlusCls false digit))
                 (id ++ tail) None accept = Some (Some id)).
  { apply group_captures_id; [exact Hne | |].
    - apply (all_chars_impl is_digit); [|exact Hid].
      intros c Hc. rewrite class_digit. exact Hc.
    - apply (stops_impl is_digit); [|exact Ht].
      intros c Hc. rewrite <- class_digit. exact Hc. }
  revert Hm Hdot. generalize (id ++ tail)%string as rest. intros rest Hm Hdot.
  unfold vimeo_paths in Hpath. simpl in Hpath.
  unfold accepted_prefixes in Hin. simpl in Hin.
  destruct Hpath as [<- | [<- | []]].
  - repeat (destruct Hin as [<- | Hin]); [..|contradiction];
      resolve_by 4 Vimeo (RegExp.lit "vimeo.com/")
        (RegExp.Group (RegExp.PlusCls false digit)) Hdot Hm Hne.
  - repeat (destruct Hin as [<- | Hin]); [..|contradiction];
      resolve_by 5 Vimeo (RegExp.lit "player.vimeo.com/video/")
        (RegExp.Group (RegExp.PlusCls false digit)) Hdot Hm Hne.
Qed.

Lemma vimeo_urls_resolve_witness :
  createVideoEmbed "https://player.vimeo.com/video/76979871?h=8272103f6e"
  = Some (vimeoEmbed "76979871").
Proof.
  apply (vimeo_urls_resolve "https://" "player.vimeo.com/video/" "76979871"
           "?h=8272103f6e").
  - right. right. left. reflexivity.
  - right. left. reflexivity.
  - discriminate.
  - reflexivity.
  - reflexivity.
  - reflexivity.
Defined.

(** ** X23: Dailymotion URLs *)

(** X23: a Dailymotion video, hub or short-link URL resolves to the
    Dailymotion player of its id: with or without scheme and [www.], for
    every non-empty run of letters and digits, followed by nothing or by
    something that starts with another character and has no dot. *)
Theorem dailymotion_urls_resolve (prefix path id tail : string) :
  In prefix accepted_prefixes ->
  In path dailymotion_paths ->
  id <> EmptyString ->
  all_chars is_alnum id = true ->
  stops is_alnum tail = true ->
  lacks "." tail = true ->
  createVideoEmbed (prefix ++ path ++ id ++ tail)
  = Some (dailymotionEmbed id).
Proof.
  intros Hin Hpath Hne Hid Ht Hdot'.
  assert (Hdot : lacks "." (id ++ tail) = true).
  { rewrite lacks_app, Hdot', (all_chars_lacks is_alnum "." id alnum_no_dot Hid).
    reflexivity. }
  assert (Hm : RegExp.matcher (RegExp.Group (RegExp.PlusCls false alnum))
                 (id ++ tail) None accept = Some (Some id)).
  { apply group_captures_id; [exact Hne | |].
    - apply (all_chars_impl is_alnum); [|exact Hid].
      intros c Hc. rewrite class_alnum. exact Hc.
    - apply (stops_impl is_alnum); [|exact Ht].
      intros c Hc. rewrite <- class_alnum. exact Hc. }
  revert Hm Hdot. generalize (id ++ tail)%string as rest. intros rest Hm Hdot.
  unfold dailymotion_paths in Hpath. simpl in Hpath.
  unfold accepted_prefixes in Hin. simpl in Hin.
  destruct Hpath as [<- | [<- | [<- | []]]].
  - repeat (destruct Hin as [<- | Hin]); [..|contradiction];
      resolve_by 6 Dailymotion
        (RegExp.Seq (RegExp.lit "dailymotion.com")
           (RegExp.Seq (RegExp.Alt (RegExp.lit "/video") (RegExp.lit "/hub"))
              (RegExp.Chr "/")))
        (RegExp.Group (RegExp.PlusCls false alnum)) Hdot Hm Hne.
  - repeat (destruct Hin as [<- | Hin]); [..|contradiction];
      resolve_by 6 Dailymotion
        (RegExp.Seq (RegExp.lit "dailymotion.com")
           (RegExp.Seq (RegExp.Alt (RegExp.lit "/video") (RegExp.lit "/hub"))
              (RegExp.Chr "/")))
        (RegExp.Group (RegExp.PlusCls false alnum)) Hdot Hm Hne.
  - repeat (destruct Hin as [<- | Hin]); [..|contradiction];
      resolve_by 7 Dailymotion (RegExp.lit "dai.ly/")
        (RegExp.Group (RegExp.PlusCls false alnum)) Hdot Hm Hne.
Qed.

Lemma dailymotion_urls_resolve_witness :
  createVideoEmbed "https://www.dailymotion.com/video/x7tgad0?playlist=x6hynp"
  = Some (dailymotionEmbed "x7tgad0").
Proof.
  apply (dailymotion_urls_resolve "https://www." "dailymotion.com/video/"
           "x7tgad0" "?playlist=x6hynp").
  - left. reflexivity.
  - left. reflexivity.
  - discriminate.
  - reflexivity.
  - reflexivity.
  - reflexivity.
Defined.
